(** * The farmer's harvester and full-node protocol handlers

    A shallow embedding of [chia/farmer/farmer_api.py] (class [FarmerAPI]):
    the handlers [new_proof_of_space], [respond_signatures],
    [new_signage_point], [request_signed_values] and the helper
    [process_new_proof_of_space_for_pool], over an explicit farmer state.

    Conventions.
    - A [bytes32], a serialized BLS element ([G1Element], [G2Element],
      [PrivateKey]) and any other byte string is the natural number it
      spells in big-endian; Python [int]s are [Z].
    - A Python [dict] is a [gmap]; [d[k]] on a missing key raises
      [KeyError], [l[i]] out of range raises [IndexError], a failed
      [assert] raises [AssertionError].
    - A handler is a computation over the farmer state that also produces
      the trace of its effects on the outside world (log records, messages
      sent, calls to the pool).  State written before an exception stays
      written, as in Python.
    - Each handler body is run to completion: interleaving at [await] is
      outside this model. *)

From Stdlib Require Import ZArith NArith String List Lia.
From stdpp Require Import base option list gmap strings fin_maps.

Local Open Scope Z_scope.

(** ** Byte strings and keys *)

Abbreviation bytes32 := N (only parsing).
Abbreviation bytes := N (only parsing).
Abbreviation G1Element := N (only parsing).
Abbreviation G2Element := N (only parsing).
Abbreviation PrivateKey := N (only parsing).
Abbreviation uint64 := Z (only parsing).
Abbreviation uint32 := Z (only parsing).
Abbreviation uint8 := Z (only parsing).

(** ** Protocol data *)

(** [chia.consensus.constants.ConsensusConstants]: the handlers read one
    field and pass the whole value on to the consensus functions, of which
    [calculate_sp_interval_iters] reads [NUM_SPS_SUB_SLOT]. *)
Record ConsensusConstants := {
  DIFFICULTY_CONSTANT_FACTOR : Z;
  NUM_SPS_SUB_SLOT : Z;
  OTHER_CONSTANTS : N;
}.

(** [chia.types.blockchain_format.proof_of_space.ProofOfSpace] *)
Record ProofOfSpace := {
  challenge : bytes32;
  pool_public_key : option G1Element;
  pool_contract_puzzle_hash : option bytes32;
  plot_public_key : G1Element;
  size : uint8;
  proof_bytes : bytes;
}.

(** [farmer_protocol.NewSignagePoint] *)
Record NewSignagePoint := {
  sp_challenge_hash : bytes32;
  challenge_chain_sp : bytes32;
  reward_chain_sp : bytes32;
  difficulty : uint64;
  sub_slot_iters : uint64;
  sp_signage_point_index : uint8;
}.

(** [harvester_protocol.NewSignagePointHarvester] *)
Record NewSignagePointHarvester := {
  nsh_challenge_hash : bytes32;
  nsh_difficulty : uint64;
  nsh_sub_slot_iters : uint64;
  nsh_signage_point_index : uint8;
  nsh_sp_hash : bytes32;
}.

(** [harvester_protocol.NewProofOfSpace] *)
Record NewProofOfSpace := {
  pos_challenge_hash : bytes32;
  pos_sp_hash : bytes32;
  pos_plot_identifier : string;
  proof : ProofOfSpace;
  pos_signage_point_index : uint8;
}.

(** [harvester_protocol.RequestSignatures] *)
Record RequestSignatures := {
  rq_plot_identifier : string;
  rq_challenge_hash : bytes32;
  rq_sp_hash : bytes32;
  messages : list bytes32;
}.

(** [harvester_protocol.RespondSignatures] *)
Record RespondSignatures := {
  rs_plot_identifier : string;
  rs_challenge_hash : bytes32;
  rs_sp_hash : bytes32;
  local_pk : G1Element;
  farmer_pk : G1Element;
  message_signatures : list (bytes32 * G2Element);
}.

(** [chia.types.blockchain_format.pool_target.PoolTarget] *)
Record PoolTarget := {
  puzzle_hash : bytes32;
  max_height : uint32;
}.

(** [farmer_protocol.DeclareProofOfSpace] *)
Record DeclareProofOfSpace := {
  dp_challenge_hash : bytes32;
  dp_challenge_chain_sp : bytes32;
  dp_signage_point_index : uint8;
  dp_reward_chain_sp : bytes32;
  proof_of_space : ProofOfSpace;
  challenge_chain_sp_signature : G2Element;
  reward_chain_sp_signature : G2Element;
  farmer_puzzle_hash : bytes32;
  dp_pool_target : option PoolTarget;
  pool_signature : option G2Element;
}.

(** [farmer_protocol.RequestSignedValues] *)
Record RequestSignedValues := {
  rv_quality_string : bytes32;
  foliage_block_data_hash : bytes32;
  foliage_transaction_block_hash : bytes32;
}.

(** [farmer_protocol.SignedValues] *)
Record SignedValues := {
  sv_quality_string : bytes32;
  foliage_block_data_signature : G2Element;
  foliage_transaction_block_signature : G2Element;
}.

(** [og_pool_protocol.PartialPayload], built positionally at line 337 from
    the proof, the pool difficulty, the signage point hash, the
    end-of-sub-slot flag and the payout address. *)
Record PartialPayload := {
  pp_proof_of_space : ProofOfSpace;
  pp_difficulty : uint64;
  pp_sp_hash : bytes32;
  pp_end_of_sub_slot : bool;
  pp_payout_address : string;
}.

(** [og_pool_protocol.SubmitPartial] *)
Record SubmitPartial := {
  payload : PartialPayload;
  sp_aggregate_signature : G2Element;
}.

(** The dictionary the pool answers a submission with, read at the three
    keys the handler looks at: a key that is present holds a value of the
    type the pool protocol gives it. *)
Record PoolResponse := {
  error_code : option Z;
  error_message : option string;
  current_difficulty : option uint64;
}.

(** [pool_api_client.submit_partial]: it raises, or returns the dictionary. *)
Inductive SubmitResult :=
| SubmitRaised
| SubmitReturned (d : PoolResponse).

(** [ws.WSChiaConnection], as far as the handlers use a peer: its node id
    and what it answers to [request_signatures] ([None] stands for any
    answer that is not a [RespondSignatures]). *)
Record WSChiaConnection := {
  peer_node_id : bytes32;
  request_signatures_reply : RequestSignatures -> option RespondSignatures;
}.

#[global] Instance ConsensusConstants_eq_dec : EqDecision ConsensusConstants.
Proof. solve_decision. Defined.
#[global] Instance ProofOfSpace_eq_dec : EqDecision ProofOfSpace.
Proof. solve_decision. Defined.
#[global] Instance NewSignagePoint_eq_dec : EqDecision NewSignagePoint.
Proof. solve_decision. Defined.

(** ** Outbound messages and the trace of effects *)

(** [make_msg(ProtocolMessageTypes.t, data)] *)
Inductive Message :=
| request_signatures (data : RequestSignatures)
| declare_proof_of_space (data : DeclareProofOfSpace)
| signed_values (data : SignedValues)
| new_signage_point_harvester (data : NewSignagePointHarvester).

Inductive NodeType := FULL_NODE | HARVESTER.

Inductive LogLevel := DEBUG | INFO | WARNING | ERROR.

(** One constructor per logging call of the file, with the values its
    f-string interpolates. *)
Inductive LogRecord :=
| Surpassed_PoSpace_for_one_SP (max_pos_per_sp : Z) (sp_hash : bytes32)
| Received_response_for_unknown_signage_point (sp_hash : bytes32)
| Invalid_proof_of_space (p : ProofOfSpace)
| Do_not_have_challenge_hash (challenge_hash : bytes32)
| Have_invalid_PoSpace (p : ProofOfSpace)
| Dont_have_private_key_for_pool_key (pool_pk : bytes)
| Duplicate_signage_point (index : uint8)
| Do_not_have_quality_string (quality_string : bytes32)
| Not_good_enough_for_pool_difficulty (pool_difficulty : uint64)
| Invalid_response_from_harvester
| Submitting_partial
| Error_submitting_partial_to_pool
| Pool_response (d : PoolResponse)
| Difficulty_too_low_adjusting (current_difficulty : uint64)
| Error_in_pooling (error_code : Z) (error_message : string).

Inductive Event :=
| Log (level : LogLevel) (record : LogRecord)
| SendToAll (msgs : list Message) (node_type : NodeType)
| SendToSpecific (msgs : list Message) (node_id : bytes32)
| PeerRequestSignatures (node_id : bytes32) (request : RequestSignatures)
| PoolSubmitPartial (submit_partial : SubmitPartial)
| StateChanged_proof (request : DeclareProofOfSpace) (passed_filter : bool)
| StateChanged_new_signage_point (sp_hash : bytes32).

(** ** The farmer state *)

(** The attributes of [Farmer] that [FarmerAPI] reads or writes. *)
Record Farmer := {
  constants : ConsensusConstants;
  sps : gmap N (list NewSignagePoint);
  proofs_of_space : gmap N (list (string * ProofOfSpace));
  quality_str_to_identifiers : gmap N (string * bytes32 * bytes32 * bytes32);
  number_of_responses : gmap N Z;
  cache_add_time : gmap N uint64;
  pool_sks_map : gmap N PrivateKey;
  farmer_target : bytes32;
  pool_target : bytes32;
  pool_difficulty : uint64;
  pool_sub_slot_iters : uint64;
  iters_limit : uint64;
  pool_payout_address : string;
  last_pool_partial_submit_timestamp : Z;
}.

Definition set_sps (f : gmap N (list NewSignagePoint) -> gmap N (list NewSignagePoint))
    (s : Farmer) : Farmer :=
  let 'Build_Farmer c sp po q n t k ft pt pd ps il pa ts := s in
  Build_Farmer c (f sp) po q n t k ft pt pd ps il pa ts.

Definition set_proofs_of_space
    (f : gmap N (list (string * ProofOfSpace)) -> gmap N (list (string * ProofOfSpace)))
    (s : Farmer) : Farmer :=
  let 'Build_Farmer c sp po q n t k ft pt pd ps il pa ts := s in
  Build_Farmer c sp (f po) q n t k ft pt pd ps il pa ts.

Definition set_quality_str_to_identifiers
    (f : gmap N (string * bytes32 * bytes32 * bytes32) -> gmap N (string * bytes32 * bytes32 * bytes32))
    (s : Farmer) : Farmer :=
  let 'Build_Farmer c sp po q n t k ft pt pd ps il pa ts := s in
  Build_Farmer c sp po (f q) n t k ft pt pd ps il pa ts.

Definition set_number_of_responses (f : gmap N Z -> gmap N Z) (s : Farmer) : Farmer :=
  let 'Build_Farmer c sp po q n t k ft pt pd ps il pa ts := s in
  Build_Farmer c sp po q (f n) t k ft pt pd ps il pa ts.

Definition set_cache_add_time (f : gmap N uint64 -> gmap N uint64) (s : Farmer) : Farmer :=
  let 'Build_Farmer c sp po q n t k ft pt pd ps il pa ts := s in
  Build_Farmer c sp po q n (f t) k ft pt pd ps il pa ts.

Definition set_pool_difficulty (d : uint64) (s : Farmer) : Farmer :=
  let 'Build_Farmer c sp po q n t k ft pt _ ps il pa ts := s in
  Build_Farmer c sp po q n t k ft pt d ps il pa ts.

Definition set_last_pool_partial_submit_timestamp (now : Z) (s : Farmer) : Farmer :=
  let 'Build_Farmer c sp po q n t k ft pt pd ps il pa _ := s in
  Build_Farmer c sp po q n t k ft pt pd ps il pa now.

(** ** What the handlers call outside the file

    The consensus functions, the BLS scheme, the serializers, the two
    [Farmer] methods, the clock and the pool client are not part of
    [farmer_api.py]; the handlers are written against this interface. *)
Class Externals := {
  (** [ProofOfSpace.verify_and_get_quality_string(constants, challenge, sp)] *)
  verify_and_get_quality_string :
    ProofOfSpace -> ConsensusConstants -> bytes32 -> bytes32 -> option bytes32;
  (** [calculate_iterations_quality(factor, quality, size, difficulty, sp)] *)
  calculate_iterations_quality : Z -> bytes32 -> uint8 -> uint64 -> bytes32 -> uint64;
  (** [calculate_sp_interval_iters(constants, sub_slot_iters)]: the value
      of the call where its assertion holds, that is for [sub_slot_iters]
      a multiple of [NUM_SPS_SUB_SLOT]. *)
  calculate_sp_interval_iters : ConsensusConstants -> uint64 -> uint64;
  (** [sk.get_g1()] *)
  get_g1 : PrivateKey -> G1Element;
  (** [ProofOfSpace.generate_plot_public_key(local_pk, farmer_pk)] *)
  generate_plot_public_key : G1Element -> G1Element -> G1Element;
  (** [AugSchemeMPL.sign(sk, message)] *)
  AugSchemeMPL_sign : PrivateKey -> bytes -> G2Element;
  (** [AugSchemeMPL.sign(sk, message, prepend_pk)] *)
  AugSchemeMPL_sign_prepend : PrivateKey -> bytes -> G1Element -> G2Element;
  (** [AugSchemeMPL.aggregate(signatures)] *)
  AugSchemeMPL_aggregate : list G2Element -> G2Element;
  (** [AugSchemeMPL.verify(pk, message, signature)] *)
  AugSchemeMPL_verify : G1Element -> bytes -> G2Element -> bool;
  (** [payload.get_hash()] *)
  get_hash : PartialPayload -> bytes32;
  (** [bytes(pool_target)] *)
  PoolTarget_bytes : PoolTarget -> bytes;
  (** [self.farmer.get_private_keys()] *)
  get_private_keys : Farmer -> list PrivateKey;
  (** [self.farmer.is_pooling_enabled()] *)
  is_pooling_enabled : Farmer -> bool;
  (** [time.time()], by the source line of the call. *)
  time : nat -> Z;
  (** [self.farmer.pool_api_client.submit_partial(submit_partial)] *)
  submit_partial_result : SubmitPartial -> SubmitResult;
}.

(** ** Handler computations *)

Inductive Exception := AssertionError | KeyError | IndexError.

(** How a statement ends: it falls through with a value, executes
    [return v], or raises. *)
Inductive Step (A : Type) :=
| Normal (a : A)
| Returning (v : option Message)
| Raising (e : Exception).
Arguments Normal {A} a.
Arguments Returning {A} v.
Arguments Raising {A} e.

Definition M (A : Type) : Type := Farmer -> Step A * Farmer * list Event.

#[global] Instance M_ret : MRet M := fun A a s => (Normal a, s, []).

#[global] Instance M_bind : MBind M := fun A B k m s =>
  match m s with
  | (Normal a, s1, t1) => let '(r, s2, t2) := k a s1 in (r, s2, t1 ++ t2)
  | (Returning v, s1, t1) => (Returning v, s1, t1)
  | (Raising e, s1, t1) => (Raising e, s1, t1)
  end.

Definition return_ {A} (v : option Message) : M A := fun s => (Returning v, s, []).
Definition raise {A} (e : Exception) : M A := fun s => (Raising e, s, []).
Definition gets {A} (f : Farmer -> A) : M A := fun s => (Normal (f s), s, []).
Definition modify (f : Farmer -> Farmer) : M unit := fun s => (Normal tt, f s, []).
Definition emit (e : Event) : M unit := fun s => (Normal tt, s, [e]).
Definition log (level : LogLevel) (record : LogRecord) : M unit := emit (Log level record).

(** [if c: body] *)
Definition when (c : bool) (body : M unit) : M unit := if c then body else mret tt.

(** [assert c] *)
Definition assert_ (c : bool) : M unit := if c then mret tt else raise AssertionError.

(** [d[k]] *)
Definition dict_get {V} (d : gmap N V) (k : N) : M V :=
  match d !! k with Some v => mret v | None => raise KeyError end.

(** [k in d] *)
Definition dict_in {V} (k : N) (d : gmap N V) : bool := bool_decide (is_Some (d !! k)).
Global Arguments dict_in : simpl never.

(** [l[i]] for [i >= 0] *)
Definition list_get {A} (l : list A) (i : nat) : M A :=
  match l !! i with Some a => mret a | None => raise IndexError end.

(** [for x in l: body], with the local variables the body assigns threaded
    through as [acc]; a [return] or an exception in the body ends the loop. *)
Fixpoint for_each {A L} (l : list A) (acc : L) (body : L -> A -> M L) : M L :=
  match l with
  | [] => mret acc
  | x :: rest => body acc x ≫= fun acc' => for_each rest acc' body
  end.

Global Arguments for_each : simpl never.

(** [await f(...)] of another coroutine of the class: its [return] ends
    the callee only. *)
Definition call (callee : M unit) : M (option Message) := fun s =>
  match callee s with
  | (Normal _, s1, t1) => (Normal None, s1, t1)
  | (Returning v, s1, t1) => (Normal v, s1, t1)
  | (Raising e, s1, t1) => (Raising e, s1, t1)
  end.

(** What the caller of a handler sees. *)
Inductive Outcome :=
| Returned (v : option Message)
| Raised (e : Exception).

Definition run (handler : M unit) (s : Farmer) : Outcome * Farmer * list Event :=
  match handler s with
  | (Normal _, s1, t1) => (Returned None, s1, t1)
  | (Returning v, s1, t1) => (Returned v, s1, t1)
  | (Raising e, s1, t1) => (Raised e, s1, t1)
  end.

(** ** The handlers *)

Section Handlers.
Context `{Externals}.

(** [process_new_proof_of_space_for_pool], lines 379-397: the call to the
    pool and the reading of its answer. *)
Definition submit_to_pool (submit_partial : SubmitPartial) : M unit :=
  emit (PoolSubmitPartial submit_partial);;
  match submit_partial_result submit_partial with
  | SubmitRaised =>
      log ERROR Error_submitting_partial_to_pool;;
      return_ None
  | SubmitReturned submit_partial_response =>
      log DEBUG (Pool_response submit_partial_response);;
      match error_code submit_partial_response with
      | Some code =>
          if code =? 5 then
            match current_difficulty submit_partial_response with
            | Some d =>
                log INFO (Difficulty_too_low_adjusting d);;
                modify (set_pool_difficulty d)
            | None => raise KeyError
            end
          else
            match error_message submit_partial_response with
            | Some text => log ERROR (Error_in_pooling code text)
            | None => raise KeyError
            end
      | None =>
          match current_difficulty submit_partial_response with
          | Some d => modify (set_pool_difficulty d)
          | None => raise KeyError
          end
      end
  end.

(** [process_new_proof_of_space_for_pool], lines 362-368: the body of the
    loop over the farmer's private keys, with the local [plot_signature]. *)
Definition pool_plot_signature_for_key (new_proof_of_space : NewProofOfSpace)
    (response : RespondSignatures) (m_to_sign : bytes32)
    (plot_signature : option G2Element) (sk : PrivateKey) : M (option G2Element) :=
  let pk := get_g1 sk in
  if bool_decide (pk = farmer_pk response) then
    let agg_pk := generate_plot_public_key (local_pk response) pk in
    assert_ (bool_decide (agg_pk = plot_public_key (proof new_proof_of_space)));;
    let sig_farmer := AugSchemeMPL_sign_prepend sk m_to_sign agg_pk in
    harvester_share ← list_get (message_signatures response) 0;
    let plot_signature := AugSchemeMPL_aggregate [sig_farmer; harvester_share.2] in
    assert_ (AugSchemeMPL_verify agg_pk m_to_sign plot_signature);;
    mret (Some plot_signature)
  else mret plot_signature.

(** [process_new_proof_of_space_for_pool], lines 313-397. *)
Definition process_new_proof_of_space_for_pool
    (new_proof_of_space : NewProofOfSpace) (peer : WSChiaConnection)
    (pool_public_key : G1Element) (computed_quality_string : bytes32) : M unit :=
  consts ← gets constants;
  difficulty_now ← gets pool_difficulty;
  let required_iters :=
    calculate_iterations_quality (DIFFICULTY_CONSTANT_FACTOR consts)
      computed_quality_string (size (proof new_proof_of_space)) difficulty_now
      (pos_sp_hash new_proof_of_space) in
  limit ← gets iters_limit;
  when (limit <=? required_iters)
    (log INFO (Not_good_enough_for_pool_difficulty difficulty_now);;
     return_ None);;
  let is_eos := pos_signage_point_index new_proof_of_space =? 0 in
  payout ← gets pool_payout_address;
  let payload :=
    Build_PartialPayload (proof new_proof_of_space) difficulty_now
      (pos_sp_hash new_proof_of_space) is_eos payout in
  let m_to_sign := get_hash payload in
  let request :=
    Build_RequestSignatures (pos_plot_identifier new_proof_of_space)
      (pos_challenge_hash new_proof_of_space) (pos_sp_hash new_proof_of_space)
      [m_to_sign] in
  emit (PeerRequestSignatures (peer_node_id peer) request);;
  match request_signatures_reply peer request with
  | None =>
      log ERROR Invalid_response_from_harvester;;
      return_ None
  | Some response =>
      assert_ (length (message_signatures response) =? 1)%nat;;
      keys ← gets get_private_keys;
      plot_signature ← for_each keys None
        (pool_plot_signature_for_key new_proof_of_space response m_to_sign);
      pool_keys ← gets pool_sks_map;
      pool_sk ← dict_get pool_keys pool_public_key;
      let authentication_signature := AugSchemeMPL_sign pool_sk m_to_sign in
      match plot_signature with
      | None => raise AssertionError
      | Some plot_signature =>
          let agg_sig := AugSchemeMPL_aggregate [plot_signature; authentication_signature] in
          let submit_partial := Build_SubmitPartial payload agg_sig in
          log DEBUG Submitting_partial;;
          modify (set_last_pool_partial_submit_timestamp (time 377));;
          submit_to_pool submit_partial
      end
  end.

(** [new_proof_of_space], lines 60-122: the body of the loop over the
    signage points registered for the proof's key. *)
Definition new_proof_of_space_for_sp
    (new_proof_of_space : NewProofOfSpace) (peer : WSChiaConnection)
    (sp : NewSignagePoint) : M unit :=
  let sp_hash := pos_sp_hash new_proof_of_space in
  consts ← gets constants;
  match verify_and_get_quality_string (proof new_proof_of_space) consts
          (pos_challenge_hash new_proof_of_space) sp_hash with
  | None =>
      log ERROR (Invalid_proof_of_space (proof new_proof_of_space));;
      return_ None
  | Some computed_quality_string =>
      counters ← gets number_of_responses;
      count ← dict_get counters sp_hash;
      modify (set_number_of_responses <[sp_hash := count + 1]>);;
      let required_iters :=
        calculate_iterations_quality (DIFFICULTY_CONSTANT_FACTOR consts)
          computed_quality_string (size (proof new_proof_of_space))
          (difficulty sp) sp_hash in
      when (required_iters <? calculate_sp_interval_iters consts (sub_slot_iters sp))
        (let request :=
           Build_RequestSignatures (pos_plot_identifier new_proof_of_space)
             (pos_challenge_hash new_proof_of_space) sp_hash
             [challenge_chain_sp sp; reward_chain_sp sp] in
         let record := (pos_plot_identifier new_proof_of_space, proof new_proof_of_space) in
         proofs ← gets proofs_of_space;
         (if negb (dict_in sp_hash proofs)
          then modify (set_proofs_of_space <[sp_hash := [record]]>)
          else
            recorded ← dict_get proofs sp_hash;
            modify (set_proofs_of_space <[sp_hash := recorded ++ [record]]>));;
         modify (set_cache_add_time <[sp_hash := time 102]>);;
         modify (set_quality_str_to_identifiers
                   <[computed_quality_string :=
                       (pos_plot_identifier new_proof_of_space,
                        pos_challenge_hash new_proof_of_space,
                        sp_hash, peer_node_id peer)]>);;
         modify (set_cache_add_time <[computed_quality_string := time 109]>);;
         return_ (Some (request_signatures request)));;
      pooling ← gets is_pooling_enabled;
      match pool_public_key (proof new_proof_of_space) with
      | Some pool_public_key =>
          when pooling
            (call (process_new_proof_of_space_for_pool new_proof_of_space peer
                     pool_public_key computed_quality_string);;
             mret tt)
      | None => mret tt
      end;;
      return_ None
  end.

(** [new_proof_of_space], lines 38-56: the response counter of the proof's
    key is created on first use and checked against the cap, then the key
    is looked up in the registry. *)
Definition new_proof_of_space_admit (new_proof_of_space : NewProofOfSpace)
    : M (list NewSignagePoint) :=
  let sp_hash := pos_sp_hash new_proof_of_space in
  counters ← gets number_of_responses;
  when (negb (dict_in sp_hash counters))
    (modify (set_number_of_responses <[sp_hash := 0]>);;
     modify (set_cache_add_time <[sp_hash := time 40]>));;
  let max_pos_per_sp := 5 in
  counters ← gets number_of_responses;
  count ← dict_get counters sp_hash;
  when (max_pos_per_sp <? count)
    (log INFO (Surpassed_PoSpace_for_one_SP max_pos_per_sp sp_hash);;
     return_ None);;
  registry ← gets sps;
  when (negb (dict_in sp_hash registry))
    (log WARNING (Received_response_for_unknown_signage_point sp_hash);;
     return_ None);;
  dict_get registry sp_hash.

(** [new_proof_of_space], lines 31-122. *)
Definition new_proof_of_space
    (new_proof_of_space : NewProofOfSpace) (peer : WSChiaConnection) : M unit :=
  sps ← new_proof_of_space_admit new_proof_of_space;
  for_each sps tt (fun _ sp => new_proof_of_space_for_sp new_proof_of_space peer sp).

(** [respond_signatures], lines 137-140: the body of the loop over the
    signage points of the key, with the locals [is_sp_signatures] and
    [found_sp_hash_debug]. *)
Definition respond_signatures_correlate (response : RespondSignatures)
    (locals : bool * bool) (sp_candidate : NewSignagePoint) : M (bool * bool) :=
  let '(is_sp_signatures, found_sp_hash_debug) := locals in
  first_signed ← list_get (message_signatures response) 0;
  if bool_decide (rs_sp_hash response = first_signed.1) then
    second_signed ← list_get (message_signatures response) 1;
    if bool_decide (reward_chain_sp sp_candidate = second_signed.1)
    then mret (true, true)
    else mret (is_sp_signatures, true)
  else mret (is_sp_signatures, found_sp_hash_debug).

(** [respond_signatures], lines 129-143: the signage points registered
    for the response's key, the index of the first of them, and whether the
    response carries signage point signatures ([is_sp_signatures]). *)
Definition respond_signatures_resolve (response : RespondSignatures) : M (uint8 * bool) :=
  registry ← gets sps;
  when (negb (dict_in (rs_sp_hash response) registry))
    (log WARNING (Do_not_have_challenge_hash (rs_challenge_hash response));;
     return_ None);;
  sps ← dict_get registry (rs_sp_hash response);
  first_sp ← list_get sps 0;
  let signage_point_index := sp_signage_point_index first_sp in
  '(is_sp_signatures, found_sp_hash_debug) ←
    for_each sps (false, false) (respond_signatures_correlate response);
  when found_sp_hash_debug (assert_ is_sp_signatures);;
  mret (signage_point_index, is_sp_signatures).

(** [respond_signatures], lines 146-147: the body of the loop over the
    proofs recorded for the key, with the local [pospace]. *)
Definition respond_signatures_pick (response : RespondSignatures)
    (pospace : option ProofOfSpace) (candidate : string * ProofOfSpace)
    : M (option ProofOfSpace) :=
  let '(plot_identifier, candidate_pospace) := candidate in
  if bool_decide (plot_identifier = rs_plot_identifier response)
  then mret (Some candidate_pospace)
  else mret pospace.

(** [respond_signatures], lines 144-155: the recorded proof of space of the
    plot the response names, and its quality string. *)
Definition respond_signatures_pospace (response : RespondSignatures) : M (ProofOfSpace * bytes32) :=
  recorded ← gets proofs_of_space;
  candidates ← dict_get recorded (rs_sp_hash response);
  pospace ← for_each candidates None (respond_signatures_pick response);
  match pospace with
  | None => raise AssertionError
  | Some pospace =>
      consts ← gets constants;
      match verify_and_get_quality_string pospace consts
              (rs_challenge_hash response) (rs_sp_hash response) with
      | None =>
          log WARNING (Have_invalid_PoSpace pospace);;
          return_ None
      | Some computed_quality_string => mret (pospace, computed_quality_string)
      end
  end.

(** [respond_signatures], lines 164-211: the body of the loop over the
    farmer's private keys in the signage point branch. *)
Definition respond_signatures_sp_for_key (response : RespondSignatures)
    (signage_point_index : uint8) (pospace : ProofOfSpace)
    (first_signed second_signed : bytes32 * G2Element) (sk : PrivateKey) : M unit :=
  let '(challenge_chain_sp, challenge_chain_sp_harv_sig) := first_signed in
  let '(reward_chain_sp, reward_chain_sp_harv_sig) := second_signed in
  let pk := get_g1 sk in
  when (bool_decide (pk = farmer_pk response))
    (let agg_pk := generate_plot_public_key (local_pk response) pk in
     assert_ (bool_decide (agg_pk = plot_public_key pospace));;
     let farmer_share_cc_sp := AugSchemeMPL_sign_prepend sk challenge_chain_sp agg_pk in
     let agg_sig_cc_sp :=
       AugSchemeMPL_aggregate [challenge_chain_sp_harv_sig; farmer_share_cc_sp] in
     assert_ (AugSchemeMPL_verify agg_pk challenge_chain_sp agg_sig_cc_sp);;
     let farmer_share_rc_sp := AugSchemeMPL_sign_prepend sk reward_chain_sp agg_pk in
     let agg_sig_rc_sp :=
       AugSchemeMPL_aggregate [reward_chain_sp_harv_sig; farmer_share_rc_sp] in
     assert_ (AugSchemeMPL_verify agg_pk reward_chain_sp agg_sig_rc_sp);;
     '(pool_target, pool_target_signature) ←
       match pool_public_key pospace with
       | Some pool_pk =>
           assert_ (bool_decide (pool_contract_puzzle_hash pospace = None));;
           pool_keys ← gets pool_sks_map;
           when (negb (dict_in pool_pk pool_keys))
             (log ERROR (Dont_have_private_key_for_pool_key pool_pk);;
              return_ None);;
           target ← gets pool_target;
           let pool_target := Build_PoolTarget target 0 in
           pool_sk ← dict_get pool_keys pool_pk;
           mret (Some pool_target,
                 Some (AugSchemeMPL_sign pool_sk (PoolTarget_bytes pool_target)))
       | None =>
           assert_ (negb (bool_decide (pool_contract_puzzle_hash pospace = None)));;
           mret (None, None)
       end;
     reward_target ← gets farmer_target;
     let request :=
       Build_DeclareProofOfSpace (rs_challenge_hash response) challenge_chain_sp
         signage_point_index reward_chain_sp pospace agg_sig_cc_sp agg_sig_rc_sp
         reward_target pool_target pool_target_signature in
     emit (StateChanged_proof request true);;
     emit (SendToAll [declare_proof_of_space request] FULL_NODE);;
     return_ None).

(** [respond_signatures], lines 157-211: the signage point branch. *)
Definition respond_signatures_sp (response : RespondSignatures)
    (signage_point_index : uint8) (pospace : ProofOfSpace) : M unit :=
  first_signed ← list_get (message_signatures response) 0;
  second_signed ← list_get (message_signatures response) 1;
  keys ← gets get_private_keys;
  for_each keys tt (fun _ sk =>
    respond_signatures_sp_for_key response signage_point_index pospace
      first_signed second_signed sk).

(** [respond_signatures], lines 216-244: the body of the loop over the
    farmer's private keys in the block signatures branch. *)
Definition respond_signatures_block_for_key (response : RespondSignatures)
    (pospace : ProofOfSpace) (computed_quality_string : bytes32) (sk : PrivateKey) : M unit :=
  '(foliage_block_data_hash, foliage_sig_harvester) ←
    list_get (message_signatures response) 0;
  '(foliage_transaction_block_hash, foliage_transaction_block_sig_harvester) ←
    list_get (message_signatures response) 1;
  let pk := get_g1 sk in
  when (bool_decide (pk = farmer_pk response))
    (let agg_pk := generate_plot_public_key (local_pk response) pk in
     assert_ (bool_decide (agg_pk = plot_public_key pospace));;
     let foliage_sig_farmer := AugSchemeMPL_sign_prepend sk foliage_block_data_hash agg_pk in
     let foliage_transaction_block_sig_farmer :=
       AugSchemeMPL_sign_prepend sk foliage_transaction_block_hash agg_pk in
     let foliage_agg_sig :=
       AugSchemeMPL_aggregate [foliage_sig_harvester; foliage_sig_farmer] in
     let foliage_block_agg_sig :=
       AugSchemeMPL_aggregate
         [foliage_transaction_block_sig_harvester; foliage_transaction_block_sig_farmer] in
     assert_ (AugSchemeMPL_verify agg_pk foliage_block_data_hash foliage_agg_sig);;
     assert_ (AugSchemeMPL_verify agg_pk foliage_transaction_block_hash foliage_block_agg_sig);;
     let request_to_nodes :=
       Build_SignedValues computed_quality_string foliage_agg_sig foliage_block_agg_sig in
     emit (SendToAll [signed_values request_to_nodes] FULL_NODE)).

(** [respond_signatures], lines 213-244: the block signatures branch. *)
Definition respond_signatures_block (response : RespondSignatures)
    (pospace : ProofOfSpace) (computed_quality_string : bytes32) : M unit :=
  keys ← gets get_private_keys;
  for_each keys tt (fun _ sk =>
    respond_signatures_block_for_key response pospace computed_quality_string sk).

(** Lines 144-244: what follows once the branch is known. *)
Definition respond_signatures_finish (response : RespondSignatures)
    (signage_point_index : uint8) (is_sp_signatures : bool) : M unit :=
  '(pospace, computed_quality_string) ← respond_signatures_pospace response;
  if is_sp_signatures : bool
  then respond_signatures_sp response signage_point_index pospace
  else respond_signatures_block response pospace computed_quality_string.

(** [respond_signatures], lines 124-244. *)
Definition respond_signatures (response : RespondSignatures) : M unit :=
  '(signage_point_index, is_sp_signatures) ← respond_signatures_resolve response;
  respond_signatures_finish response signage_point_index is_sp_signatures.

(** [new_signage_point], lines 250-276. *)
Definition new_signage_point (new_signage_point : NewSignagePoint) : M unit :=
  pooling ← gets is_pooling_enabled;
  difficulty ← (if pooling : bool then gets pool_difficulty
                else mret (difficulty new_signage_point));
  sub_slot_iters ← (if pooling : bool then gets pool_sub_slot_iters
                    else mret (sub_slot_iters new_signage_point));
  let message :=
    Build_NewSignagePointHarvester (sp_challenge_hash new_signage_point) difficulty
      sub_slot_iters (sp_signage_point_index new_signage_point)
      (challenge_chain_sp new_signage_point) in
  emit (SendToAll [new_signage_point_harvester message] HARVESTER);;
  let key := challenge_chain_sp new_signage_point in
  registry ← gets sps;
  when (negb (dict_in key registry)) (modify (set_sps <[key := []]>));;
  registry ← gets sps;
  bucket ← dict_get registry key;
  when (bool_decide (new_signage_point ∈ bucket))
    (log DEBUG (Duplicate_signage_point (sp_signage_point_index new_signage_point));;
     return_ None);;
  modify (set_sps <[key := bucket ++ [new_signage_point]]>);;
  modify (set_cache_add_time <[key := time 275]>);;
  emit (StateChanged_new_signage_point key).

(** [request_signed_values], lines 278-295. *)
Definition request_signed_values (full_node_request : RequestSignedValues) : M unit :=
  index ← gets quality_str_to_identifiers;
  when (negb (dict_in (rv_quality_string full_node_request) index))
    (log ERROR (Do_not_have_quality_string (rv_quality_string full_node_request));;
     return_ None);;
  '(plot_identifier, challenge_hash, sp_hash, node_id) ←
    dict_get index (rv_quality_string full_node_request);
  let request :=
    Build_RequestSignatures plot_identifier challenge_hash sp_hash
      [foliage_block_data_hash full_node_request;
       foliage_transaction_block_hash full_node_request] in
  emit (SendToSpecific [request_signatures request] node_id).

End Handlers.

Global Arguments respond_signatures_correlate : simpl never.
Global Arguments respond_signatures_pick : simpl never.
Global Arguments respond_signatures_sp_for_key : simpl never.
Global Arguments respond_signatures_block_for_key : simpl never.
Global Arguments pool_plot_signature_for_key : simpl never.

(** ** Feeding a handler a sequence of messages *)

(** The harvester's proofs handled one after the other, each on the state
    the previous one left; the outcomes in order, and the final state. *)
Fixpoint handle_proofs `{Externals} (msgs : list NewProofOfSpace) (peer : WSChiaConnection)
    (s : Farmer) : list Outcome * Farmer :=
  match msgs with
  | [] => ([], s)
  | msg :: rest =>
      let '(r, s1, _) := run (new_proof_of_space msg peer) s in
      let '(rs, s2) := handle_proofs rest peer s1 in
      (r :: rs, s2)
  end.

(** The request for the two signage point signatures that line 81 builds. *)
Definition sp_signature_request (msg : NewProofOfSpace) (sp : NewSignagePoint) : Message :=
  request_signatures
    (Build_RequestSignatures (pos_plot_identifier msg) (pos_challenge_hash msg)
       (pos_sp_hash msg) [challenge_chain_sp sp; reward_chain_sp sp]).

(** A broadcast to the full nodes. *)
Definition is_full_node_broadcast (e : Event) : bool :=
  match e with
  | SendToAll _ FULL_NODE => true
  | _ => false
  end.

(** ** What the handlers do, in closed form *)

(** The partial that line 337 builds for a proof, on the farmer state the
    pool path starts from. *)
Definition pool_partial_payload (msg : NewProofOfSpace) (s : Farmer) : PartialPayload :=
  Build_PartialPayload (proof msg) (pool_difficulty s) (pos_sp_hash msg)
    (pos_signage_point_index msg =? 0) (pool_payout_address s).

(** The request for the harvester's half of the signature of a partial. *)
Definition pool_signature_request `{Externals} (msg : NewProofOfSpace) (s : Farmer)
    : RequestSignatures :=
  Build_RequestSignatures (pos_plot_identifier msg) (pos_challenge_hash msg)
    (pos_sp_hash msg) [get_hash (pool_partial_payload msg s)].

(** The iterations a proof needs at the pool's difficulty (line 322). *)
Definition pool_required_iters `{Externals} (msg : NewProofOfSpace)
    (computed_quality_string : bytes32) (s : Farmer) : uint64 :=
  calculate_iterations_quality (DIFFICULTY_CONSTANT_FACTOR (constants s))
    computed_quality_string (size (proof msg)) (pool_difficulty s) (pos_sp_hash msg).

(** The farmer state once [new_proof_of_space] has made sure that the
    proof's key has a response counter (lines 38-40). *)
Definition admitted `{Externals} (msg : NewProofOfSpace) (s : Farmer) : Farmer :=
  match number_of_responses s !! pos_sp_hash msg with
  | Some _ => s
  | None =>
      set_cache_add_time <[pos_sp_hash msg := time 40]>
        (set_number_of_responses <[pos_sp_hash msg := 0]> s)
  end.

(** The responses counted so far for the proof's key. *)
Definition responses_so_far (msg : NewProofOfSpace) (s : Farmer) : Z :=
  default 0 (number_of_responses s !! pos_sp_hash msg).

(** The farmer state once the proof is counted (line 69). *)
Definition counted `{Externals} (msg : NewProofOfSpace) (s : Farmer) : Farmer :=
  set_number_of_responses <[pos_sp_hash msg := responses_so_far msg s + 1]> (admitted msg s).

(** The writes of lines 88-109: the proof joins the proofs of its key, its
    quality string is indexed, and both keys are stamped. *)
Definition recorded `{Externals} (msg : NewProofOfSpace) (peer : WSChiaConnection)
    (q : bytes32) (s : Farmer) : Farmer :=
  let key := pos_sp_hash msg in
  let record := (pos_plot_identifier msg, proof msg) in
  set_cache_add_time <[q := time 109]>
    (set_quality_str_to_identifiers
       <[q := (pos_plot_identifier msg, pos_challenge_hash msg, key, peer_node_id peer)]>
       (set_cache_add_time <[key := time 102]>
          (set_proofs_of_space
             <[key := default [] (proofs_of_space s !! key) ++ [record]]> s))).

(** Line 79: the proof is good enough to make a block at this signage point. *)
Definition block_eligible `{Externals} (msg : NewProofOfSpace) (q : bytes32)
    (sp : NewSignagePoint) (s : Farmer) : bool :=
  calculate_iterations_quality (DIFFICULTY_CONSTANT_FACTOR (constants s)) q
    (size (proof msg)) (difficulty sp) (pos_sp_hash msg)
  <? calculate_sp_interval_iters (constants s) (sub_slot_iters sp).

(** The quality string of the proof of a [NewProofOfSpace] (line 60). *)
Definition quality_of `{Externals} (msg : NewProofOfSpace) (s : Farmer) : option bytes32 :=
  verify_and_get_quality_string (proof msg) (constants s)
    (pos_challenge_hash msg) (pos_sp_hash msg).

(** An effect of the pool path on the outside world. *)
Definition is_pool_event (e : Event) : Prop :=
  match e with
  | PeerRequestSignatures _ _ | PoolSubmitPartial _ => True
  | _ => False
  end.

(** Proof intake decided on the first signage point of the bucket alone:
    the counter and registry checks of lines 38-56, then one run of the
    loop body on the bucket's first entry; the entries after it are not
    looked at. *)
Definition intake_on_first_sp `{Externals} (msg : NewProofOfSpace)
    (peer : WSChiaConnection) (s : Farmer) : Outcome * Farmer * list Event :=
  let key := pos_sp_hash msg in
  if 5 <? responses_so_far msg s then
    (Returned None, admitted msg s, [Log INFO (Surpassed_PoSpace_for_one_SP 5 key)])
  else
    match sps s !! key with
    | None =>
        (Returned None, admitted msg s,
         [Log WARNING (Received_response_for_unknown_signage_point key)])
    | Some [] => (Returned None, admitted msg s, [])
    | Some (sp :: _) =>
        match quality_of msg s with
        | None =>
            (Returned None, admitted msg s,
             [Log ERROR (Invalid_proof_of_space (proof msg))])
        | Some q =>
            if block_eligible msg q sp s then
              (Returned (Some (sp_signature_request msg sp)),
               recorded msg peer q (counted msg s), [])
            else
              match pool_public_key (proof msg) with
              | Some pool_pk =>
                  if is_pooling_enabled (counted msg s) then
                    let '(r, s', t) :=
                      process_new_proof_of_space_for_pool msg peer pool_pk q
                        (counted msg s) in
                    (match r with Raising e => Raised e | _ => Returned None end, s', t)
                  else (Returned None, counted msg s, [])
              | None => (Returned None, counted msg s, [])
              end
        end
    end.

(** The response carries signage point signatures: its first signed
    message is its [sp_hash] and its second signed message is the reward
    chain value of a signage point of the bucket. *)
Definition carries_sp_signatures (response : RespondSignatures)
    (bucket : list NewSignagePoint) : Prop :=
  ∃ g0 m1 g1 sp,
    message_signatures response !! 0%nat = Some (rs_sp_hash response, g0)
    ∧ message_signatures response !! 1%nat = Some (m1, g1)
    ∧ sp ∈ bucket
    ∧ reward_chain_sp sp = m1.

(** Some signage point of the bucket has this reward chain value. *)
Definition registered_reward_chain_sp (m : bytes32) (bucket : list NewSignagePoint) : bool :=
  existsb (fun sp => bool_decide (reward_chain_sp sp = m)) bucket.

(** The proof of space that the loop of lines 145-147 leaves in [pospace]:
    the last recorded proof of the plot. *)
Definition pick_pospace (plot_identifier : string)
    (candidates : list (string * ProofOfSpace)) : option ProofOfSpace :=
  foldl (fun found candidate =>
           if bool_decide (candidate.1 = plot_identifier) then Some candidate.2 else found)
        None candidates.

(** A broadcast to the full nodes that went out verified: it is a
    [DeclareProofOfSpace] or a [SignedValues] whose two signatures are the
    aggregates of the harvester's share in the response and the share of a
    local private key [sk] matching the response's farmer public key, and
    each aggregate verifies against the plot public key made of the
    response's local key and that farmer key. *)
Definition verified_broadcast `{Externals} (response : RespondSignatures)
    (keys : list PrivateKey) (e : Event) : Prop :=
  match e with
  | SendToAll msgs FULL_NODE =>
      ∃ sk m0 h0 m1 h1,
        sk ∈ keys
        ∧ get_g1 sk = farmer_pk response
        ∧ message_signatures response !! 0%nat = Some (m0, h0)
        ∧ message_signatures response !! 1%nat = Some (m1, h1)
        ∧ let agg_pk := generate_plot_public_key (local_pk response) (farmer_pk response) in
          let agg0 := AugSchemeMPL_aggregate [h0; AugSchemeMPL_sign_prepend sk m0 agg_pk] in
          let agg1 := AugSchemeMPL_aggregate [h1; AugSchemeMPL_sign_prepend sk m1 agg_pk] in
          AugSchemeMPL_verify agg_pk m0 agg0 = true
          ∧ AugSchemeMPL_verify agg_pk m1 agg1 = true
          ∧ match msgs with
            | [declare_proof_of_space d] =>
                dp_challenge_chain_sp d = m0
                ∧ dp_reward_chain_sp d = m1
                ∧ challenge_chain_sp_signature d = agg0
                ∧ reward_chain_sp_signature d = agg1
            | [signed_values v] =>
                foliage_block_data_signature v = agg0
                ∧ foliage_transaction_block_signature v = agg1
            | _ => False
            end
  | _ => True
  end.

(** A log record. *)
Definition is_log (e : Event) : Prop :=
  match e with
  | Log _ _ => True
  | _ => False
  end.

(** ** Reading a run *)

Definition outcome_of (r : Outcome * Farmer * list Event) : Outcome := r.1.1.
Definition state_of (r : Outcome * Farmer * list Event) : Farmer := r.1.2.
Definition trace_of (r : Outcome * Farmer * list Event) : list Event := r.2.

(** A computation that neither writes the state nor touches the world. *)
Definition pure_computation {A} (m : M A) : Prop :=
  ∀ s, ∃ r, m s = (r, s, []).

Ltac unfold_M :=
  unfold when, assert_, log, dict_get, list_get in *;
  unfold emit, gets, modify, return_, raise, mbind, M_bind, mret, M_ret in *.

(** Proves that a loop body neither writes the state nor emits. *)
Ltac prove_pure :=
  let acc := fresh "acc" in let x := fresh "x" in let s0 := fresh "s" in
  intros acc x s0; unfold pool_plot_signature_for_key; unfold_M;
  repeat (case_match; simplify_eq/=); eauto.

(** ** A small concrete world

    A linear stand-in for the BLS scheme (a public key is its private key,
    a signature is key times message, aggregation adds, the plot key is
    the sum of its two halves), a quality string that is the proof's
    bytes, and a pool that asks for difficulty 400.  It is used to run the
    handlers on concrete inputs. *)
Definition toy_pool (submit_partial : SubmitPartial) : SubmitResult :=
  let d := pp_difficulty (payload submit_partial) in
  if d =? 0 then SubmitRaised
  else if d <? 400 then
    SubmitReturned {| error_code := Some 5;
                      error_message := Some "difficulty too low"%string;
                      current_difficulty := Some 400 |}
  else if 1000 <? d then
    SubmitReturned {| error_code := Some 7;
                      error_message := Some "rejected"%string;
                      current_difficulty := Some 400 |}
  else
    SubmitReturned {| error_code := None;
                      error_message := None;
                      current_difficulty := Some d |}.

Definition toy : Externals := {|
  verify_and_get_quality_string p _ _ _ :=
    if (proof_bytes p =? 0)%N then None else Some (proof_bytes p);
  calculate_iterations_quality factor quality _ difficulty _ :=
    factor * Z.of_N quality * difficulty;
  calculate_sp_interval_iters _ sub_slot_iters := sub_slot_iters / 64;
  get_g1 sk := sk;
  generate_plot_public_key local farmer := (local + farmer)%N;
  AugSchemeMPL_sign sk m := (sk * m)%N;
  AugSchemeMPL_sign_prepend sk m _ := (sk * m)%N;
  AugSchemeMPL_aggregate sigs := foldr N.add 0%N sigs;
  AugSchemeMPL_verify pk m sig := (sig =? pk * m)%N;
  get_hash p := (pp_sp_hash p + 1)%N;
  PoolTarget_bytes t := puzzle_hash t;
  get_private_keys _ := [11%N];
  is_pooling_enabled s := negb (String.eqb (pool_payout_address s) "");
  time line := 1600000000 + Z.of_nat line;
  submit_partial_result := toy_pool;
|}.

Definition toy_constants : ConsensusConstants :=
  {| DIFFICULTY_CONSTANT_FACTOR := 1; NUM_SPS_SUB_SLOT := 64; OTHER_CONSTANTS := 0 |}.

(** A farmer that has seen nothing yet; its pool key 5 has private key 17. *)
Definition toy_farmer : Farmer := {|
  constants := toy_constants;
  sps := ∅;
  proofs_of_space := ∅;
  quality_str_to_identifiers := ∅;
  number_of_responses := ∅;
  cache_add_time := ∅;
  pool_sks_map := {[ 5%N := 17%N ]};
  farmer_target := 1;
  pool_target := 2;
  pool_difficulty := 10;
  pool_sub_slot_iters := 6400;
  iters_limit := 1000;
  pool_payout_address := "xch1pool";
  last_pool_partial_submit_timestamp := 0;
|}.

(** A signage point with key 101: under [toy] a proof is good enough for a
    block when its bytes are below 100. *)
Definition toy_sp : NewSignagePoint := {|
  sp_challenge_hash := 100;
  challenge_chain_sp := 101;
  reward_chain_sp := 102;
  difficulty := 1;
  sub_slot_iters := 6400;
  sp_signage_point_index := 3;
|}.

Definition toy_farmer_with_sp : Farmer := set_sps <[101%N := [toy_sp]]> toy_farmer.

(** A proof of space of the plot with key 7 + 11, farmed to pool key 5. *)
Definition toy_pospace (quality : N) : ProofOfSpace := {|
  challenge := 100;
  pool_public_key := Some 5%N;
  pool_contract_puzzle_hash := None;
  plot_public_key := 18;
  size := 32;
  proof_bytes := quality;
|}.

Definition toy_proof (quality : N) : NewProofOfSpace := {|
  pos_challenge_hash := 100;
  pos_sp_hash := 101;
  pos_plot_identifier := "plot-a";
  proof := toy_pospace quality;
  pos_signage_point_index := 3;
|}.

(** The harvester holding the local key 7: it signs every message asked. *)
Definition toy_harvester : WSChiaConnection := {|
  peer_node_id := 900;
  request_signatures_reply rq :=
    Some {| rs_plot_identifier := rq_plot_identifier rq;
            rs_challenge_hash := rq_challenge_hash rq;
            rs_sp_hash := rq_sp_hash rq;
            local_pk := 7;
            farmer_pk := 11;
            message_signatures := map (fun m => (m, (7 * m)%N)) (messages rq) |};
|}.

(** The harvester's answer to the request for the signage point signatures
    of [toy_sp], with the first signature off by [tamper]. *)
Definition toy_sp_response (tamper : N) : RespondSignatures := {|
  rs_plot_identifier := "plot-a";
  rs_challenge_hash := 100;
  rs_sp_hash := 101;
  local_pk := 7;
  farmer_pk := 11;
  message_signatures := [(101, 7 * 101 + tamper); (102, 7 * 102)]%N;
|}.

(** A second signage point that shares the key 101 with [toy_sp]. *)
Definition toy_late_sp : NewSignagePoint := {|
  sp_challenge_hash := 100;
  challenge_chain_sp := 101;
  reward_chain_sp := 999;
  difficulty := 1000;
  sub_slot_iters := 64;
  sp_signage_point_index := 4;
|}.

Definition toy_farmer_with_two_sps : Farmer :=
  set_sps <[101%N := [toy_sp; toy_late_sp]]> toy_farmer.

(** The signage point that ends a sub-slot, with key 201 and a difficulty
    at which the proof [toy_eos_proof 42] misses the block threshold but is
    good enough for the pool. *)
Definition toy_eos_sp : NewSignagePoint := {|
  sp_challenge_hash := 200;
  challenge_chain_sp := 201;
  reward_chain_sp := 202;
  difficulty := 50;
  sub_slot_iters := 6400;
  sp_signage_point_index := 0;
|}.

Definition toy_farmer_with_eos_sp : Farmer := set_sps <[201%N := [toy_eos_sp]]> toy_farmer.

Definition toy_eos_proof (quality : N) : NewProofOfSpace := {|
  pos_challenge_hash := 200;
  pos_sp_hash := 201;
  pos_plot_identifier := "plot-a";
  proof := toy_pospace quality;
  pos_signage_point_index := 0;
|}.

(** Seven proofs for the key 101, each good enough for a block. *)
Definition toy_seven_proofs : list NewProofOfSpace :=
  map toy_proof [1; 2; 3; 4; 5; 6; 7]%N.

(** An answer whose first signed message is the key of [toy_sp] and whose
    second signed message is the reward chain value of no registered
    signage point. *)
Definition toy_mismatched_response : RespondSignatures := {|
  rs_plot_identifier := "plot-a";
  rs_challenge_hash := 100;
  rs_sp_hash := 101;
  local_pk := 7;
  farmer_pk := 11;
  message_signatures := [(101, 7 * 101); (555, 7 * 555)]%N;
|}.

(** The harvester's answer to a request for the two block signatures over
    the hashes 301 and 302, from the plot [plot] and for the farmer key
    [farmer]. *)
Definition toy_block_response (plot : string) (farmer : G1Element) : RespondSignatures := {|
  rs_plot_identifier := plot;
  rs_challenge_hash := 100;
  rs_sp_hash := 101;
  local_pk := 7;
  farmer_pk := farmer;
  message_signatures := [(301, 7 * 301); (302, 7 * 302)]%N;
|}.

(** [toy_farmer_with_sp] after the proof [toy_proof 42] was taken in. *)
Definition toy_farmer_with_proof : Farmer :=
  (run (@new_proof_of_space toy (toy_proof 42) toy_harvester) toy_farmer_with_sp).1.2.

(** ** The handlers as one interface *)

(** A message that [FarmerAPI] is called with: from a harvester
    ([new_proof_of_space], [respond_signatures]) or from a full node
    ([new_signage_point], [request_signed_values]). *)
Inductive Inbound :=
| Harvester_new_proof_of_space (msg : NewProofOfSpace) (peer : WSChiaConnection)
| Harvester_respond_signatures (response : RespondSignatures)
| FullNode_new_signage_point (msg : NewSignagePoint)
| FullNode_request_signed_values (msg : RequestSignedValues).

Definition handle `{Externals} (inbound : Inbound) : M unit :=
  match inbound with
  | Harvester_new_proof_of_space msg peer => new_proof_of_space msg peer
  | Harvester_respond_signatures response => respond_signatures response
  | FullNode_new_signage_point msg => new_signage_point msg
  | FullNode_request_signed_values msg => request_signed_values msg
  end.

(** The farmer state after a sequence of messages, handled in order. *)
Definition handle_all `{Externals} (inbound : list Inbound) (s : Farmer) : Farmer :=
  foldl (fun s i => state_of (run (handle i) s)) s inbound.

(** The [NewSignagePointHarvester] of lines 252-264: the signage point,
    with the pool's difficulty and sub-slot iterations in place of its own
    while pooling is enabled. *)
Definition harvester_signage_point `{Externals} (sp : NewSignagePoint) (s : Farmer)
    : NewSignagePointHarvester :=
  {| nsh_challenge_hash := sp_challenge_hash sp;
     nsh_difficulty := if is_pooling_enabled s then pool_difficulty s else difficulty sp;
     nsh_sub_slot_iters :=
       if is_pooling_enabled s then pool_sub_slot_iters s else sub_slot_iters sp;
     nsh_signage_point_index := sp_signage_point_index sp;
     nsh_sp_hash := challenge_chain_sp sp |}.

(** ** Where the calls of the handlers return *)

(** An integer that a [uint64] field of a protocol message takes: the
    constructor of the message raises on any other. *)
Definition fits_uint64 (v : Z) : Prop := 0 <= v < 2 ^ 64.

(** [calculate_sp_interval_iters] asserts that the sub-slot iterations are
    a multiple of [NUM_SPS_SUB_SLOT]: the call of line 79 returns for such
    a signage point and raises for any other. *)
Definition sp_interval_iters_returns (consts : ConsensusConstants)
    (sub_slot_iters : uint64) : Prop :=
  0 < NUM_SPS_SUB_SLOT consts ∧ sub_slot_iters mod NUM_SPS_SUB_SLOT consts = 0.

(** ** Invariants of the farmer state *)

(** Every bucket of the registry is non-empty, holds no signage point
    twice, and holds only signage points whose [challenge_chain_sp] is the
    bucket's key. *)
Definition registry_wf (s : Farmer) : Prop :=
  ∀ key bucket,
    sps s !! key = Some bucket →
    bucket ≠ [] ∧ NoDup bucket ∧ ∀ sp, sp ∈ bucket → challenge_chain_sp sp = key.

(** Every key of the registry, of the response counters, of the recorded
    proofs and of the quality index has a time in [cache_add_time]. *)
Definition stamped (s : Farmer) : Prop :=
  ∀ key,
    is_Some (sps s !! key) ∨ is_Some (number_of_responses s !! key)
    ∨ is_Some (proofs_of_space s !! key) ∨ is_Some (quality_str_to_identifiers s !! key) →
    is_Some (cache_add_time s !! key).

(** No response counter is below 0 or above 6, and the proofs recorded for
    a key are no more than its counter says. *)
Definition responses_bounded (s : Farmer) : Prop :=
  (∀ key count, number_of_responses s !! key = Some count → 0 <= count <= 6)
  ∧ (∀ key recorded,
       proofs_of_space s !! key = Some recorded →
       ∃ count, number_of_responses s !! key = Some count
                ∧ Z.of_nat (length recorded) <= count).

(** Every entry of the quality index names a plot of which a proof is
    recorded under the entry's signage point key. *)
Definition quality_backed (s : Farmer) : Prop :=
  ∀ quality plot challenge_hash key node_id,
    quality_str_to_identifiers s !! quality = Some (plot, challenge_hash, key, node_id) →
    ∃ recorded p, proofs_of_space s !! key = Some recorded ∧ (plot, p) ∈ recorded.

(** [s'] is [s] but for the two attributes the pool path writes: the
    operating pool difficulty and the time of the last submission. *)
Definition pool_feedback_only (s s' : Farmer) : Prop :=
  s' = set_pool_difficulty (pool_difficulty s')
         (set_last_pool_partial_submit_timestamp (last_pool_partial_submit_timestamp s') s).

(** What [respond_signatures] may do to the outside world: log, report a
    declared proof, and broadcast to the full nodes. *)
Definition is_signing_effect (e : Event) : Prop :=
  match e with
  | Log _ _ | StateChanged_proof _ _ | SendToAll _ FULL_NODE => True
  | _ => False
  end.

(** The [DeclareProofOfSpace] of lines 196-207 for a proof, the two signed
    values with their aggregate signatures, and the pool target. *)
Definition declaration (response : RespondSignatures) (s : Farmer) (index : uint8)
    (p : ProofOfSpace) (m0 : bytes32) (agg0 : G2Element) (m1 : bytes32) (agg1 : G2Element)
    (target : option (PoolTarget * G2Element)) : DeclareProofOfSpace :=
  {| dp_challenge_hash := rs_challenge_hash response;
     dp_challenge_chain_sp := m0;
     dp_signage_point_index := index;
     dp_reward_chain_sp := m1;
     proof_of_space := p;
     challenge_chain_sp_signature := agg0;
     reward_chain_sp_signature := agg1;
     farmer_puzzle_hash := farmer_target s;
     dp_pool_target := fst <$> target;
     pool_signature := snd <$> target |}.

(** The pool part of a declaration agrees with the proof: a proof with a
    pool public key and no pool contract puzzle hash is declared with the
    farmer's pool target, at height 0, signed with the private key of that
    pool key; a proof with a pool contract puzzle hash and no pool public
    key is declared with no pool target and no pool signature; no other
    proof is declared. *)
Definition pool_part_agrees `{Externals} (s : Farmer) (d : DeclareProofOfSpace) : Prop :=
  match pool_public_key (proof_of_space d), pool_contract_puzzle_hash (proof_of_space d) with
  | Some pool_pk, None =>
      ∃ pool_sk,
        pool_sks_map s !! pool_pk = Some pool_sk
        ∧ dp_pool_target d = Some (Build_PoolTarget (pool_target s) 0)
        ∧ pool_signature d =
            Some (AugSchemeMPL_sign pool_sk
                    (PoolTarget_bytes (Build_PoolTarget (pool_target s) 0)))
  | None, Some _ => dp_pool_target d = None ∧ pool_signature d = None
  | _, _ => False
  end.

(** Every declaration in the trace is of the proof recorded for the
    response's plot, carries the farmer's reward target and the index of
    the first signage point of the key, and its pool part agrees. *)
Definition well_declared `{Externals} (response : RespondSignatures) (s : Farmer)
    (e : Event) : Prop :=
  match e with
  | SendToAll [declare_proof_of_space d] FULL_NODE =>
      (∃ candidates,
         proofs_of_space s !! rs_sp_hash response = Some candidates
         ∧ pick_pospace (rs_plot_identifier response) candidates = Some (proof_of_space d))
      ∧ (∃ first_sp rest,
           sps s !! rs_sp_hash response = Some (first_sp :: rest)
           ∧ dp_signage_point_index d = sp_signage_point_index first_sp)
      ∧ dp_challenge_hash d = rs_challenge_hash response
      ∧ farmer_puzzle_hash d = farmer_target s
      ∧ pool_part_agrees s d
  | _ => True
  end.

(** A [DeclareProofOfSpace] broadcast to the full nodes. *)
Definition is_declaration (e : Event) : bool :=
  match e with
  | SendToAll [declare_proof_of_space _] FULL_NODE => true
  | _ => false
  end.

(** The number of [DeclareProofOfSpace] broadcasts in a trace. *)
Definition declarations_in (t : list Event) : nat :=
  length (List.filter is_declaration t).

Global Arguments declarations_in : simpl never.

(** The exceptions that [respond_signatures] lets escape, each with what
    brings it about: a failed assertion; no proof recorded at all under
    the response's key; a response with fewer than two signed messages, or
    a key registered with an empty bucket. *)
Definition escapes_respond_signatures (response : RespondSignatures) (s : Farmer)
    (e : Exception) : Prop :=
  match e with
  | AssertionError => True
  | KeyError => proofs_of_space s !! rs_sp_hash response = None
  | IndexError =>
      (length (message_signatures response) < 2)%nat
      ∨ sps s !! rs_sp_hash response = Some []
  end.

(** ** More of the concrete world *)

(** The full node's request for the block signatures of the proof with the
    quality string 42. *)
Definition toy_signed_values_request : RequestSignedValues :=
  {| rv_quality_string := 42; foliage_block_data_hash := 301;
     foliage_transaction_block_hash := 302 |}.

(** Five messages in a row: a signage point, a good proof for it, the
    harvester's signatures for it, a second signage point under the same
    key, and the full node's request for the block signatures. *)
Definition toy_inbound : list Inbound :=
  [FullNode_new_signage_point toy_sp;
   Harvester_new_proof_of_space (toy_proof 42) toy_harvester;
   Harvester_respond_signatures (toy_sp_response 0);
   FullNode_new_signage_point toy_late_sp;
   FullNode_request_signed_values toy_signed_values_request].

(** A proof of the same plot, farmed to a pool contract instead of a pool
    public key, for the signage point that ends the sub-slot. *)
Definition toy_contract_pospace (quality : N) : ProofOfSpace := {|
  challenge := 200;
  pool_public_key := None;
  pool_contract_puzzle_hash := Some 77%N;
  plot_public_key := 18;
  size := 32;
  proof_bytes := quality;
|}.

Definition toy_contract_proof (quality : N) : NewProofOfSpace := {|
  pos_challenge_hash := 200;
  pos_sp_hash := 201;
  pos_plot_identifier := "plot-c";
  proof := toy_contract_pospace quality;
  pos_signage_point_index := 0;
|}.

(** A harvester that answers no request for signatures. *)
Definition toy_silent_harvester : WSChiaConnection := {|
  peer_node_id := 901;
  request_signatures_reply _ := None;
|}.

(** [toy_farmer_with_sp] with a proof on record that does not verify. *)
Definition toy_farmer_with_stale_proof : Farmer :=
  set_proofs_of_space <[101%N := [("plot-a"%string, toy_pospace 0)]]> toy_farmer_with_sp.

(** * Properties *)

Section Properties.
Context `{Externals}.

Lemma dict_in_Some {V} (d : gmap N V) k v : d !! k = Some v → dict_in k d = true.
Proof. intros Hk. unfold dict_in. rewrite Hk. apply bool_decide_eq_true. eauto. Qed.

Lemma dict_in_None {V} (d : gmap N V) k : d !! k = None → dict_in k d = false.
Proof.
  intros Hk. unfold dict_in. rewrite Hk. apply bool_decide_eq_false.
  intros [v Hv]. discriminate.
Qed.

Lemma dict_in_insert {V} (d : gmap N V) k v : dict_in k (<[k := v]> d) = true.
Proof. apply dict_in_Some with v. apply lookup_insert_eq. Qed.

(** C9: a [RequestSignedValues] whose quality string is not in the quality
    index is answered by one error log record and nothing else: no message
    is sent, the farmer state is the one before, and the handler returns
    [None] instead of raising. *)
Theorem request_signed_values_unknown_quality_string
    (full_node_request : RequestSignedValues) (s : Farmer) :
  quality_str_to_identifiers s !! rv_quality_string full_node_request = None →
  run (request_signed_values full_node_request) s =
    (Returned None, s,
     [Log ERROR (Do_not_have_quality_string (rv_quality_string full_node_request))]).
Proof.
  intros Hmiss. unfold run, request_signed_values. unfold_M.
  cbn. rewrite (dict_in_None _ _ Hmiss). reflexivity.
Qed.

(** ** Registering signage points *)

Lemma new_signage_point_duplicate (sp : NewSignagePoint) (s : Farmer) bucket :
  sps s !! challenge_chain_sp sp = Some bucket →
  sp ∈ bucket →
  ∃ message,
    run (new_signage_point sp) s =
      (Returned None, s,
       [SendToAll [new_signage_point_harvester message] HARVESTER;
        Log DEBUG (Duplicate_signage_point (sp_signage_point_index sp))]).
Proof.
  intros Hbucket Hin. unfold run, new_signage_point. unfold_M.
  destruct (is_pooling_enabled s); cbn;
    rewrite (dict_in_Some _ _ _ Hbucket); cbn; rewrite Hbucket;
    rewrite (bool_decide_eq_true_2 _ Hin); cbn; eauto.
Qed.

Lemma new_signage_point_registers (sp : NewSignagePoint) (s : Farmer) :
  ∃ bucket,
    sps (state_of (run (new_signage_point sp) s)) !! challenge_chain_sp sp = Some bucket
    ∧ sp ∈ bucket.
Proof.
  destruct (sps s !! challenge_chain_sp sp) as [bucket|] eqn:Hbucket.
  - destruct (decide (sp ∈ bucket)) as [Hin|Hnew].
    + destruct (new_signage_point_duplicate sp s bucket Hbucket Hin) as [m ->].
      exists bucket. by split.
    + exists (bucket ++ [sp]). split; [|set_solver].
      unfold run, new_signage_point. unfold_M.
      destruct (is_pooling_enabled s); cbn;
        rewrite (dict_in_Some _ _ _ Hbucket); cbn; rewrite Hbucket;
        rewrite (bool_decide_eq_false_2 _ Hnew); cbn;
        destruct s; cbn; apply lookup_insert_eq.
  - exists [sp]. split; [|set_solver].
    unfold run, new_signage_point. unfold_M.
    destruct (is_pooling_enabled s); cbn;
      rewrite (dict_in_None _ _ Hbucket); cbn;
      destruct s; cbn in *; rewrite lookup_insert_eq; cbn;
      rewrite bool_decide_eq_false_2 by set_solver; cbn;
      apply lookup_insert_eq.
Qed.

(** C8: handling a [NewSignagePoint] that is already in the bucket of its
    [challenge_chain_sp] key leaves the whole farmer state as it was and
    logs the duplicate; so handling the same [NewSignagePoint] a second time
    changes nothing: the state, and with it the registry and the bucket of
    the key, is the one the first handling left. *)
Theorem new_signage_point_twice (sp : NewSignagePoint) (s : Farmer) :
  let once := run (new_signage_point sp) s in
  let twice := run (new_signage_point sp) (state_of once) in
  (∀ bucket, sps s !! challenge_chain_sp sp = Some bucket → sp ∈ bucket →
     state_of once = s
     ∧ In (Log DEBUG (Duplicate_signage_point (sp_signage_point_index sp))) (trace_of once))
  ∧ state_of twice = state_of once
  ∧ sps (state_of twice) = sps (state_of once)
  ∧ outcome_of twice = Returned None
  ∧ In (Log DEBUG (Duplicate_signage_point (sp_signage_point_index sp))) (trace_of twice).
Proof.
  intros once twice. split.
  - intros bucket Hbucket Hin. subst once.
    destruct (new_signage_point_duplicate sp s bucket Hbucket Hin) as [m ->].
    cbn. auto.
  - destruct (new_signage_point_registers sp s) as (bucket & Hbucket & Hin).
    fold once in Hbucket.
    destruct (new_signage_point_duplicate sp (state_of once) bucket Hbucket Hin)
      as [m Hrun].
    subst twice. rewrite Hrun. cbn. repeat split; auto.
Qed.

(** ** Proof intake: the signage point is not registered *)

(** C4, as the code has it: a [NewProofOfSpace] whose [sp_hash] is not a
    registered key is answered by one log record, gets no reply, and leaves
    the registry, the proof index and the quality index as they were.  The
    response counter and the timestamp are not always left alone: when the
    key has no response counter yet, the handler first creates it at 0 and
    stamps the key's time, and these two writes stay.  When the key has a
    counter already, the whole state is the one before. *)
Theorem new_proof_of_space_unregistered_key
    (msg : NewProofOfSpace) (peer : WSChiaConnection) (s : Farmer) :
  sps s !! pos_sp_hash msg = None →
  let key := pos_sp_hash msg in
  let after :=
    match number_of_responses s !! key with
    | Some _ => s
    | None => set_cache_add_time <[key := time 40]> (set_number_of_responses <[key := 0]> s)
    end in
  let record :=
    if 5 <? default 0 (number_of_responses s !! key)
    then Log INFO (Surpassed_PoSpace_for_one_SP 5 key)
    else Log WARNING (Received_response_for_unknown_signage_point key) in
  run (new_proof_of_space msg peer) s = (Returned None, after, [record])
  ∧ sps after = sps s
  ∧ proofs_of_space after = proofs_of_space s
  ∧ quality_str_to_identifiers after = quality_str_to_identifiers s
  ∧ (is_Some (number_of_responses s !! key) → after = s).
Proof.
  intros Hunreg. cbv zeta.
  unfold run, new_proof_of_space, new_proof_of_space_admit. unfold_M.
  destruct (number_of_responses s !! pos_sp_hash msg) as [count|] eqn:Hcount; cbn.
  - rewrite (dict_in_Some _ _ _ Hcount). cbn. rewrite Hcount.
    destruct (5 <? count); cbn.
    + repeat split; auto.
    + rewrite (dict_in_None _ _ Hunreg). cbn. repeat split; auto.
  - rewrite (dict_in_None _ _ Hcount). cbn.
    destruct s; cbn in *. rewrite lookup_insert_eq. cbn.
    rewrite (dict_in_None _ _ Hunreg). cbn.
    repeat split; auto. intros [? ?]. discriminate.
Qed.

(** ** Loops *)

Lemma for_each_cons {A L} (x : A) (l : list A) (acc : L) (body : L → A → M L) s :
  for_each (x :: l) acc body s =
    match body acc x s with
    | (Normal acc', s1, t1) =>
        let '(r, s2, t2) := for_each l acc' body s1 in (r, s2, t1 ++ t2)
    | (Returning v, s1, t1) => (Returning v, s1, t1)
    | (Raising e, s1, t1) => (Raising e, s1, t1)
    end.
Proof. reflexivity. Qed.

Lemma for_each_nil {A L} (acc : L) (body : L → A → M L) s :
  for_each [] acc body s = (Normal acc, s, []).
Proof. reflexivity. Qed.

Lemma for_each_pure {A L} (l : list A) (body : L → A → M L) :
  (∀ acc x, pure_computation (body acc x)) →
  ∀ acc, pure_computation (for_each l acc body).
Proof.
  intros Hbody. induction l as [|x l IH]; intros acc s.
  - eexists. apply for_each_nil.
  - rewrite for_each_cons. destruct (Hbody acc x s) as [r ->].
    destruct r as [acc'| |]; [|eauto..].
    destruct (IH acc' s) as [r' ->]. eauto.
Qed.

(** A loop whose body ends in [return] or [raise] whenever it runs is over
    after its first iteration. *)
Lemma for_each_first_only {A L} (x : A) (l : list A) (acc : L) (body : L → A → M L) s :
  (∀ acc', (body acc x s).1.1 ≠ Normal acc') →
  for_each (x :: l) acc body s = body acc x s.
Proof.
  intros Hends. rewrite for_each_cons.
  destruct (body acc x s) as [[r s1] t1] eqn:Hbody.
  destruct r as [acc'| |]; [|reflexivity..].
  exfalso. apply (Hends acc'). reflexivity.
Qed.

(** ** The pool path *)

Lemma submit_to_pool_answer (submit_partial : SubmitPartial) (s : Farmer) :
  (submit_partial_result submit_partial = SubmitRaised →
     submit_to_pool submit_partial s =
       (Returning None, s,
        [PoolSubmitPartial submit_partial; Log ERROR Error_submitting_partial_to_pool]))
  ∧ (∀ d v,
       submit_partial_result submit_partial = SubmitReturned d →
       error_code d = Some 5 ∨ error_code d = None →
       current_difficulty d = Some v →
       (submit_to_pool submit_partial s).1.1 = Normal tt
       ∧ (submit_to_pool submit_partial s).1.2 = set_pool_difficulty v s
       ∧ pool_difficulty (submit_to_pool submit_partial s).1.2 = v)
  ∧ (∀ d code,
       submit_partial_result submit_partial = SubmitReturned d →
       error_code d = Some code → code ≠ 5 →
       (submit_to_pool submit_partial s).1.2 = s
       ∧ pool_difficulty (submit_to_pool submit_partial s).1.2 = pool_difficulty s).
Proof.
  unfold submit_to_pool. unfold_M. split; [|split].
  - intros ->. reflexivity.
  - intros d v -> Hcode Hdiff. cbn.
    destruct Hcode as [-> | ->]; rewrite Hdiff; cbn; destruct s; auto.
  - intros d code -> -> Hother. cbn.
    destruct (code =? 5) eqn:Hfive; [lia|].
    destruct (error_message d); cbn; auto.
Qed.

(** Once the proof is good enough for the pool, the pool path asks the
    harvester for its signature, and then either stops without touching the
    state or the pool, or stamps the submission time and submits the partial
    built from the state it started in. *)
Lemma pool_path_shape (msg : NewProofOfSpace) (peer : WSChiaConnection)
    (pool_pk : G1Element) (q : bytes32) (s : Farmer) :
  pool_required_iters msg q s < iters_limit s →
  let asked := PeerRequestSignatures (peer_node_id peer) (pool_signature_request msg s) in
  (∃ r t,
     process_new_proof_of_space_for_pool msg peer pool_pk q s = (r, s, asked :: t)
     ∧ (∀ a, r ≠ Normal a)
     ∧ Forall (fun e => ∃ level record, e = Log level record) t)
  ∨ (∃ sig,
       process_new_proof_of_space_for_pool msg peer pool_pk q s =
         let '(r, s', t) :=
           submit_to_pool (Build_SubmitPartial (pool_partial_payload msg s) sig)
             (set_last_pool_partial_submit_timestamp (time 377) s) in
         (r, s', asked :: Log DEBUG Submitting_partial :: t)).
Proof.
  intros Hgood. cbv zeta.
  unfold process_new_proof_of_space_for_pool, pool_signature_request,
    pool_partial_payload, pool_required_iters in *.
  unfold_M. cbn.
  destruct (iters_limit s <=? _) eqn:Hlimit; [lia|]. cbn.
  destruct (request_signatures_reply peer _) as [response|]; cbn.
  2:{ left. do 2 eexists. split; [reflexivity|]. split; [done|].
      repeat constructor. eauto. }
  destruct (length (message_signatures response) =? 1)%nat; cbn.
  2:{ left. do 2 eexists. split; [reflexivity|]. split; [done|]. constructor. }
  match goal with
  | |- context [for_each ?l ?acc ?body ?s0] =>
      destruct (for_each_pure l body ltac:(prove_pure) acc s0) as [r Hr]; rewrite Hr
  end.
  destruct r as [plot_signature| |]; cbn.
  2,3: left; do 2 eexists; (split; [reflexivity|]); (split; [done|]); constructor.
  destruct (pool_sks_map s !! pool_pk) as [pool_sk|]; cbn.
  2:{ left. do 2 eexists. split; [reflexivity|]. split; [done|]. constructor. }
  destruct plot_signature as [plot_signature|]; cbn.
  2:{ left. do 2 eexists. split; [reflexivity|]. split; [done|]. constructor. }
  right.
  lazymatch goal with
  | |- context [submit_to_pool (Build_SubmitPartial _ ?sig) _] => exists sig
  end.
  destruct (submit_to_pool _ _) as [[r2 s2] t2]. reflexivity.
Qed.

(** When the proof is not good enough for the pool, the pool path logs that
    and does nothing else. *)
Lemma pool_path_not_good_enough (msg : NewProofOfSpace) (peer : WSChiaConnection)
    (pool_pk : G1Element) (q : bytes32) (s : Farmer) :
  iters_limit s <= pool_required_iters msg q s →
  process_new_proof_of_space_for_pool msg peer pool_pk q s =
    (Returning None, s, [Log INFO (Not_good_enough_for_pool_difficulty (pool_difficulty s))]).
Proof.
  intros Hbad. unfold process_new_proof_of_space_for_pool, pool_required_iters in *.
  unfold_M. cbn.
  destruct (iters_limit s <=? _) eqn:Hlimit; [reflexivity|lia].
Qed.

Lemma submit_to_pool_trace (submit_partial : SubmitPartial) (s : Farmer) :
  ∃ logs,
    (submit_to_pool submit_partial s).2 = PoolSubmitPartial submit_partial :: logs
    ∧ Forall (fun e => ∃ level record, e = Log level record) logs.
Proof.
  unfold submit_to_pool. unfold_M. cbn.
  repeat (case_match; simplify_eq/=); eexists; (split; [reflexivity|]);
    repeat constructor; eauto.
Qed.

Lemma not_in_logs (e : Event) (logs : list Event) :
  Forall (fun e => ∃ level record, e = Log level record) logs →
  (∀ level record, e ≠ Log level record) →
  ¬ In e logs.
Proof.
  intros Hlogs Hne Hin. rewrite Forall_forall in Hlogs.
  apply list_elem_of_In in Hin.
  destruct (Hlogs e Hin) as (level & record & ->). by eapply Hne.
Qed.

(** A partial reaches the pool only from a proof that is good enough for
    the pool; it is the partial built from the state the pool path started
    in, and what follows the submission is [submit_to_pool] on that state
    with the submission time stamped. *)
Lemma pool_path_submission (msg : NewProofOfSpace) (peer : WSChiaConnection)
    (pool_pk : G1Element) (q : bytes32) (s : Farmer) (submit_partial : SubmitPartial) :
  In (PoolSubmitPartial submit_partial)
     (process_new_proof_of_space_for_pool msg peer pool_pk q s).2 →
  pool_required_iters msg q s < iters_limit s
  ∧ payload submit_partial = pool_partial_payload msg s
  ∧ process_new_proof_of_space_for_pool msg peer pool_pk q s =
      let '(r, s', t) :=
        submit_to_pool submit_partial
          (set_last_pool_partial_submit_timestamp (time 377) s) in
      (r, s',
       PeerRequestSignatures (peer_node_id peer) (pool_signature_request msg s)
         :: Log DEBUG Submitting_partial :: t).
Proof.
  intros Hin.
  destruct (Z.lt_ge_cases (pool_required_iters msg q s) (iters_limit s)) as [Hgood|Hbad].
  2:{ rewrite (pool_path_not_good_enough _ _ _ _ _ Hbad) in Hin.
      cbn in Hin. destruct Hin as [?|[]]. discriminate. }
  split; [exact Hgood|].
  destruct (pool_path_shape msg peer pool_pk q s Hgood)
    as [(r & t & Hrun & _ & Hlogs) | (sig & Hrun)].
  - rewrite Hrun in Hin. cbn in Hin. destruct Hin as [?|Hin]; [discriminate|].
    exfalso. refine (not_in_logs _ _ Hlogs _ Hin). intros; discriminate.
  - rewrite Hrun in Hin |- *.
    destruct (submit_to_pool_trace
                (Build_SubmitPartial (pool_partial_payload msg s) sig)
                (set_last_pool_partial_submit_timestamp (time 377) s))
      as (logs & Htrace & Hlogs).
    destruct (submit_to_pool _ _) as [[r2 s2] t2] eqn:Hsub.
    cbn in Hin, Htrace. subst t2.
    destruct Hin as [?|[?|[Hin|Hin]]]; try discriminate.
    + injection Hin as <-. split; [reflexivity|]. rewrite Hsub. reflexivity.
    + exfalso. refine (not_in_logs _ _ Hlogs _ Hin). intros; discriminate.
Qed.

(** C6: what the answer to a submission does to the operating difficulty
    (lines 379-397).  When the call to the pool raises, the handler logs
    and returns, and the farmer state is the one the call was made in.
    When the pool answers with error code 5, or without an error code, the
    operating pool difficulty becomes exactly the [current_difficulty] of
    the answer.  With any other error code the difficulty is left as it
    was.  This holds for the call and the reading of its answer
    ([submit_to_pool]) and so for every run of the pool path that submits a
    partial. *)
Theorem pool_difficulty_after_submission (msg : NewProofOfSpace)
    (peer : WSChiaConnection) (pool_pk : G1Element) (q : bytes32) (s : Farmer)
    (submit_partial : SubmitPartial) :
  In (PoolSubmitPartial submit_partial)
     (process_new_proof_of_space_for_pool msg peer pool_pk q s).2 →
  let called_in := set_last_pool_partial_submit_timestamp (time 377) s in
  let final := process_new_proof_of_space_for_pool msg peer pool_pk q s in
  (submit_partial_result submit_partial = SubmitRaised →
     submit_to_pool submit_partial called_in =
       (Returning None, called_in,
        [PoolSubmitPartial submit_partial; Log ERROR Error_submitting_partial_to_pool])
     ∧ final.1.1 = Returning None
     ∧ final.1.2 = called_in
     ∧ pool_difficulty final.1.2 = pool_difficulty s)
  ∧ (∀ d v,
       submit_partial_result submit_partial = SubmitReturned d →
       error_code d = Some 5 ∨ error_code d = None →
       current_difficulty d = Some v →
       final.1.1 = Normal tt ∧ pool_difficulty final.1.2 = v)
  ∧ (∀ d code,
       submit_partial_result submit_partial = SubmitReturned d →
       error_code d = Some code → code ≠ 5 →
       pool_difficulty final.1.2 = pool_difficulty s).
Proof.
  intros Hin. cbv zeta.
  destruct (pool_path_submission _ _ _ _ _ _ Hin) as (_ & _ & ->).
  pose proof (submit_to_pool_answer submit_partial
                (set_last_pool_partial_submit_timestamp (time 377) s))
    as (Hraised & Hadopt & Hother).
  destruct (submit_to_pool _ _) as [[r2 s2] t2] eqn:Hsub. cbn in *.
  split; [|split].
  - intros Hres. specialize (Hraised Hres). injection Hraised as -> -> ->.
    repeat split. destruct s; reflexivity.
  - intros d v Hres Hcode Hdiff.
    destruct (Hadopt d v Hres Hcode Hdiff) as (-> & _ & ->). auto.
  - intros d code Hres Hcode Hne.
    destruct (Hother d code Hres Hcode Hne) as (-> & _). destruct s; reflexivity.
Qed.

(** ** Proof intake, step by step *)

Lemma admitted_counter (msg : NewProofOfSpace) (s : Farmer) :
  number_of_responses (admitted msg s) !! pos_sp_hash msg = Some (responses_so_far msg s).
Proof.
  unfold admitted, responses_so_far.
  destruct (number_of_responses s !! pos_sp_hash msg) eqn:Hc; cbn; [done|].
  destruct s; cbn. apply lookup_insert_eq.
Qed.

Lemma admitted_sps (msg : NewProofOfSpace) (s : Farmer) :
  sps (admitted msg s) = sps s.
Proof. unfold admitted. case_match; [done|]. by destruct s. Qed.

(** Lines 38-58. *)
Lemma new_proof_of_space_admit_cases (msg : NewProofOfSpace) (s : Farmer) :
  new_proof_of_space_admit msg s =
    if 5 <? responses_so_far msg s then
      (Returning None, admitted msg s,
       [Log INFO (Surpassed_PoSpace_for_one_SP 5 (pos_sp_hash msg))])
    else
      match sps s !! pos_sp_hash msg with
      | None =>
          (Returning None, admitted msg s,
           [Log WARNING (Received_response_for_unknown_signage_point (pos_sp_hash msg))])
      | Some bucket => (Normal bucket, admitted msg s, [])
      end.
Proof.
  pose proof (admitted_counter msg s) as Hcounter.
  pose proof (admitted_sps msg s) as Hsps.
  unfold new_proof_of_space_admit. unfold_M.
  unfold admitted, responses_so_far in *.
  destruct (number_of_responses s !! pos_sp_hash msg) as [count|] eqn:Hcount; cbn in *.
  - rewrite (dict_in_Some _ _ _ Hcount). cbn. rewrite Hcount.
    destruct (5 <? count); cbn; [done|].
    destruct (sps s !! pos_sp_hash msg) as [bucket|] eqn:Hbucket.
    + rewrite (dict_in_Some _ _ _ Hbucket). cbn. by rewrite ?Hbucket.
    + by rewrite (dict_in_None _ _ Hbucket).
  - rewrite (dict_in_None _ _ Hcount). clear Hcounter Hsps.
    destruct s; cbn in *. rewrite lookup_insert_eq. cbn.
    destruct (_ !! pos_sp_hash msg) as [bucket|] eqn:Hbucket in |- *.
    + rewrite (dict_in_Some _ _ _ Hbucket). cbn. by rewrite ?Hbucket.
    + by rewrite (dict_in_None _ _ Hbucket).
Qed.

(** Lines 60-122 on the admitted state: one run of the loop body. *)
Lemma new_proof_of_space_for_sp_cases (msg : NewProofOfSpace) (peer : WSChiaConnection)
    (sp : NewSignagePoint) (s : Farmer) :
  new_proof_of_space_for_sp msg peer sp (admitted msg s) =
    match quality_of msg s with
    | None =>
        (Returning None, admitted msg s, [Log ERROR (Invalid_proof_of_space (proof msg))])
    | Some q =>
        if block_eligible msg q sp s then
          (Returning (Some (sp_signature_request msg sp)),
           recorded msg peer q (counted msg s), [])
        else
          match pool_public_key (proof msg) with
          | Some pool_pk =>
              if is_pooling_enabled (counted msg s) then
                let '(r, s', t) :=
                  process_new_proof_of_space_for_pool msg peer pool_pk q (counted msg s) in
                (match r with Raising e => Raising e | _ => Returning None end, s', t)
              else (Returning None, counted msg s, [])
          | None => (Returning None, counted msg s, [])
          end
    end.
Proof.
  pose proof (admitted_counter msg s) as Hcounter.
  assert (constants (admitted msg s) = constants s) as Hconsts.
  { unfold admitted. case_match; [done|]. by destruct s. }
  unfold new_proof_of_space_for_sp, quality_of, block_eligible. unfold_M. cbn.
  rewrite Hconsts.
  destruct (verify_and_get_quality_string _ _ _ _) as [q|]; cbn; [|done].
  rewrite Hcounter. cbn. fold (counted msg s).
  destruct (_ <? calculate_sp_interval_iters _ _); cbn.
  - unfold recorded, sp_signature_request.
    destruct (proofs_of_space (counted msg s) !! pos_sp_hash msg) as [known|] eqn:Hknown.
    + rewrite (dict_in_Some _ _ _ Hknown). cbn. rewrite ?Hknown. cbn.
      by destruct (counted msg s).
    + rewrite (dict_in_None _ _ Hknown). cbn. by destruct (counted msg s).
  - destruct (pool_public_key (proof msg)) as [pool_pk|]; cbn; [|done].
    destruct (is_pooling_enabled (counted msg s)); cbn; [|done].
    unfold call.
    destruct (process_new_proof_of_space_for_pool _ _ _ _ _) as [[r s'] t].
    destruct r; cbn; by rewrite ?app_nil_r.
Qed.

(** Whatever its input, the loop body ends in [return] or in an exception. *)
Lemma new_proof_of_space_for_sp_ends (msg : NewProofOfSpace) (peer : WSChiaConnection)
    (sp : NewSignagePoint) (s : Farmer) (a : unit) :
  (new_proof_of_space_for_sp msg peer sp s).1.1 ≠ Normal a.
Proof.
  unfold new_proof_of_space_for_sp. unfold_M. cbn.
  destruct (verify_and_get_quality_string _ _ _ _) as [q|]; cbn; [|done].
  destruct (number_of_responses s !! pos_sp_hash msg) as [count|]; cbn; [|done].
  destruct (_ <? calculate_sp_interval_iters _ _); cbn.
  - repeat (case_match; simplify_eq/=); done.
  - unfold call. repeat (case_match; simplify_eq/=); done.
Qed.

(** The loop of [new_proof_of_space] is over after the first signage point. *)
Lemma new_proof_of_space_loop_first (msg : NewProofOfSpace) (peer : WSChiaConnection)
    (sp : NewSignagePoint) (rest : list NewSignagePoint) (s : Farmer) :
  for_each (sp :: rest) tt (fun _ sp => new_proof_of_space_for_sp msg peer sp) s =
    new_proof_of_space_for_sp msg peer sp s.
Proof.
  apply (for_each_first_only sp rest tt
           (fun _ sp => new_proof_of_space_for_sp msg peer sp) s).
  intros a. apply new_proof_of_space_for_sp_ends.
Qed.

(** The handler, case by case. *)
Lemma new_proof_of_space_cases (msg : NewProofOfSpace) (peer : WSChiaConnection)
    (s : Farmer) :
  run (new_proof_of_space msg peer) s = intake_on_first_sp msg peer s.
Proof.
  unfold run, new_proof_of_space, intake_on_first_sp.
  unfold mbind at 1. unfold M_bind.
  rewrite new_proof_of_space_admit_cases.
  destruct (5 <? responses_so_far msg s); [done|].
  destruct (sps s !! pos_sp_hash msg) as [[|sp rest]|]; [done| |done].
  rewrite new_proof_of_space_loop_first, new_proof_of_space_for_sp_cases.
  destruct (quality_of msg s) as [q|]; [|done].
  destruct (block_eligible msg q sp s); [done|].
  destruct (pool_public_key (proof msg)) as [pool_pk|]; [|done].
  destruct (is_pooling_enabled (counted msg s)); [|done].
  destruct (process_new_proof_of_space_for_pool _ _ _ _ _) as [[r s'] t].
  by destruct r.
Qed.

Lemma responses_so_far_admitted (msg : NewProofOfSpace) (s : Farmer) :
  responses_so_far msg (admitted msg s) = responses_so_far msg s.
Proof.
  unfold responses_so_far at 1. by rewrite admitted_counter.
Qed.

Lemma responses_so_far_counted (msg : NewProofOfSpace) (s : Farmer) :
  responses_so_far msg (counted msg s) = responses_so_far msg s + 1.
Proof.
  unfold responses_so_far at 1. unfold counted.
  destruct (admitted msg s); cbn. by rewrite lookup_insert_eq.
Qed.

Lemma responses_so_far_recorded (msg : NewProofOfSpace) (peer : WSChiaConnection)
    (q : bytes32) (s : Farmer) :
  responses_so_far msg (recorded msg peer q s) = responses_so_far msg s.
Proof. unfold responses_so_far, recorded. by destruct s. Qed.

Lemma submit_to_pool_counters (submit_partial : SubmitPartial) (s : Farmer) :
  number_of_responses (submit_to_pool submit_partial s).1.2 = number_of_responses s.
Proof.
  unfold submit_to_pool. unfold_M. cbn.
  repeat (case_match; simplify_eq/=); first [done | by destruct s].
Qed.

(** The pool path leaves the response counters alone. *)
Lemma pool_path_counters (msg : NewProofOfSpace) (peer : WSChiaConnection)
    (pool_pk : G1Element) (q : bytes32) (s : Farmer) :
  number_of_responses (process_new_proof_of_space_for_pool msg peer pool_pk q s).1.2
  = number_of_responses s.
Proof.
  destruct (Z.lt_ge_cases (pool_required_iters msg q s) (iters_limit s)) as [Hgood|Hbad].
  - destruct (pool_path_shape msg peer pool_pk q s Hgood)
      as [(r & t & -> & _) | (sig & ->)]; [done|].
    pose proof (submit_to_pool_counters
                  (Build_SubmitPartial (pool_partial_payload msg s) sig)
                  (set_last_pool_partial_submit_timestamp (time 377) s)) as Hsub.
    destruct (submit_to_pool _ _) as [[r2 s2] t2]. cbn in *. rewrite Hsub.
    by destruct s.
  - by rewrite (pool_path_not_good_enough _ _ _ _ _ Hbad).
Qed.

(** C10: in proof intake the loop over the bucket of the proof's key is
    over after its first iteration, so the handler is proof intake decided
    on the bucket's first signage point alone ([intake_on_first_sp]); the
    response counter of the key goes up by one at most; and a reply, when
    there is one, asks for the signatures of the challenge chain and reward
    chain values of that first signage point, for a proof that is good
    enough for a block at its difficulty and sub-slot iterations. *)
Theorem new_proof_of_space_first_sp_only (msg : NewProofOfSpace)
    (peer : WSChiaConnection) (s : Farmer) :
  (∀ sp rest s',
     for_each (sp :: rest) tt (fun _ sp => new_proof_of_space_for_sp msg peer sp) s' =
       new_proof_of_space_for_sp msg peer sp s')
  ∧ run (new_proof_of_space msg peer) s = intake_on_first_sp msg peer s
  ∧ (responses_so_far msg (state_of (run (new_proof_of_space msg peer) s))
       = responses_so_far msg s
     ∨ responses_so_far msg (state_of (run (new_proof_of_space msg peer) s))
       = responses_so_far msg s + 1)
  ∧ (∀ reply,
       outcome_of (run (new_proof_of_space msg peer) s) = Returned (Some reply) →
       ∃ sp rest q,
         sps s !! pos_sp_hash msg = Some (sp :: rest)
         ∧ quality_of msg s = Some q
         ∧ block_eligible msg q sp s = true
         ∧ reply = sp_signature_request msg sp).
Proof.
  split; [intros; apply new_proof_of_space_loop_first|].
  split; [apply new_proof_of_space_cases|].
  rewrite new_proof_of_space_cases. unfold intake_on_first_sp.
  pose proof (responses_so_far_admitted msg s) as Hadm.
  pose proof (responses_so_far_counted msg s) as Hcnt.
  destruct (5 <? responses_so_far msg s); cbn; [split; [auto|done]|].
  destruct (sps s !! pos_sp_hash msg) as [[|sp rest]|]; cbn; [split; [auto|done]| |split; [auto|done]].
  destruct (quality_of msg s) as [q|]; cbn; [|split; [auto|done]].
  destruct (block_eligible msg q sp s) eqn:Hgood; cbn.
  { split.
    - right. by rewrite responses_so_far_recorded.
    - intros reply [= <-]. by exists sp, rest, q. }
  destruct (pool_public_key (proof msg)) as [pool_pk|]; cbn; [|split; [auto|done]].
  destruct (is_pooling_enabled (counted msg s)); cbn; [|split; [auto|done]].
  pose proof (pool_path_counters msg peer pool_pk q (counted msg s)) as Hpool.
  destruct (process_new_proof_of_space_for_pool _ _ _ _ _) as [[r s'] t]. cbn in *.
  split.
  - right. unfold responses_so_far at 1. rewrite Hpool. exact Hcnt.
  - intros reply Hreply. by destruct r.
Qed.

Lemma counted_pool_settings (msg : NewProofOfSpace) (q : bytes32) (s : Farmer) :
  pool_partial_payload msg (counted msg s) = pool_partial_payload msg s
  ∧ pool_signature_request msg (counted msg s) = pool_signature_request msg s
  ∧ pool_required_iters msg q (counted msg s) = pool_required_iters msg q s
  ∧ iters_limit (counted msg s) = iters_limit s.
Proof.
  unfold pool_signature_request, pool_partial_payload, pool_required_iters,
    counted, admitted.
  destruct (number_of_responses s !! pos_sp_hash msg); by destruct s.
Qed.

Lemma log_is_no_pool_event (e : Event) (logs : list Event) :
  Forall (fun e => ∃ level record, e = Log level record) logs →
  In e logs → ¬ is_pool_event e.
Proof.
  intros Hlogs Hin. rewrite Forall_forall in Hlogs.
  apply list_elem_of_In in Hin.
  destruct (Hlogs e Hin) as (level & record & ->). cbn. tauto.
Qed.

(** What the pool path sends out: the request to the harvester for the
    signature of the partial, and the partial itself. *)
Lemma pool_path_events (msg : NewProofOfSpace) (peer : WSChiaConnection)
    (pool_pk : G1Element) (q : bytes32) (s : Farmer) (e : Event) :
  In e (process_new_proof_of_space_for_pool msg peer pool_pk q s).2 →
  is_pool_event e →
  pool_required_iters msg q s < iters_limit s
  ∧ (e = PeerRequestSignatures (peer_node_id peer) (pool_signature_request msg s)
     ∨ ∃ sig, e = PoolSubmitPartial (Build_SubmitPartial (pool_partial_payload msg s) sig)).
Proof.
  intros Hin Hpool.
  destruct (Z.lt_ge_cases (pool_required_iters msg q s) (iters_limit s)) as [Hgood|Hbad].
  2:{ rewrite (pool_path_not_good_enough _ _ _ _ _ Hbad) in Hin.
      cbn in Hin. by destruct Hin as [<-|[]]. }
  split; [exact Hgood|].
  destruct (pool_path_shape msg peer pool_pk q s Hgood)
    as [(r & t & Hrun & _ & Hlogs) | (sig & Hrun)].
  - rewrite Hrun in Hin. cbn in Hin. destruct Hin as [<-|Hin]; [by left|].
    by destruct (log_is_no_pool_event e t Hlogs Hin).
  - rewrite Hrun in Hin.
    destruct (submit_to_pool_trace
                (Build_SubmitPartial (pool_partial_payload msg s) sig)
                (set_last_pool_partial_submit_timestamp (time 377) s))
      as (logs & Htrace & Hlogs).
    destruct (submit_to_pool _ _) as [[r2 s2] t2].
    cbn in Hin, Htrace. subst t2.
    destruct Hin as [<-|[<-|[<-|Hin]]]; [by left|done|right; by exists sig|].
    by destruct (log_is_no_pool_event e logs Hlogs Hin).
Qed.

(** C7: the pool path asks the harvester for a signature, or submits a
    partial, only for a proof that carries a pool public key, while pooling
    is enabled, and whose required iterations at the current pool
    difficulty are strictly below [iters_limit]; a proof that is not below
    the limit gets one log record and nothing else.  The partial holds the
    proof, the current pool difficulty, the signage point hash, the pool
    payout address, and an end-of-sub-slot flag that is true exactly when
    the [signage_point_index] that came with the proof is 0. *)
Theorem pool_partial_only_when_eligible (msg : NewProofOfSpace)
    (peer : WSChiaConnection) (s : Farmer) (e : Event) :
  In e (trace_of (run (new_proof_of_space msg peer) s)) →
  is_pool_event e →
  (∃ pool_pk q,
     pool_public_key (proof msg) = Some pool_pk
     ∧ quality_of msg s = Some q
     ∧ is_pooling_enabled (counted msg s) = true
     ∧ pool_required_iters msg q s < iters_limit s)
  ∧ match e with
    | PeerRequestSignatures node_id request =>
        node_id = peer_node_id peer
        ∧ messages request = [get_hash (pool_partial_payload msg s)]
    | PoolSubmitPartial submit_partial =>
        payload submit_partial =
          {| pp_proof_of_space := proof msg;
             pp_difficulty := pool_difficulty s;
             pp_sp_hash := pos_sp_hash msg;
             pp_end_of_sub_slot := pos_signage_point_index msg =? 0;
             pp_payout_address := pool_payout_address s |}
        ∧ (pp_end_of_sub_slot (payload submit_partial) = true
           ↔ pos_signage_point_index msg = 0)
    | _ => False
    end
  ∧ (∀ pool_pk q s0,
       iters_limit s0 <= pool_required_iters msg q s0 →
       process_new_proof_of_space_for_pool msg peer pool_pk q s0 =
         (Returning None, s0,
          [Log INFO (Not_good_enough_for_pool_difficulty (pool_difficulty s0))])).
Proof.
  intros Hin Hpool.
  cut ((∃ pool_pk q,
          pool_public_key (proof msg) = Some pool_pk
          ∧ quality_of msg s = Some q
          ∧ is_pooling_enabled (counted msg s) = true
          ∧ pool_required_iters msg q s < iters_limit s)
       ∧ (e = PeerRequestSignatures (peer_node_id peer) (pool_signature_request msg s)
          ∨ ∃ sig, e = PoolSubmitPartial
                         (Build_SubmitPartial (pool_partial_payload msg s) sig))).
  { intros [Hwhen Hwhat]. split; [exact Hwhen|]. split.
    - destruct Hwhat as [-> | [sig ->]]; cbn; [done|].
      split; [done|]. apply Z.eqb_eq.
    - intros pool_pk q s0. apply pool_path_not_good_enough. }
  rewrite new_proof_of_space_cases in Hin. unfold intake_on_first_sp in Hin.
  destruct (5 <? responses_so_far msg s); [by destruct Hin as [<-|[]]|].
  destruct (sps s !! pos_sp_hash msg) as [[|sp rest]|];
    [by destruct Hin | | by destruct Hin as [<-|[]]].
  destruct (quality_of msg s) as [q|]; [|by destruct Hin as [<-|[]]].
  destruct (block_eligible msg q sp s); [by destruct Hin|].
  destruct (pool_public_key (proof msg)) as [pool_pk|]; [|by destruct Hin].
  destruct (is_pooling_enabled (counted msg s)) eqn:Hpooling; [|by destruct Hin].
  pose proof (pool_path_events msg peer pool_pk q (counted msg s) e) as Hevents.
  destruct (process_new_proof_of_space_for_pool _ _ _ _ _) as [[r s'] t].
  destruct (Hevents Hin Hpool) as [Hgood Hwhat].
  destruct (counted_pool_settings msg q s) as (Hpayload & Hrequest & Hiters & Hlimit).
  rewrite Hpayload, Hrequest in Hwhat. rewrite Hiters, Hlimit in Hgood.
  split; [|exact Hwhat]. by exists pool_pk, q.
Qed.

(** ** The cap on proofs per signage point *)

Lemma quality_of_constants (msg : NewProofOfSpace) (s s' : Farmer) :
  constants s' = constants s → quality_of msg s' = quality_of msg s.
Proof. unfold quality_of. by intros ->. Qed.

Lemma block_eligible_constants (msg : NewProofOfSpace) (q : bytes32)
    (sp : NewSignagePoint) (s s' : Farmer) :
  constants s' = constants s → block_eligible msg q sp s' = block_eligible msg q sp s.
Proof. unfold block_eligible. by intros ->. Qed.

Lemma admitted_constants (msg : NewProofOfSpace) (s : Farmer) :
  constants (admitted msg s) = constants s.
Proof. unfold admitted. case_match; by destruct s. Qed.

Lemma recorded_counted_constants (msg : NewProofOfSpace) (peer : WSChiaConnection)
    (q : bytes32) (s : Farmer) :
  constants (recorded msg peer q (counted msg s)) = constants s
  ∧ sps (recorded msg peer q (counted msg s)) = sps s.
Proof.
  unfold recorded, counted, admitted. case_match; by destruct s.
Qed.

(** One good proof for a registered key: it is answered by the request for
    the signage point signatures as long as the key's counter has not gone
    past 5, and dropped after that. *)
Lemma new_proof_of_space_counted (msg : NewProofOfSpace) (peer : WSChiaConnection)
    (s : Farmer) (sp : NewSignagePoint) (rest : list NewSignagePoint) (q : bytes32) :
  sps s !! pos_sp_hash msg = Some (sp :: rest) →
  quality_of msg s = Some q →
  block_eligible msg q sp s = true →
  run (new_proof_of_space msg peer) s =
    if 5 <? responses_so_far msg s then
      (Returned None, admitted msg s,
       [Log INFO (Surpassed_PoSpace_for_one_SP 5 (pos_sp_hash msg))])
    else
      (Returned (Some (sp_signature_request msg sp)),
       recorded msg peer q (counted msg s), []).
Proof.
  intros Hsp Hq Hgood. rewrite new_proof_of_space_cases.
  unfold intake_on_first_sp. by rewrite Hsp, Hq, Hgood.
Qed.

Lemma handle_proofs_from (msgs : list NewProofOfSpace) (peer : WSChiaConnection)
    (key : bytes32) (sp : NewSignagePoint) (rest : list NewSignagePoint) :
  ∀ (s : Farmer) (c : Z),
    sps s !! key = Some (sp :: rest) →
    default 0 (number_of_responses s !! key) = c →
    0 <= c →
    Forall (fun msg =>
              pos_sp_hash msg = key
              ∧ ∃ q, quality_of msg s = Some q ∧ block_eligible msg q sp s = true) msgs →
    (handle_proofs msgs peer s).1 =
      map (fun msg => Returned (Some (sp_signature_request msg sp)))
          (take (Z.to_nat (6 - c)) msgs)
      ++ map (fun _ => Returned None) (drop (Z.to_nat (6 - c)) msgs).
Proof.
  induction msgs as [|msg msgs IH]; intros s c Hsp Hc Hpos Hgood.
  { by rewrite take_nil, drop_nil. }
  apply Forall_cons in Hgood as [(Hkey & q & Hq & Heligible) Hgood].
  subst key. cbn [handle_proofs].
  rewrite (new_proof_of_space_counted msg peer s sp rest q Hsp Hq Heligible).
  unfold responses_so_far. rewrite Hc.
  destruct (5 <? c) eqn:Hcap.
  - apply Z.ltb_lt in Hcap.
    specialize (IH (admitted msg s) c).
    destruct (handle_proofs msgs peer (admitted msg s)) as [outcomes s2].
    replace (Z.to_nat (6 - c)) with 0%nat in * by lia. cbn in *.
    rewrite IH; [by rewrite take_0, drop_0| | | |].
    + by rewrite admitted_sps.
    + pose proof (responses_so_far_admitted msg s) as Hadm.
      unfold responses_so_far in Hadm. by rewrite Hadm.
    + exact Hpos.
    + eapply Forall_impl; [exact Hgood|]. cbn.
      intros msg' (Hkey' & q' & Hq' & Hgood'). split; [done|]. exists q'.
      by rewrite (quality_of_constants _ _ _ (admitted_constants msg s)),
        (block_eligible_constants _ _ _ _ _ (admitted_constants msg s)).
  - apply Z.ltb_ge in Hcap.
    destruct (recorded_counted_constants msg peer q s) as [Hconsts Hsps].
    specialize (IH (recorded msg peer q (counted msg s)) (c + 1)).
    destruct (handle_proofs msgs peer _) as [outcomes s2].
    replace (Z.to_nat (6 - c)) with (S (Z.to_nat (6 - (c + 1)))) by lia. cbn in *.
    rewrite IH; [done| | | |].
    + by rewrite Hsps.
    + pose proof (responses_so_far_counted msg s) as Hcnt.
      pose proof (responses_so_far_recorded msg peer q (counted msg s)) as Hrec.
      unfold responses_so_far in *. rewrite Hrec, Hcnt. by rewrite Hc.
    + lia.
    + eapply Forall_impl; [exact Hgood|]. cbn.
      intros msg' (Hkey' & q' & Hq' & Hgood'). split; [done|]. exists q'.
      by rewrite (quality_of_constants _ _ _ Hconsts),
        (block_eligible_constants _ _ _ _ _ Hconsts).
Qed.

(** C3, what the code does: of the good proofs submitted in sequence for a
    key with a registered signage point and no response counter yet, the
    first six (not five) are each answered by the request for the signage
    point signatures, and every one after the sixth is dropped. *)
Theorem new_proof_of_space_cap_admits_six (msgs : list NewProofOfSpace)
    (peer : WSChiaConnection) (s : Farmer) (key : bytes32)
    (sp : NewSignagePoint) (rest : list NewSignagePoint) :
  sps s !! key = Some (sp :: rest) →
  number_of_responses s !! key = None →
  Forall (fun msg =>
            pos_sp_hash msg = key
            ∧ ∃ q, quality_of msg s = Some q ∧ block_eligible msg q sp s = true) msgs →
  (handle_proofs msgs peer s).1 =
    map (fun msg => Returned (Some (sp_signature_request msg sp))) (take 6 msgs)
    ++ map (fun _ => Returned None) (drop 6 msgs).
Proof.
  intros Hsp Hfresh Hgood.
  apply (handle_proofs_from msgs peer key sp rest s 0); [done| |lia|done].
  by rewrite Hfresh.
Qed.

(** ** Answers of the harvester: which branch *)

Lemma registered_reward_chain_sp_spec (m : bytes32) (bucket : list NewSignagePoint) :
  registered_reward_chain_sp m bucket = true ↔ ∃ sp, sp ∈ bucket ∧ reward_chain_sp sp = m.
Proof.
  unfold registered_reward_chain_sp. rewrite existsb_exists. split.
  - intros (sp & Hin & Hrc). exists sp. split; [by apply list_elem_of_In|].
    by apply bool_decide_eq_true in Hrc.
  - intros (sp & Hin & Hrc). exists sp. split; [by apply list_elem_of_In|].
    by apply bool_decide_eq_true.
Qed.

(** The loop of lines 136-140 when the first signed message is not the
    response's [sp_hash]: the locals stay as they are. *)
Lemma correlate_loop_other (response : RespondSignatures) (m0 : bytes32) (g0 : G2Element)
    (bucket : list NewSignagePoint) (locals : bool * bool) (s : Farmer) :
  message_signatures response !! 0%nat = Some (m0, g0) →
  rs_sp_hash response ≠ m0 →
  for_each bucket locals (respond_signatures_correlate response) s = (Normal locals, s, []).
Proof.
  intros Hfirst Hne. induction bucket as [|sp bucket IH]; [done|].
  rewrite for_each_cons.
  unfold respond_signatures_correlate at 1. destruct locals as [a f].
  unfold_M. rewrite Hfirst. cbn.
  rewrite (bool_decide_eq_false_2 _ Hne). cbn. by rewrite IH.
Qed.

Lemma correlate_sp_hash_step (response : RespondSignatures) (g0 : G2Element)
    (m1 : bytes32) (g1 : G2Element) (sp : NewSignagePoint) (s : Farmer) is_sp found :
  message_signatures response !! 0%nat = Some (rs_sp_hash response, g0) →
  message_signatures response !! 1%nat = Some (m1, g1) →
  respond_signatures_correlate response (is_sp, found) sp s =
    (Normal (is_sp || bool_decide (reward_chain_sp sp = m1), true), s, []).
Proof.
  intros Hfirst Hsecond. unfold respond_signatures_correlate. unfold_M.
  rewrite Hfirst, Hsecond. cbn. rewrite bool_decide_eq_true_2 by done.
  destruct (bool_decide (reward_chain_sp sp = m1)); cbn;
    by rewrite ?orb_true_r, ?orb_false_r.
Qed.

(** The same loop when the first signed message is the [sp_hash]: the hash
    is found, and the response is one of signage point signatures when
    some entry has the second signed message as its reward chain value. *)
Lemma correlate_loop_sp_hash (response : RespondSignatures) (g0 : G2Element)
    (m1 : bytes32) (g1 : G2Element) (sp : NewSignagePoint)
    (bucket : list NewSignagePoint) (s : Farmer) :
  message_signatures response !! 0%nat = Some (rs_sp_hash response, g0) →
  message_signatures response !! 1%nat = Some (m1, g1) →
  ∀ is_sp found,
    for_each (sp :: bucket) (is_sp, found) (respond_signatures_correlate response) s =
      (Normal (is_sp || registered_reward_chain_sp m1 (sp :: bucket), true), s, []).
Proof.
  intros Hfirst Hsecond. revert sp.
  induction bucket as [|sp' bucket IH]; intros sp is_sp found;
    rewrite for_each_cons,
      (correlate_sp_hash_step response g0 m1 g1 sp s is_sp found Hfirst Hsecond).
  - cbn. by rewrite orb_false_r.
  - rewrite IH. unfold registered_reward_chain_sp. cbn. by rewrite <- (orb_assoc is_sp).
Qed.

(** Lines 129-143 for a registered key, case by case. *)
Lemma respond_signatures_resolve_cases (response : RespondSignatures) (s : Farmer)
    (bucket : list NewSignagePoint) :
  sps s !! rs_sp_hash response = Some bucket →
  respond_signatures_resolve response s =
    match bucket with
    | [] => (Raising IndexError, s, [])
    | first_sp :: _ =>
        match message_signatures response !! 0%nat with
        | None => (Raising IndexError, s, [])
        | Some (m0, _) =>
            if bool_decide (rs_sp_hash response = m0) then
              match message_signatures response !! 1%nat with
              | None => (Raising IndexError, s, [])
              | Some (m1, _) =>
                  if registered_reward_chain_sp m1 bucket
                  then (Normal (sp_signage_point_index first_sp, true), s, [])
                  else (Raising AssertionError, s, [])
              end
            else (Normal (sp_signage_point_index first_sp, false), s, [])
        end
    end.
Proof.
  intros Hbucket. unfold respond_signatures_resolve.
  unfold_M. cbn. rewrite (dict_in_Some _ _ _ Hbucket). cbn. rewrite Hbucket.
  destruct bucket as [|first_sp bucket]; cbn; [done|].
  destruct (message_signatures response !! 0%nat) as [[m0 g0]|] eqn:Hfirst.
  2:{ rewrite for_each_cons. unfold respond_signatures_correlate at 1.
      unfold_M. by rewrite Hfirst. }
  destruct (decide (rs_sp_hash response = m0)) as [<-|Hne].
  - rewrite bool_decide_eq_true_2 by done.
    destruct (message_signatures response !! 1%nat) as [[m1 g1]|] eqn:Hsecond.
    + rewrite (correlate_loop_sp_hash response g0 m1 g1 first_sp bucket s
                 Hfirst Hsecond false false).
      unfold registered_reward_chain_sp. cbn.
      by destruct (bool_decide _ || existsb _ _).
    + rewrite for_each_cons. unfold respond_signatures_correlate at 1. unfold_M.
      rewrite Hfirst, Hsecond. cbn. by rewrite bool_decide_eq_true_2.
  - rewrite (bool_decide_eq_false_2 _ Hne).
    by rewrite (correlate_loop_other response m0 g0 (first_sp :: bucket) (false, false) s
                  Hfirst Hne).
Qed.

Lemma respond_signatures_after_resolve (response : RespondSignatures) (s : Farmer)
    (index : uint8) (is_sp : bool) :
  respond_signatures_resolve response s = (Normal (index, is_sp), s, []) →
  respond_signatures response s = respond_signatures_finish response index is_sp s.
Proof.
  intros Hresolve. unfold respond_signatures. unfold mbind at 1. unfold M_bind.
  rewrite Hresolve.
  by destruct (respond_signatures_finish response index is_sp s) as [[r s2] t2].
Qed.

(** C5, as the code has it: for a response whose [sp_hash] is a registered
    key, the handler goes on in the signage point branch exactly when the
    first signed message is the response's [sp_hash] and the second signed
    message is the reward chain value of a signage point registered for
    the key; it goes on in the block signatures branch exactly when the
    first signed message is not the [sp_hash]; and when the first signed
    message is the [sp_hash] but the second is the reward chain value of no
    registered signage point, the assertion of line 142 fails and the
    handler raises instead of taking the block signatures branch. *)
Theorem respond_signatures_branch (response : RespondSignatures) (s : Farmer)
    (first_sp : NewSignagePoint) (rest : list NewSignagePoint) :
  sps s !! rs_sp_hash response = Some (first_sp :: rest) →
  let bucket := first_sp :: rest in
  let index := sp_signage_point_index first_sp in
  let first_is_other :=
    ∃ m0 g0, message_signatures response !! 0%nat = Some (m0, g0)
             ∧ m0 ≠ rs_sp_hash response in
  (respond_signatures_resolve response s = (Normal (index, true), s, [])
     ↔ carries_sp_signatures response bucket)
  ∧ (carries_sp_signatures response bucket →
       respond_signatures response s = respond_signatures_finish response index true s)
  ∧ (respond_signatures_resolve response s = (Normal (index, false), s, [])
       ↔ first_is_other)
  ∧ (first_is_other →
       respond_signatures response s = respond_signatures_finish response index false s)
  ∧ (∀ g0 m1 g1,
       message_signatures response !! 0%nat = Some (rs_sp_hash response, g0) →
       message_signatures response !! 1%nat = Some (m1, g1) →
       (∀ sp, sp ∈ bucket → reward_chain_sp sp ≠ m1) →
       run (respond_signatures response) s = (Raised AssertionError, s, [])).
Proof.
  intros Hbucket bucket index first_is_other.
  pose proof (respond_signatures_resolve_cases response s bucket Hbucket) as Hcases.
  cbn [bucket] in Hcases. fold bucket in Hcases.
  assert (respond_signatures_resolve response s = (Normal (index, true), s, [])
          ↔ carries_sp_signatures response bucket) as Hsp.
  { rewrite Hcases. unfold carries_sp_signatures. split.
    - destruct (message_signatures response !! 0%nat) as [[m0 g0]|]; [|done].
      destruct (decide (rs_sp_hash response = m0)) as [<-|Hne].
      2:{ by rewrite (bool_decide_eq_false_2 _ Hne). }
      rewrite bool_decide_eq_true_2 by done.
      destruct (message_signatures response !! 1%nat) as [[m1 g1]|]; [|done].
      destruct (registered_reward_chain_sp m1 bucket) eqn:Hreg; [|done].
      intros _. apply registered_reward_chain_sp_spec in Hreg as (sp & Hin & Hrc).
      by exists g0, m1, g1, sp.
    - intros (g0 & m1 & g1 & sp & -> & -> & Hin & Hrc).
      rewrite bool_decide_eq_true_2 by done.
      assert (registered_reward_chain_sp m1 bucket = true) as ->; [|done].
      apply registered_reward_chain_sp_spec. by exists sp. }
  assert (respond_signatures_resolve response s = (Normal (index, false), s, [])
          ↔ first_is_other) as Hblock.
  { rewrite Hcases. unfold first_is_other. split.
    - destruct (message_signatures response !! 0%nat) as [[m0 g0]|]; [|done].
      destruct (decide (rs_sp_hash response = m0)) as [<-|Hne].
      + rewrite bool_decide_eq_true_2 by done.
        destruct (message_signatures response !! 1%nat) as [[m1 g1]|]; [|done].
        by destruct (registered_reward_chain_sp m1 bucket).
      + intros _. by exists m0, g0.
    - intros (m0 & g0 & -> & Hne).
      by rewrite bool_decide_eq_false_2. }
  split; [exact Hsp|]. split.
  { intros Hcarries. apply respond_signatures_after_resolve. by apply Hsp. }
  split; [exact Hblock|]. split.
  { intros Hother. apply respond_signatures_after_resolve. by apply Hblock. }
  intros g0 m1 g1 Hfirst Hsecond Hnone.
  unfold run, respond_signatures. unfold mbind at 1. unfold M_bind.
  rewrite Hcases, Hfirst, Hsecond.
  rewrite bool_decide_eq_true_2 by done.
  destruct (registered_reward_chain_sp m1 bucket) eqn:Hreg; [|done].
  apply registered_reward_chain_sp_spec in Hreg as (sp & Hin & Hrc).
  by destruct (Hnone sp Hin).
Qed.

(** ** Answers of the harvester: the recorded proof *)

Lemma pick_loop (response : RespondSignatures) (candidates : list (string * ProofOfSpace))
    (s : Farmer) :
  ∀ found,
    for_each candidates found (respond_signatures_pick response) s =
      (Normal
         (foldl (fun found candidate =>
                   if bool_decide (candidate.1 = rs_plot_identifier response)
                   then Some candidate.2 else found)
                found candidates), s, []).
Proof.
  induction candidates as [|[plot p] candidates IH]; intros found; [done|].
  rewrite for_each_cons. unfold respond_signatures_pick at 1. cbn.
  destruct (bool_decide (plot = rs_plot_identifier response)); cbn; by rewrite IH.
Qed.

(** Lines 144-155, case by case. *)
Lemma respond_signatures_pospace_cases (response : RespondSignatures) (s : Farmer) :
  respond_signatures_pospace response s =
    match proofs_of_space s !! rs_sp_hash response with
    | None => (Raising KeyError, s, [])
    | Some candidates =>
        match pick_pospace (rs_plot_identifier response) candidates with
        | None => (Raising AssertionError, s, [])
        | Some pospace =>
            match verify_and_get_quality_string pospace (constants s)
                    (rs_challenge_hash response) (rs_sp_hash response) with
            | None => (Returning None, s, [Log WARNING (Have_invalid_PoSpace pospace)])
            | Some q => (Normal (pospace, q), s, [])
            end
        end
    end.
Proof.
  unfold respond_signatures_pospace. unfold_M. cbn.
  destruct (proofs_of_space s !! rs_sp_hash response) as [candidates|]; [|done].
  cbn. rewrite pick_loop. fold (pick_pospace (rs_plot_identifier response) candidates).
  destruct (pick_pospace _ _) as [pospace|]; cbn; [|done].
  by destruct (verify_and_get_quality_string _ _ _ _).
Qed.

(** ** Answers of the harvester: the loops over the private keys *)

Lemma for_each_skip {A} (l : list A) (body : unit → A → M unit) (s : Farmer) :
  (∀ x, x ∈ l → body tt x s = (Normal tt, s, [])) →
  for_each l tt body s = (Normal tt, s, []).
Proof.
  induction l as [|x l IH]; intros Hskip; [done|].
  rewrite for_each_cons, (Hskip x) by constructor.
  rewrite IH; [done|]. intros y Hy. apply Hskip. by constructor.
Qed.

Lemma for_each_trace {A L} (P : Event → Prop) (l : list A) (body : L → A → M L) :
  (∀ acc x s, x ∈ l → Forall P (body acc x s).2) →
  ∀ acc s, Forall P (for_each l acc body s).2.
Proof.
  induction l as [|x l IH]; intros Hbody acc s; [by constructor|].
  rewrite for_each_cons.
  pose proof (Hbody acc x s ltac:(constructor)) as Hhead.
  destruct (body acc x s) as [[r s1] t1]. cbn in Hhead.
  destruct r as [acc'| |]; [|done..].
  assert (Forall P (for_each l acc' body s1).2) as Htail.
  { apply IH. intros acc0 y s0 Hy. apply Hbody. by constructor. }
  destruct (for_each l acc' body s1) as [[r2 s2] t2]. cbn in *.
  by apply Forall_app.
Qed.

Lemma for_each_state {A L} (l : list A) (body : L → A → M L) :
  (∀ acc x s, (body acc x s).1.2 = s) →
  ∀ acc s, (for_each l acc body s).1.2 = s.
Proof.
  intros Hbody. induction l as [|x l IH]; intros acc s; [done|].
  rewrite for_each_cons.
  pose proof (Hbody acc x s) as Hhead.
  destruct (body acc x s) as [[r s1] t1]. cbn in Hhead. subst s1.
  destruct r as [acc'| |]; [|done..].
  pose proof (IH acc' s) as Htail.
  by destruct (for_each l acc' body s) as [[r2 s2] t2].
Qed.

Lemma sp_for_key_skip (response : RespondSignatures) (index : uint8) (p : ProofOfSpace)
    (first second : bytes32 * G2Element) (sk : PrivateKey) (s : Farmer) :
  get_g1 sk ≠ farmer_pk response →
  respond_signatures_sp_for_key response index p first second sk s = (Normal tt, s, []).
Proof.
  intros Hne. unfold respond_signatures_sp_for_key. destruct first, second.
  unfold_M. by rewrite (bool_decide_eq_false_2 _ Hne).
Qed.

Lemma block_for_key_skip (response : RespondSignatures) (p : ProofOfSpace) (q : bytes32)
    (first second : bytes32 * G2Element) (sk : PrivateKey) (s : Farmer) :
  message_signatures response !! 0%nat = Some first →
  message_signatures response !! 1%nat = Some second →
  get_g1 sk ≠ farmer_pk response →
  respond_signatures_block_for_key response p q sk s = (Normal tt, s, []).
Proof.
  intros Hfirst Hsecond Hne. unfold respond_signatures_block_for_key.
  unfold_M. rewrite Hfirst, Hsecond. destruct first, second. cbn.
  by rewrite (bool_decide_eq_false_2 _ Hne).
Qed.

(** One private key in the signage point branch: what it broadcasts went
    out verified, and the farmer state is not written. *)
Lemma sp_for_key_sound (response : RespondSignatures) (index : uint8) (p : ProofOfSpace)
    (first second : bytes32 * G2Element) (keys : list PrivateKey) (sk : PrivateKey)
    (s : Farmer) :
  message_signatures response !! 0%nat = Some first →
  message_signatures response !! 1%nat = Some second →
  sk ∈ keys →
  Forall (verified_broadcast response keys)
    (respond_signatures_sp_for_key response index p first second sk s).2
  ∧ (respond_signatures_sp_for_key response index p first second sk s).1.2 = s.
Proof.
  intros Hfirst Hsecond Hsk. unfold respond_signatures_sp_for_key.
  destruct first as [m0 h0], second as [m1 h1]. unfold_M.
  destruct (bool_decide (get_g1 sk = farmer_pk response)) eqn:Hpk; [|by split].
  apply bool_decide_eq_true in Hpk. cbn.
  repeat (case_match; simplify_eq/=); (split; [|done]); repeat constructor.
  all: try done.
  all: exists sk, m0, h0, m1, h1; rewrite <- Hpk; repeat split; done.
Qed.

(** One private key in the block signatures branch. *)
Lemma block_for_key_sound (response : RespondSignatures) (p : ProofOfSpace) (q : bytes32)
    (keys : list PrivateKey) (sk : PrivateKey) (s : Farmer) :
  sk ∈ keys →
  Forall (verified_broadcast response keys)
    (respond_signatures_block_for_key response p q sk s).2
  ∧ (respond_signatures_block_for_key response p q sk s).1.2 = s.
Proof.
  intros Hsk. unfold respond_signatures_block_for_key. unfold_M.
  destruct (message_signatures response !! 0%nat) as [[m0 h0]|] eqn:Hfirst; [|by split].
  destruct (message_signatures response !! 1%nat) as [[m1 h1]|] eqn:Hsecond; [|by split].
  cbn.
  destruct (bool_decide (get_g1 sk = farmer_pk response)) eqn:Hpk; [|by split].
  apply bool_decide_eq_true in Hpk. cbn.
  repeat (case_match; simplify_eq/=); (split; [|done]); repeat constructor.
  all: try done.
  all: exists sk, m0, h0, m1, h1; rewrite <- Hpk; repeat split; done.
Qed.

Lemma log_is_verified (response : RespondSignatures) (keys : list PrivateKey)
    (t : list Event) :
  Forall is_log t → Forall (verified_broadcast response keys) t.
Proof. intros Hlogs. eapply Forall_impl; [exact Hlogs|]. by intros []. Qed.

Lemma respond_signatures_resolve_quiet (response : RespondSignatures) (s : Farmer) :
  ∃ r t, respond_signatures_resolve response s = (r, s, t) ∧ Forall is_log t.
Proof.
  destruct (sps s !! rs_sp_hash response) as [bucket|] eqn:Hbucket.
  - rewrite (respond_signatures_resolve_cases response s bucket Hbucket).
    repeat case_match; do 2 eexists; (split; [reflexivity|constructor]).
  - unfold respond_signatures_resolve. unfold_M. cbn.
    rewrite (dict_in_None _ _ Hbucket). cbn.
    do 2 eexists. split; [reflexivity|]. by repeat constructor.
Qed.

Lemma respond_signatures_pospace_quiet (response : RespondSignatures) (s : Farmer) :
  ∃ r t, respond_signatures_pospace response s = (r, s, t) ∧ Forall is_log t.
Proof.
  rewrite respond_signatures_pospace_cases.
  repeat case_match; do 2 eexists; (split; [reflexivity|]); by repeat constructor.
Qed.

Lemma respond_signatures_sp_sound (response : RespondSignatures) (index : uint8)
    (p : ProofOfSpace) (s : Farmer) :
  Forall (verified_broadcast response (get_private_keys s))
    (respond_signatures_sp response index p s).2
  ∧ (respond_signatures_sp response index p s).1.2 = s.
Proof.
  unfold respond_signatures_sp. unfold_M.
  destruct (message_signatures response !! 0%nat) as [first|] eqn:Hfirst; [|by split].
  destruct (message_signatures response !! 1%nat) as [second|] eqn:Hsecond; [|by split].
  cbn.
  pose proof (for_each_trace (verified_broadcast response (get_private_keys s))
                (get_private_keys s)
                (fun _ sk => respond_signatures_sp_for_key response index p first second sk)
                (fun acc sk s0 Hsk =>
                   proj1 (sp_for_key_sound response index p first second
                            (get_private_keys s) sk s0 Hfirst Hsecond Hsk)) tt s) as Htrace.
  pose proof (for_each_state (get_private_keys s)
                (fun _ sk => respond_signatures_sp_for_key response index p first second sk)
                (fun acc sk s0 =>
                   proj2 (sp_for_key_sound response index p first second
                            [sk] sk s0 Hfirst Hsecond ltac:(constructor))) tt s) as Hstate.
  by destruct (for_each _ _ _ _) as [[r s'] t].
Qed.

Lemma respond_signatures_block_sound (response : RespondSignatures) (p : ProofOfSpace)
    (q : bytes32) (s : Farmer) :
  Forall (verified_broadcast response (get_private_keys s))
    (respond_signatures_block response p q s).2
  ∧ (respond_signatures_block response p q s).1.2 = s.
Proof.
  unfold respond_signatures_block. unfold_M. cbn.
  pose proof (for_each_trace (verified_broadcast response (get_private_keys s))
                (get_private_keys s)
                (fun _ sk => respond_signatures_block_for_key response p q sk)
                (fun acc sk s0 Hsk =>
                   proj1 (block_for_key_sound response p q
                            (get_private_keys s) sk s0 Hsk)) tt s) as Htrace.
  pose proof (for_each_state (get_private_keys s)
                (fun _ sk => respond_signatures_block_for_key response p q sk)
                (fun acc sk s0 =>
                   proj2 (block_for_key_sound response p q
                            [sk] sk s0 ltac:(constructor))) tt s) as Hstate.
  by destruct (for_each _ _ _ _) as [[r s'] t].
Qed.

(** The handler writes nothing to the farmer state, and what it broadcasts
    to the full nodes went out verified. *)
Lemma respond_signatures_sound (response : RespondSignatures) (s : Farmer) :
  Forall (verified_broadcast response (get_private_keys s))
    (respond_signatures response s).2
  ∧ (respond_signatures response s).1.2 = s.
Proof.
  unfold respond_signatures, respond_signatures_finish.
  unfold mbind, M_bind.
  destruct (respond_signatures_resolve_quiet response s) as (r1 & t1 & -> & Hlog1).
  apply (log_is_verified response (get_private_keys s)) in Hlog1.
  destruct r1 as [[index is_sp]| |]; [|done..].
  destruct (respond_signatures_pospace_quiet response s) as (r2 & t2 & -> & Hlog2).
  apply (log_is_verified response (get_private_keys s)) in Hlog2.
  destruct r2 as [[p q]| |]; [|split; [by apply Forall_app|done]..].
  destruct is_sp.
  - destruct (respond_signatures_sp_sound response index p s) as [Htrace Hstate].
    destruct (respond_signatures_sp response index p s) as [[r3 s3] t3]. cbn in *.
    split; [|done]. apply Forall_app. split; [done|]. by apply Forall_app.
  - destruct (respond_signatures_block_sound response p q s) as [Htrace Hstate].
    destruct (respond_signatures_block response p q s) as [[r3 s3] t3]. cbn in *.
    split; [|done]. apply Forall_app. split; [done|]. by apply Forall_app.
Qed.

Lemma run_trace (handler : M unit) (s : Farmer) :
  trace_of (run handler s) = (handler s).2 ∧ state_of (run handler s) = (handler s).1.2.
Proof. unfold run. by destruct (handler s) as [[[]]]. Qed.

(** C1: every broadcast to the full nodes that [respond_signatures] makes
    is a [DeclareProofOfSpace] or a [SignedValues] whose two aggregate
    signatures were verified against the plot public key made of the
    response's local key and the matching farmer key; so a response whose
    aggregates do not both verify, for each matching private key, is
    followed by no broadcast to the full nodes at all. *)
Theorem respond_signatures_broadcasts_verified (response : RespondSignatures) (s : Farmer) :
  Forall (verified_broadcast response (get_private_keys s))
    (trace_of (run (respond_signatures response) s))
  ∧ ((∀ sk m0 h0 m1 h1,
        sk ∈ get_private_keys s →
        get_g1 sk = farmer_pk response →
        message_signatures response !! 0%nat = Some (m0, h0) →
        message_signatures response !! 1%nat = Some (m1, h1) →
        let agg_pk := generate_plot_public_key (local_pk response) (farmer_pk response) in
        AugSchemeMPL_verify agg_pk m0
          (AugSchemeMPL_aggregate [h0; AugSchemeMPL_sign_prepend sk m0 agg_pk]) = false
        ∨ AugSchemeMPL_verify agg_pk m1
            (AugSchemeMPL_aggregate [h1; AugSchemeMPL_sign_prepend sk m1 agg_pk]) = false) →
     Forall (fun e => is_full_node_broadcast e = false)
       (trace_of (run (respond_signatures response) s))).
Proof.
  destruct (run_trace (respond_signatures response) s) as [-> _].
  destruct (respond_signatures_sound response s) as [Hverified _].
  split; [exact Hverified|].
  intros Hcorrupt. eapply Forall_impl; [exact Hverified|].
  intros e He. destruct e as [| msgs [] | | | | |]; try done.
  destruct He as (sk & m0 & h0 & m1 & h1 & Hsk & Hpk & Hfirst & Hsecond & Hv0 & Hv1 & _).
  destruct (Hcorrupt sk m0 h0 m1 h1 Hsk Hpk Hfirst Hsecond) as [Hbad|Hbad];
    cbv zeta in Hbad; congruence.
Qed.

Lemma for_each_skip_prefix {A} (skipped l : list A) (body : unit → A → M unit) (s : Farmer) :
  (∀ x, x ∈ skipped → body tt x s = (Normal tt, s, [])) →
  for_each (skipped ++ l) tt body s = for_each l tt body s.
Proof.
  induction skipped as [|x skipped IH]; intros Hskip; [done|].
  cbn [app]. rewrite for_each_cons, (Hskip x) by constructor.
  rewrite IH.
  - by destruct (for_each l tt body s) as [[r s2] t2].
  - intros y Hy. apply Hskip. by constructor.
Qed.

Lemma pool_plot_signature_skip (msg : NewProofOfSpace) (response : RespondSignatures)
    (m : bytes32) (keys : list PrivateKey) (s : Farmer) :
  (∀ sk, sk ∈ keys → get_g1 sk ≠ farmer_pk response) →
  ∀ found,
    for_each keys found (pool_plot_signature_for_key msg response m) s =
      (Normal found, s, []).
Proof.
  induction keys as [|sk keys IH]; intros Hnone found; [done|].
  rewrite for_each_cons. unfold pool_plot_signature_for_key at 1.
  rewrite bool_decide_eq_false_2 by (apply Hnone; constructor).
  cbn. rewrite IH; [done|]. intros sk' Hsk'. apply Hnone. by constructor.
Qed.

(** Lines 124-155 for a response whose branch was resolved and whose
    recorded proof verifies: what is left is the branch. *)
Lemma respond_signatures_at (response : RespondSignatures) (s : Farmer)
    (index : uint8) (is_sp : bool) (candidates : list (string * ProofOfSpace))
    (p : ProofOfSpace) (q : bytes32) :
  respond_signatures_resolve response s = (Normal (index, is_sp), s, []) →
  proofs_of_space s !! rs_sp_hash response = Some candidates →
  pick_pospace (rs_plot_identifier response) candidates = Some p →
  verify_and_get_quality_string p (constants s)
    (rs_challenge_hash response) (rs_sp_hash response) = Some q →
  respond_signatures response s =
    if is_sp then respond_signatures_sp response index p s
    else respond_signatures_block response p q s.
Proof.
  intros Hresolve Hrecorded Hpick Hquality.
  rewrite (respond_signatures_after_resolve _ _ _ _ Hresolve).
  unfold respond_signatures_finish. unfold mbind, M_bind.
  rewrite respond_signatures_pospace_cases, Hrecorded, Hpick, Hquality.
  destruct is_sp.
  - by destruct (respond_signatures_sp response index p s) as [[r s2] t2].
  - by destruct (respond_signatures_block response p q s) as [[r s2] t2].
Qed.

(** The loop of lines 361-368 when every local key that has the answer's
    farmer public key passes the two assertions of the loop: it ends, with
    or without a plot signature. *)
Lemma pool_plot_signature_passes (msg : NewProofOfSpace) (response : RespondSignatures)
    (m : bytes32) (share : bytes32 * G2Element) (keys : list PrivateKey) (s : Farmer) :
  message_signatures response !! 0%nat = Some share →
  (∀ sk, sk ∈ keys → get_g1 sk = farmer_pk response →
     let agg_pk := generate_plot_public_key (local_pk response) (get_g1 sk) in
     agg_pk = plot_public_key (proof msg)
     ∧ AugSchemeMPL_verify agg_pk m
         (AugSchemeMPL_aggregate [AugSchemeMPL_sign_prepend sk m agg_pk; share.2]) = true) →
  ∀ found, ∃ found',
    for_each keys found (pool_plot_signature_for_key msg response m) s =
      (Normal found', s, []).
Proof.
  intros Hshare. induction keys as [|sk keys IH]; intros Hpass found.
  { exists found. apply for_each_nil. }
  rewrite for_each_cons. unfold pool_plot_signature_for_key at 1. unfold_M.
  assert (∀ sk', sk' ∈ keys → get_g1 sk' = farmer_pk response →
            let agg_pk := generate_plot_public_key (local_pk response) (get_g1 sk') in
            agg_pk = plot_public_key (proof msg)
            ∧ AugSchemeMPL_verify agg_pk m
                (AugSchemeMPL_aggregate [AugSchemeMPL_sign_prepend sk' m agg_pk; share.2])
              = true) as Hrest.
  { intros sk' Hsk'. apply Hpass. by constructor. }
  destruct (bool_decide (get_g1 sk = farmer_pk response)) eqn:Hpk.
  - apply bool_decide_eq_true in Hpk.
    destruct (Hpass sk ltac:(constructor) Hpk) as [Hplot Hverify]. cbv zeta in *.
    rewrite (bool_decide_eq_true_2 _ Hplot). cbn. rewrite Hshare. cbn.
    rewrite Hverify. cbn.
    destruct (IH Hrest (Some (AugSchemeMPL_aggregate
                [AugSchemeMPL_sign_prepend sk m
                   (generate_plot_public_key (local_pk response) (get_g1 sk)); share.2])))
      as [found' ->].
    by exists found'.
  - cbn. destruct (IH Hrest found) as [found' ->]. by exists found'.
Qed.

(** C2, as the code has it.  In [respond_signatures], for a response whose
    branch was resolved: when proofs are recorded under the response's key
    but none for the plot the response names, the assertion of line 148
    fails and the handler raises; when a proof is recorded and verifies,
    the response carries two signed messages and no local private key has
    the response's farmer public key, the handler returns without
    broadcasting and without logging, in either branch; and in the signage
    point branch, when a key matches, the aggregates verify and the proof's
    pool public key has no private key in [pool_sks_map], the handler logs
    the error and returns without broadcasting.  In the pool path, when the
    harvester answered with one signature, no local private key has the
    answer's farmer public key and the pool key is known, the assertion of
    line 372 fails and the helper raises.  Further, in
    [respond_signatures]: when nothing at all is recorded under the
    response's key, the read of line 145 raises [KeyError]; and the block
    signatures branch does not read [pool_sks_map]: with one matching key
    and verifying aggregates the [SignedValues] is broadcast also when the
    proof's pool public key has no private key.  And in the pool path, when
    the harvester answered with one signature, every local key that has
    the answer's farmer public key passes the assertions of the loop (or
    none has it) and the pool public key has no private key in
    [pool_sks_map], the read of line 369 raises [KeyError].  In each case
    the farmer state is left as it was. *)
Theorem missing_key_material :
  (∀ (response : RespondSignatures) (s : Farmer) index is_sp candidates,
     respond_signatures_resolve response s = (Normal (index, is_sp), s, []) →
     proofs_of_space s !! rs_sp_hash response = Some candidates →
     pick_pospace (rs_plot_identifier response) candidates = None →
     run (respond_signatures response) s = (Raised AssertionError, s, []))
  ∧ (∀ (response : RespondSignatures) (s : Farmer) index is_sp candidates p q first second,
       respond_signatures_resolve response s = (Normal (index, is_sp), s, []) →
       proofs_of_space s !! rs_sp_hash response = Some candidates →
       pick_pospace (rs_plot_identifier response) candidates = Some p →
       verify_and_get_quality_string p (constants s)
         (rs_challenge_hash response) (rs_sp_hash response) = Some q →
       message_signatures response !! 0%nat = Some first →
       message_signatures response !! 1%nat = Some second →
       (∀ sk, sk ∈ get_private_keys s → get_g1 sk ≠ farmer_pk response) →
       run (respond_signatures response) s = (Returned None, s, []))
  ∧ (∀ (response : RespondSignatures) (s : Farmer) index candidates p q m0 h0 m1 h1
       skipped sk later pool_pk,
       respond_signatures_resolve response s = (Normal (index, true), s, []) →
       proofs_of_space s !! rs_sp_hash response = Some candidates →
       pick_pospace (rs_plot_identifier response) candidates = Some p →
       verify_and_get_quality_string p (constants s)
         (rs_challenge_hash response) (rs_sp_hash response) = Some q →
       message_signatures response !! 0%nat = Some (m0, h0) →
       message_signatures response !! 1%nat = Some (m1, h1) →
       get_private_keys s = skipped ++ sk :: later →
       (∀ sk', sk' ∈ skipped → get_g1 sk' ≠ farmer_pk response) →
       get_g1 sk = farmer_pk response →
       let agg_pk := generate_plot_public_key (local_pk response) (get_g1 sk) in
       agg_pk = plot_public_key p →
       AugSchemeMPL_verify agg_pk m0
         (AugSchemeMPL_aggregate [h0; AugSchemeMPL_sign_prepend sk m0 agg_pk]) = true →
       AugSchemeMPL_verify agg_pk m1
         (AugSchemeMPL_aggregate [h1; AugSchemeMPL_sign_prepend sk m1 agg_pk]) = true →
       pool_public_key p = Some pool_pk →
       pool_contract_puzzle_hash p = None →
       pool_sks_map s !! pool_pk = None →
       run (respond_signatures response) s =
         (Returned None, s, [Log ERROR (Dont_have_private_key_for_pool_key pool_pk)]))
  ∧ (∀ (msg : NewProofOfSpace) (peer : WSChiaConnection) pool_pk q (s : Farmer)
       response pool_sk,
       pool_required_iters msg q s < iters_limit s →
       request_signatures_reply peer (pool_signature_request msg s) = Some response →
       length (message_signatures response) = 1%nat →
       (∀ sk, sk ∈ get_private_keys s → get_g1 sk ≠ farmer_pk response) →
       pool_sks_map s !! pool_pk = Some pool_sk →
       process_new_proof_of_space_for_pool msg peer pool_pk q s =
         (Raising AssertionError, s,
          [PeerRequestSignatures (peer_node_id peer) (pool_signature_request msg s)]))
  ∧ (∀ (response : RespondSignatures) (s : Farmer) index is_sp,
       respond_signatures_resolve response s = (Normal (index, is_sp), s, []) →
       proofs_of_space s !! rs_sp_hash response = None →
       run (respond_signatures response) s = (Raised KeyError, s, []))
  ∧ (∀ (response : RespondSignatures) (s : Farmer) index candidates p q m0 h0 m1 h1
       skipped sk later pool_pk,
       respond_signatures_resolve response s = (Normal (index, false), s, []) →
       proofs_of_space s !! rs_sp_hash response = Some candidates →
       pick_pospace (rs_plot_identifier response) candidates = Some p →
       verify_and_get_quality_string p (constants s)
         (rs_challenge_hash response) (rs_sp_hash response) = Some q →
       message_signatures response !! 0%nat = Some (m0, h0) →
       message_signatures response !! 1%nat = Some (m1, h1) →
       get_private_keys s = skipped ++ sk :: later →
       (∀ sk', sk' ∈ skipped ++ later → get_g1 sk' ≠ farmer_pk response) →
       get_g1 sk = farmer_pk response →
       let agg_pk := generate_plot_public_key (local_pk response) (get_g1 sk) in
       let agg0 := AugSchemeMPL_aggregate [h0; AugSchemeMPL_sign_prepend sk m0 agg_pk] in
       let agg1 := AugSchemeMPL_aggregate [h1; AugSchemeMPL_sign_prepend sk m1 agg_pk] in
       agg_pk = plot_public_key p →
       AugSchemeMPL_verify agg_pk m0 agg0 = true →
       AugSchemeMPL_verify agg_pk m1 agg1 = true →
       pool_public_key p = Some pool_pk →
       pool_sks_map s !! pool_pk = None →
       run (respond_signatures response) s =
         (Returned None, s,
          [SendToAll [signed_values (Build_SignedValues q agg0 agg1)] FULL_NODE]))
  ∧ (∀ (msg : NewProofOfSpace) (peer : WSChiaConnection) pool_pk q (s : Farmer)
       response share,
       pool_required_iters msg q s < iters_limit s →
       request_signatures_reply peer (pool_signature_request msg s) = Some response →
       message_signatures response = [share] →
       (∀ sk, sk ∈ get_private_keys s → get_g1 sk = farmer_pk response →
          let m := get_hash (pool_partial_payload msg s) in
          let agg_pk := generate_plot_public_key (local_pk response) (get_g1 sk) in
          agg_pk = plot_public_key (proof msg)
          ∧ AugSchemeMPL_verify agg_pk m
              (AugSchemeMPL_aggregate [AugSchemeMPL_sign_prepend sk m agg_pk; share.2])
            = true) →
       pool_sks_map s !! pool_pk = None →
       process_new_proof_of_space_for_pool msg peer pool_pk q s =
         (Raising KeyError, s,
          [PeerRequestSignatures (peer_node_id peer) (pool_signature_request msg s)])).
Proof.
  split; [|split; [|split; [|split; [|split; [|split]]]]].
  - intros response s index is_sp candidates Hresolve Hrecorded Hpick.
    unfold run. rewrite (respond_signatures_after_resolve _ _ _ _ Hresolve).
    unfold respond_signatures_finish. unfold mbind, M_bind.
    by rewrite respond_signatures_pospace_cases, Hrecorded, Hpick.
  - intros response s index is_sp candidates p q first second
      Hresolve Hrecorded Hpick Hquality Hfirst Hsecond Hnone.
    unfold run. rewrite (respond_signatures_after_resolve _ _ _ _ Hresolve).
    unfold respond_signatures_finish. unfold mbind, M_bind.
    rewrite respond_signatures_pospace_cases, Hrecorded, Hpick, Hquality.
    destruct is_sp.
    + unfold respond_signatures_sp. unfold_M. rewrite Hfirst, Hsecond. cbn.
      rewrite for_each_skip; [done|].
      intros sk Hsk. apply sp_for_key_skip. by apply Hnone.
    + unfold respond_signatures_block. unfold_M. cbn.
      rewrite for_each_skip; [done|].
      intros sk Hsk. apply (block_for_key_skip _ _ _ first second); [done..|].
      by apply Hnone.
  - intros response s index candidates p q m0 h0 m1 h1 skipped sk later pool_pk
      Hresolve Hrecorded Hpick Hquality Hfirst Hsecond Hkeys Hskipped Hpk
      agg_pk Hplot Hv0 Hv1 Hpool Hcontract Hmissing.
    unfold run. rewrite (respond_signatures_after_resolve _ _ _ _ Hresolve).
    unfold respond_signatures_finish. unfold mbind, M_bind.
    rewrite respond_signatures_pospace_cases, Hrecorded, Hpick, Hquality.
    unfold respond_signatures_sp. unfold_M. rewrite Hfirst, Hsecond. cbn.
    rewrite Hkeys, for_each_skip_prefix, for_each_cons.
    2:{ intros sk' Hsk'. apply sp_for_key_skip. by apply Hskipped. }
    unfold respond_signatures_sp_for_key at 1. unfold_M.
    rewrite (bool_decide_eq_true_2 _ Hpk). cbn. fold agg_pk.
    rewrite (bool_decide_eq_true_2 _ Hplot). cbn.
    rewrite Hv0. cbn. rewrite Hv1. cbn. rewrite Hpool. cbn.
    rewrite (bool_decide_eq_true_2 _ Hcontract). cbn.
    by rewrite (dict_in_None _ _ Hmissing).
  - intros msg peer pool_pk q s response pool_sk Hgood Hreply Hone Hnone Hpool.
    unfold process_new_proof_of_space_for_pool, pool_required_iters,
      pool_signature_request, pool_partial_payload in *.
    unfold_M. cbn.
    destruct (iters_limit s <=? _) eqn:Hlimit; [lia|]. cbn.
    rewrite Hreply. cbn. rewrite Hone. cbn.
    rewrite (pool_plot_signature_skip _ _ _ _ _ Hnone). cbn.
    by rewrite Hpool.
  - intros response s index is_sp Hresolve Hnothing.
    unfold run. rewrite (respond_signatures_after_resolve _ _ _ _ Hresolve).
    unfold respond_signatures_finish. unfold mbind, M_bind.
    by rewrite respond_signatures_pospace_cases, Hnothing.
  - intros response s index candidates p q m0 h0 m1 h1 skipped sk later pool_pk
      Hresolve Hrecorded Hpick Hquality Hfirst Hsecond Hkeys Hothers Hpk
      agg_pk agg0 agg1 Hplot Hv0 Hv1 _ _.
    unfold run.
    rewrite (respond_signatures_at _ _ _ _ _ _ _ Hresolve Hrecorded Hpick Hquality).
    unfold respond_signatures_block. unfold_M. cbn.
    rewrite Hkeys, for_each_skip_prefix, for_each_cons.
    2:{ intros sk' Hsk'. apply (block_for_key_skip _ _ _ _ _ _ _ Hfirst Hsecond).
        apply Hothers, elem_of_app. by left. }
    unfold respond_signatures_block_for_key at 1. unfold_M.
    rewrite Hfirst, Hsecond. cbn.
    rewrite (bool_decide_eq_true_2 _ Hpk). cbn. fold agg_pk.
    rewrite (bool_decide_eq_true_2 _ Hplot). cbn. fold agg0 agg1.
    rewrite Hv0. cbn. rewrite Hv1. cbn.
    rewrite for_each_skip; [done|].
    intros sk' Hsk'. apply (block_for_key_skip _ _ _ _ _ _ _ Hfirst Hsecond).
    apply Hothers, elem_of_app. by right.
  - intros msg peer pool_pk q s response share Hgood Hreply Hone Hpass Hmissing.
    cbv zeta in Hpass.
    unfold process_new_proof_of_space_for_pool, pool_required_iters,
      pool_signature_request, pool_partial_payload in *.
    unfold_M. cbn.
    destruct (iters_limit s <=? _) eqn:Hlimit; [lia|]. cbn.
    rewrite Hreply. cbn. rewrite Hone. cbn.
    match goal with
    | |- context [for_each ?keys None (pool_plot_signature_for_key msg response ?m) s] =>
        destruct (pool_plot_signature_passes msg response m share keys s
                    ltac:(by rewrite Hone) Hpass None) as [found ->]
    end.
    cbn. by rewrite Hmissing.
Qed.

(** ** More on registering signage points *)

Lemma set_sps_twice (f g : gmap N (list NewSignagePoint) → gmap N (list NewSignagePoint))
    (s : Farmer) :
  set_sps f (set_sps g s) = set_sps (fun m => f (g m)) s.
Proof. by destruct s. Qed.

(** [new_signage_point], lines 251-276, in closed form. *)
Lemma new_signage_point_cases (sp : NewSignagePoint) (s : Farmer) :
  let key := challenge_chain_sp sp in
  let bucket := default [] (sps s !! key) in
  let sent := SendToAll [new_signage_point_harvester (harvester_signage_point sp s)] HARVESTER in
  run (new_signage_point sp) s =
    if bool_decide (sp ∈ bucket) then
      (Returned None, s,
       [sent; Log DEBUG (Duplicate_signage_point (sp_signage_point_index sp))])
    else
      (Returned None,
       set_cache_add_time <[key := time 275]> (set_sps <[key := bucket ++ [sp]]> s),
       [sent; StateChanged_new_signage_point key]).
Proof.
  cbv zeta. unfold run, new_signage_point, harvester_signage_point. unfold_M.
  destruct (sps s !! challenge_chain_sp sp) as [bucket|] eqn:Hbucket.
  - destruct (is_pooling_enabled s); cbn;
      rewrite (dict_in_Some _ _ _ Hbucket); cbn; rewrite Hbucket; cbn;
      by destruct (bool_decide (sp ∈ bucket)).
  - destruct (is_pooling_enabled s); cbn;
      rewrite (dict_in_None _ _ Hbucket); cbn;
      destruct s; cbn in *; rewrite lookup_insert_eq; cbn;
      rewrite !bool_decide_eq_false_2 by set_solver; cbn;
      by rewrite insert_insert_eq.
Qed.

(** ** What each handler writes *)

Lemma pool_feedback_only_refl (s : Farmer) : pool_feedback_only s s.
Proof. unfold pool_feedback_only. by destruct s. Qed.

Lemma pool_feedback_only_indexes (s s' : Farmer) :
  pool_feedback_only s s' →
  sps s' = sps s
  ∧ proofs_of_space s' = proofs_of_space s
  ∧ quality_str_to_identifiers s' = quality_str_to_identifiers s
  ∧ number_of_responses s' = number_of_responses s
  ∧ cache_add_time s' = cache_add_time s.
Proof. unfold pool_feedback_only. intros ->. by destruct s. Qed.

Lemma submit_to_pool_state (submit_partial : SubmitPartial) (s : Farmer) :
  (submit_to_pool submit_partial s).1.2 = s
  ∨ ∃ d, (submit_to_pool submit_partial s).1.2 = set_pool_difficulty d s.
Proof.
  unfold submit_to_pool. unfold_M. cbn.
  repeat (case_match; simplify_eq/=); eauto.
Qed.

(** The pool path writes nothing but the time of the last submission and
    the operating pool difficulty. *)
Lemma pool_path_frame (msg : NewProofOfSpace) (peer : WSChiaConnection)
    (pool_pk : G1Element) (q : bytes32) (s : Farmer) :
  pool_feedback_only s (process_new_proof_of_space_for_pool msg peer pool_pk q s).1.2.
Proof.
  destruct (Z.lt_ge_cases (pool_required_iters msg q s) (iters_limit s)) as [Hgood|Hbad].
  - destruct (pool_path_shape msg peer pool_pk q s Hgood)
      as [(r & t & -> & _) | (sig & ->)]; [apply pool_feedback_only_refl|].
    pose proof (submit_to_pool_state
                  (Build_SubmitPartial (pool_partial_payload msg s) sig)
                  (set_last_pool_partial_submit_timestamp (time 377) s)) as Hsub.
    destruct (submit_to_pool _ _) as [[r2 s2] t2]. cbn in *.
    unfold pool_feedback_only. destruct Hsub as [-> | [d ->]]; by destruct s.
  - rewrite (pool_path_not_good_enough _ _ _ _ _ Hbad). apply pool_feedback_only_refl.
Qed.

(** [request_signed_values], lines 278-295, in closed form. *)
Lemma request_signed_values_cases (request : RequestSignedValues) (s : Farmer) :
  run (request_signed_values request) s =
    match quality_str_to_identifiers s !! rv_quality_string request with
    | None =>
        (Returned None, s,
         [Log ERROR (Do_not_have_quality_string (rv_quality_string request))])
    | Some (plot_identifier, challenge_hash, sp_hash, node_id) =>
        (Returned None, s,
         [SendToSpecific
            [request_signatures
               {| rq_plot_identifier := plot_identifier;
                  rq_challenge_hash := challenge_hash;
                  rq_sp_hash := sp_hash;
                  messages := [foliage_block_data_hash request;
                               foliage_transaction_block_hash request] |}]
            node_id])
    end.
Proof.
  unfold run, request_signed_values. unfold_M. cbn.
  destruct (quality_str_to_identifiers s !! rv_quality_string request)
    as [[[[plot challenge_hash] sp_hash] node_id]|] eqn:Hq.
  - by rewrite (dict_in_Some _ _ _ Hq).
  - by rewrite (dict_in_None _ _ Hq).
Qed.

(** The state after proof intake: the admitted state, the counted state or
    the state with the proof recorded, and on top of it what the pool path
    wrote. *)
Lemma new_proof_of_space_state (msg : NewProofOfSpace) (peer : WSChiaConnection)
    (s : Farmer) :
  ∃ s0,
    pool_feedback_only s0 (state_of (run (new_proof_of_space msg peer) s))
    ∧ (s0 = admitted msg s
       ∨ (responses_so_far msg s <= 5 ∧ is_Some (sps s !! pos_sp_hash msg)
          ∧ (s0 = counted msg s
             ∨ ∃ q, quality_of msg s = Some q ∧ s0 = recorded msg peer q (counted msg s)))).
Proof.
  rewrite new_proof_of_space_cases. unfold intake_on_first_sp.
  destruct (5 <? responses_so_far msg s) eqn:Hcap.
  { exists (admitted msg s). split; [apply pool_feedback_only_refl|by left]. }
  apply Z.ltb_ge in Hcap.
  destruct (sps s !! pos_sp_hash msg) as [[|sp rest]|];
    [exists (admitted msg s); split; [apply pool_feedback_only_refl|by left]|
    |exists (admitted msg s); split; [apply pool_feedback_only_refl|by left]].
  destruct (quality_of msg s) as [q|];
    [|exists (admitted msg s); split; [apply pool_feedback_only_refl|by left]].
  destruct (block_eligible msg q sp s).
  { exists (recorded msg peer q (counted msg s)).
    split; [apply pool_feedback_only_refl|]. right. repeat split; eauto. }
  exists (counted msg s).
  split; [|right; repeat split; eauto].
  destruct (pool_public_key (proof msg)) as [pool_pk|]; [|apply pool_feedback_only_refl].
  destruct (is_pooling_enabled (counted msg s)); [|apply pool_feedback_only_refl].
  pose proof (pool_path_frame msg peer pool_pk q (counted msg s)) as Hframe.
  by destruct (process_new_proof_of_space_for_pool _ _ _ _ _) as [[r s'] t].
Qed.

(** ** Invariants *)

Lemma admitted_indexes (msg : NewProofOfSpace) (s : Farmer) :
  sps (admitted msg s) = sps s
  ∧ proofs_of_space (admitted msg s) = proofs_of_space s
  ∧ quality_str_to_identifiers (admitted msg s) = quality_str_to_identifiers s
  ∧ number_of_responses (admitted msg s) =
      <[pos_sp_hash msg := responses_so_far msg s]> (number_of_responses s)
  ∧ (cache_add_time (admitted msg s) = cache_add_time s
     ∧ is_Some (number_of_responses s !! pos_sp_hash msg)
     ∨ cache_add_time (admitted msg s) = <[pos_sp_hash msg := time 40]> (cache_add_time s)).
Proof.
  unfold admitted, responses_so_far.
  destruct (number_of_responses s !! pos_sp_hash msg) as [count|] eqn:Hcount; cbn.
  - repeat split; [|by left]. by rewrite insert_id.
  - destruct s; cbn in *. repeat split. by right.
Qed.

Lemma counted_indexes (msg : NewProofOfSpace) (s : Farmer) :
  sps (counted msg s) = sps s
  ∧ proofs_of_space (counted msg s) = proofs_of_space s
  ∧ quality_str_to_identifiers (counted msg s) = quality_str_to_identifiers s
  ∧ number_of_responses (counted msg s) =
      <[pos_sp_hash msg := responses_so_far msg s + 1]> (number_of_responses s)
  ∧ cache_add_time (counted msg s) = cache_add_time (admitted msg s).
Proof.
  destruct (admitted_indexes msg s) as (Hsps & Hproofs & Hquality & Hcounters & _).
  unfold counted. destruct (admitted msg s); cbn in *.
  repeat split; try done. rewrite Hcounters. apply insert_insert_eq.
Qed.

Lemma recorded_indexes (msg : NewProofOfSpace) (peer : WSChiaConnection) (q : bytes32)
    (s : Farmer) :
  sps (recorded msg peer q s) = sps s
  ∧ proofs_of_space (recorded msg peer q s) =
      <[pos_sp_hash msg :=
          default [] (proofs_of_space s !! pos_sp_hash msg)
          ++ [(pos_plot_identifier msg, proof msg)]]> (proofs_of_space s)
  ∧ quality_str_to_identifiers (recorded msg peer q s) =
      <[q := (pos_plot_identifier msg, pos_challenge_hash msg, pos_sp_hash msg,
              peer_node_id peer)]> (quality_str_to_identifiers s)
  ∧ number_of_responses (recorded msg peer q s) = number_of_responses s
  ∧ cache_add_time (recorded msg peer q s) =
      <[q := time 109]> (<[pos_sp_hash msg := time 102]> (cache_add_time s)).
Proof. unfold recorded. by destruct s. Qed.

Lemma new_proof_of_space_sps (msg : NewProofOfSpace) (peer : WSChiaConnection) (s : Farmer) :
  sps (state_of (run (new_proof_of_space msg peer) s)) = sps s.
Proof.
  destruct (new_proof_of_space_state msg peer s) as (s0 & Hframe & Hs0).
  destruct (pool_feedback_only_indexes _ _ Hframe) as (-> & _).
  destruct (admitted_indexes msg s) as (Hadm & _).
  destruct (counted_indexes msg s) as (Hcnt & _).
  destruct Hs0 as [-> | (_ & _ & [-> | (q & _ & ->)])]; try done.
  destruct (recorded_indexes msg peer q (counted msg s)) as (-> & _). done.
Qed.

Lemma respond_signatures_state (response : RespondSignatures) (s : Farmer) :
  state_of (run (respond_signatures response) s) = s.
Proof.
  destruct (run_trace (respond_signatures response) s) as [_ ->].
  apply respond_signatures_sound.
Qed.

Lemma request_signed_values_state (request : RequestSignedValues) (s : Farmer) :
  state_of (run (request_signed_values request) s) = s.
Proof.
  rewrite request_signed_values_cases.
  by destruct (quality_str_to_identifiers s !! rv_quality_string request)
    as [[[[plot challenge_hash] sp_hash] node_id]|].
Qed.

Lemma new_signage_point_indexes (sp : NewSignagePoint) (s : Farmer) :
  let s' := state_of (run (new_signage_point sp) s) in
  proofs_of_space s' = proofs_of_space s
  ∧ quality_str_to_identifiers s' = quality_str_to_identifiers s
  ∧ number_of_responses s' = number_of_responses s
  ∧ (s' = s
     ∨ (sp ∉ default [] (sps s !! challenge_chain_sp sp))
       ∧ sps s' = <[challenge_chain_sp sp :=
                     default [] (sps s !! challenge_chain_sp sp) ++ [sp]]> (sps s)
       ∧ cache_add_time s' = <[challenge_chain_sp sp := time 275]> (cache_add_time s)).
Proof.
  cbv zeta. pose proof (new_signage_point_cases sp s) as Hcases. cbv zeta in Hcases.
  rewrite Hcases.
  destruct (decide (sp ∈ default [] (sps s !! challenge_chain_sp sp))) as [Hin|Hnew].
  - rewrite (bool_decide_eq_true_2 _ Hin). cbn. repeat split. by left.
  - rewrite (bool_decide_eq_false_2 _ Hnew). unfold state_of. cbn.
    destruct s; cbn in *. repeat split. by right.
Qed.

Lemma registry_wf_step (inbound : Inbound) (s : Farmer) :
  registry_wf s → registry_wf (state_of (run (handle inbound) s)).
Proof.
  intros Hwf. destruct inbound as [msg peer|response|sp|request]; cbn [handle].
  - unfold registry_wf. by rewrite new_proof_of_space_sps.
  - by rewrite respond_signatures_state.
  - destruct (new_signage_point_indexes sp s) as (_ & _ & _ & [-> | (Hnew & Hsps & _)]);
      [done|].
    intros key bucket. rewrite Hsps.
    destruct (decide (challenge_chain_sp sp = key)) as [<-|Hne].
    + rewrite lookup_insert_eq. intros [= <-].
      split; [by destruct (default [] _)|].
      destruct (sps s !! challenge_chain_sp sp) as [old|] eqn:Hold; cbn in *.
      * destruct (Hwf _ _ Hold) as (_ & Hnodup & Hkeys). split.
        -- apply NoDup_app. repeat split; [done| |apply NoDup_singleton].
           intros x Hx Hsp. apply list_elem_of_singleton in Hsp as ->. done.
        -- intros x Hx. apply elem_of_app in Hx as [Hx|Hx]; [by apply Hkeys|].
           by apply list_elem_of_singleton in Hx as ->.
      * split; [apply NoDup_singleton|].
        intros x Hx. by apply list_elem_of_singleton in Hx as ->.
    + rewrite lookup_insert_ne by done. apply Hwf.
  - by rewrite request_signed_values_state.
Qed.

Lemma new_proof_of_space_indexes (msg : NewProofOfSpace) (peer : WSChiaConnection)
    (s : Farmer) :
  let s' := state_of (run (new_proof_of_space msg peer) s) in
  ∃ s0,
    (proofs_of_space s' = proofs_of_space s0
     ∧ quality_str_to_identifiers s' = quality_str_to_identifiers s0
     ∧ number_of_responses s' = number_of_responses s0
     ∧ cache_add_time s' = cache_add_time s0)
    ∧ (s0 = admitted msg s
       ∨ (responses_so_far msg s <= 5
          ∧ (s0 = counted msg s
             ∨ ∃ q, s0 = recorded msg peer q (counted msg s)))).
Proof.
  cbv zeta. destruct (new_proof_of_space_state msg peer s) as (s0 & Hframe & Hs0).
  destruct (pool_feedback_only_indexes _ _ Hframe) as (_ & -> & -> & -> & ->).
  exists s0. split; [done|].
  destruct Hs0 as [-> | (Hcap & _ & [-> | (q & _ & ->)])]; eauto.
Qed.

Lemma stamped_admitted (msg : NewProofOfSpace) (s : Farmer) :
  stamped s → stamped (admitted msg s).
Proof.
  intros Hst key. destruct (admitted_indexes msg s) as (-> & -> & -> & -> & Hcache).
  destruct (decide (pos_sp_hash msg = key)) as [<-|Hne].
  - intros _. destruct Hcache as [[-> Hcount] | ->].
    + apply Hst. auto.
    + rewrite lookup_insert_eq. eauto.
  - rewrite lookup_insert_ne by done. intros Hkey.
    destruct Hcache as [[-> _] | ->]; [|rewrite lookup_insert_ne by done]; by apply Hst.
Qed.

Lemma stamped_counted (msg : NewProofOfSpace) (s : Farmer) :
  stamped s → stamped (counted msg s).
Proof.
  intros Hst key. pose proof (stamped_admitted msg s Hst key) as Hadm.
  destruct (admitted_indexes msg s) as (Hsps & Hproofs & Hquality & Hcounters & _).
  destruct (counted_indexes msg s) as (-> & -> & -> & -> & ->).
  rewrite Hsps, Hproofs, Hquality, Hcounters in Hadm.
  destruct (decide (pos_sp_hash msg = key)) as [<-|Hne].
  - intros _. apply Hadm. right. left. rewrite lookup_insert_eq. eauto.
  - rewrite lookup_insert_ne by done. rewrite lookup_insert_ne in Hadm by done. done.
Qed.

Lemma stamped_recorded (msg : NewProofOfSpace) (peer : WSChiaConnection) (q : bytes32)
    (s : Farmer) :
  stamped s → stamped (recorded msg peer q s).
Proof.
  intros Hst key. destruct (recorded_indexes msg peer q s) as (-> & -> & -> & -> & ->).
  destruct (decide (q = key)) as [<-|Hq].
  { intros _. rewrite lookup_insert_eq. eauto. }
  rewrite !(lookup_insert_ne _ q key) by done.
  destruct (decide (pos_sp_hash msg = key)) as [<-|Hne].
  { intros _. rewrite lookup_insert_eq. eauto. }
  rewrite !lookup_insert_ne by done. apply Hst.
Qed.

Lemma stamped_step (inbound : Inbound) (s : Farmer) :
  stamped s → stamped (state_of (run (handle inbound) s)).
Proof.
  intros Hst. destruct inbound as [msg peer|response|sp|request]; cbn [handle].
  - destruct (new_proof_of_space_indexes msg peer s)
      as (s0 & (Hproofs & Hquality & Hcounters & Hcache) & Hs0).
    assert (stamped s0) as Hst0.
    { destruct Hs0 as [-> | (_ & [-> | (q & ->)])].
      - by apply stamped_admitted.
      - by apply stamped_counted.
      - by apply stamped_recorded, stamped_counted. }
    intros key. rewrite new_proof_of_space_sps, Hproofs, Hquality, Hcounters, Hcache.
    intros Hkey. apply Hst0.
    destruct Hs0 as [-> | (_ & [-> | (q & ->)])].
    + destruct (admitted_indexes msg s) as (-> & _). done.
    + destruct (counted_indexes msg s) as (-> & _). done.
    + destruct (recorded_indexes msg peer q (counted msg s)) as (-> & _).
      destruct (counted_indexes msg s) as (-> & _). done.
  - by rewrite respond_signatures_state.
  - destruct (new_signage_point_indexes sp s)
      as (Hproofs & Hquality & Hcounters & [Hsame | (_ & Hsps & Hcache)]).
    { by rewrite Hsame. }
    intros key. rewrite Hproofs, Hquality, Hcounters, Hsps, Hcache.
    destruct (decide (challenge_chain_sp sp = key)) as [<-|Hne].
    { intros _. rewrite lookup_insert_eq. eauto. }
    rewrite !lookup_insert_ne by done. apply Hst.
  - by rewrite request_signed_values_state.
Qed.

Lemma responses_so_far_bounds (msg : NewProofOfSpace) (s : Farmer) :
  responses_bounded s →
  0 <= responses_so_far msg s <= 6
  ∧ Z.of_nat (length (default [] (proofs_of_space s !! pos_sp_hash msg)))
    <= responses_so_far msg s.
Proof.
  intros [Hcount Hrecorded]. unfold responses_so_far.
  destruct (proofs_of_space s !! pos_sp_hash msg) as [recorded|] eqn:Hrec; cbn.
  - destruct (Hrecorded _ _ Hrec) as (count & Hc & Hlen). rewrite Hc. cbn.
    split; [by eapply Hcount|done].
  - destruct (number_of_responses s !! pos_sp_hash msg) as [count|] eqn:Hc; cbn; [|lia].
    pose proof (Hcount _ _ Hc). lia.
Qed.

Lemma responses_bounded_insert (s s' : Farmer) (key : bytes32) (count : Z) :
  responses_bounded s →
  proofs_of_space s' = proofs_of_space s →
  number_of_responses s' = <[key := count]> (number_of_responses s) →
  0 <= count <= 6 →
  Z.of_nat (length (default [] (proofs_of_space s !! key))) <= count →
  responses_bounded s'.
Proof.
  intros [Hcount Hrecorded] Hproofs Hcounters Hbounds Hlen.
  split; rewrite ?Hproofs, Hcounters.
  - intros k c. destruct (decide (key = k)) as [<-|Hne].
    + rewrite lookup_insert_eq. by intros [= <-].
    + rewrite lookup_insert_ne by done. apply Hcount.
  - intros k recorded Hrec. destruct (decide (key = k)) as [<-|Hne].
    + rewrite lookup_insert_eq. exists count. split; [done|]. by rewrite Hrec in Hlen.
    + rewrite lookup_insert_ne by done. by apply Hrecorded.
Qed.

Lemma responses_bounded_admitted (msg : NewProofOfSpace) (s : Farmer) :
  responses_bounded s → responses_bounded (admitted msg s).
Proof.
  intros Hb. destruct (admitted_indexes msg s) as (_ & Hproofs & _ & Hcounters & _).
  destruct (responses_so_far_bounds msg s Hb) as [Hbounds Hlen].
  by eapply responses_bounded_insert.
Qed.

Lemma responses_bounded_counted (msg : NewProofOfSpace) (s : Farmer) :
  responses_bounded s → responses_so_far msg s <= 5 → responses_bounded (counted msg s).
Proof.
  intros Hb Hcap. destruct (counted_indexes msg s) as (_ & Hproofs & _ & Hcounters & _).
  destruct (responses_so_far_bounds msg s Hb) as [Hbounds Hlen].
  eapply responses_bounded_insert; [done..|lia|lia].
Qed.

Lemma responses_bounded_recorded (msg : NewProofOfSpace) (peer : WSChiaConnection)
    (q : bytes32) (s : Farmer) :
  responses_bounded s → responses_so_far msg s <= 5 →
  responses_bounded (recorded msg peer q (counted msg s)).
Proof.
  intros Hb Hcap.
  destruct (responses_so_far_bounds msg s Hb) as [Hbounds Hlen].
  destruct (responses_bounded_counted msg s Hb Hcap) as [Hcount Hrecorded].
  destruct (recorded_indexes msg peer q (counted msg s)) as (_ & Hproofs & _ & Hcounters & _).
  destruct (counted_indexes msg s) as (_ & Hproofs' & _ & Hcounters' & _).
  split; rewrite ?Hproofs, Hcounters.
  - exact Hcount.
  - intros k recorded'. destruct (decide (pos_sp_hash msg = k)) as [<-|Hne].
    + rewrite lookup_insert_eq. intros [= <-].
      exists (responses_so_far msg s + 1). rewrite Hcounters', lookup_insert_eq.
      split; [done|]. rewrite Hproofs', length_app. cbn. lia.
    + rewrite lookup_insert_ne by done. apply Hrecorded.
Qed.

Lemma responses_bounded_step (inbound : Inbound) (s : Farmer) :
  responses_bounded s → responses_bounded (state_of (run (handle inbound) s)).
Proof.
  intros Hb. destruct inbound as [msg peer|response|sp|request]; cbn [handle].
  - destruct (new_proof_of_space_indexes msg peer s)
      as (s0 & (Hproofs & _ & Hcounters & _) & Hs0).
    assert (responses_bounded s0) as [Hcount Hrecorded].
    { destruct Hs0 as [-> | (Hcap & [-> | (q & ->)])].
      - by apply responses_bounded_admitted.
      - by apply responses_bounded_counted.
      - by apply responses_bounded_recorded. }
    split; rewrite ?Hproofs, Hcounters; done.
  - by rewrite respond_signatures_state.
  - destruct (new_signage_point_indexes sp s) as (Hproofs & _ & Hcounters & _).
    destruct Hb as [Hcount Hrecorded]. split; rewrite ?Hproofs, Hcounters; done.
  - by rewrite request_signed_values_state.
Qed.

Lemma quality_backed_recorded (msg : NewProofOfSpace) (peer : WSChiaConnection)
    (q : bytes32) (s : Farmer) :
  quality_backed s → quality_backed (recorded msg peer q s).
Proof.
  intros Hq quality plot challenge_hash key node_id.
  destruct (recorded_indexes msg peer q s) as (_ & -> & -> & _).
  assert (∀ recorded p,
            proofs_of_space s !! key = Some recorded → (plot, p) ∈ recorded →
            ∃ recorded' p',
              <[pos_sp_hash msg :=
                  default [] (proofs_of_space s !! pos_sp_hash msg)
                  ++ [(pos_plot_identifier msg, proof msg)]]> (proofs_of_space s) !! key
                = Some recorded'
              ∧ (plot, p') ∈ recorded') as Hkeep.
  { intros recorded p Hrec Hin. destruct (decide (pos_sp_hash msg = key)) as [<-|Hne].
    - rewrite lookup_insert_eq, Hrec. cbn. do 2 eexists. split; [done|].
      apply elem_of_app. left. exact Hin.
    - rewrite lookup_insert_ne by done. eauto. }
  destruct (decide (q = quality)) as [<-|Hne].
  - rewrite lookup_insert_eq. intros [= <- <- <- <-].
    rewrite lookup_insert_eq. do 2 eexists. split; [done|].
    apply elem_of_app. right. by apply list_elem_of_singleton.
  - rewrite lookup_insert_ne by done. intros Hentry.
    destruct (Hq _ _ _ _ _ Hentry) as (recorded & p & Hrec & Hin). eauto.
Qed.

Lemma quality_backed_same (s s' : Farmer) :
  quality_backed s →
  proofs_of_space s' = proofs_of_space s →
  quality_str_to_identifiers s' = quality_str_to_identifiers s →
  quality_backed s'.
Proof. unfold quality_backed. by intros Hq -> ->. Qed.

Lemma quality_backed_step (inbound : Inbound) (s : Farmer) :
  quality_backed s → quality_backed (state_of (run (handle inbound) s)).
Proof.
  intros Hq. destruct inbound as [msg peer|response|sp|request]; cbn [handle].
  - destruct (new_proof_of_space_indexes msg peer s)
      as (s0 & (Hproofs & Hquality & _) & Hs0).
    apply (quality_backed_same s0); [|done..].
    destruct (admitted_indexes msg s) as (_ & Hp1 & Hq1 & _).
    destruct (counted_indexes msg s) as (_ & Hp2 & Hq2 & _).
    destruct Hs0 as [-> | (_ & [-> | (q & ->)])].
    + by apply (quality_backed_same s).
    + by apply (quality_backed_same s).
    + apply quality_backed_recorded. by apply (quality_backed_same s).
  - by rewrite respond_signatures_state.
  - destruct (new_signage_point_indexes sp s) as (Hproofs & Hquality & _).
    by apply (quality_backed_same s).
  - by rewrite request_signed_values_state.
Qed.

Lemma handle_all_invariant (P : Farmer → Prop) :
  (∀ inbound s, P s → P (state_of (run (handle inbound) s))) →
  ∀ inbound s, P s → P (handle_all inbound s).
Proof.
  intros Hstep inbound. unfold handle_all.
  induction inbound as [|i inbound IH]; intros s Hs; [done|].
  cbn. apply IH. by apply Hstep.
Qed.

(** X1: whatever messages the farmer handles, in whatever order, every
    bucket of the signage point registry stays non-empty, free of
    duplicates, and filed under the [challenge_chain_sp] of its entries. *)
Theorem registry_stays_well_formed (inbound : list Inbound) (s : Farmer) :
  registry_wf s → registry_wf (handle_all inbound s).
Proof. apply handle_all_invariant. apply registry_wf_step. Qed.

(** X2: whatever messages the farmer handles, every key of the registry,
    of the response counters, of the recorded proofs and of the quality
    index keeps a time in [cache_add_time]. *)
Theorem every_key_stays_stamped (inbound : list Inbound) (s : Farmer) :
  stamped s → stamped (handle_all inbound s).
Proof. apply handle_all_invariant. apply stamped_step. Qed.

(** X3: whatever messages the farmer handles, no response counter leaves
    the range 0..6 and no key has more proofs recorded than its counter
    says; so no key ever has more than six proofs recorded. *)
Theorem responses_stay_bounded (inbound : list Inbound) (s : Farmer) :
  responses_bounded s →
  responses_bounded (handle_all inbound s)
  ∧ ∀ key recorded,
      proofs_of_space (handle_all inbound s) !! key = Some recorded →
      (length recorded <= 6)%nat.
Proof.
  intros Hb.
  assert (responses_bounded (handle_all inbound s)) as Hafter.
  { revert inbound s Hb. apply handle_all_invariant. apply responses_bounded_step. }
  split; [exact Hafter|].
  intros key recorded Hrec. destruct Hafter as [Hcount Hrecorded].
  destruct (Hrecorded _ _ Hrec) as (count & Hc & Hlen).
  pose proof (Hcount _ _ Hc). lia.
Qed.

(** X4: whatever messages the farmer handles, every entry of the quality
    index keeps naming a plot of which a proof is recorded under the
    entry's signage point key. *)
Theorem quality_index_stays_backed (inbound : list Inbound) (s : Farmer) :
  quality_backed s → quality_backed (handle_all inbound s).
Proof. apply handle_all_invariant. apply quality_backed_step. Qed.

(** X5: a signage point that is not yet in the bucket of its key is put at
    the end of that bucket, after the entries that were there; the key's
    time is stamped; the other buckets and times, the recorded proofs, the
    quality index and the response counters are as before; and the new
    signage point is reported to the state-changed callback. *)
Theorem new_signage_point_appends (sp : NewSignagePoint) (s : Farmer) :
  let key := challenge_chain_sp sp in
  let bucket := default [] (sps s !! key) in
  let after := state_of (run (new_signage_point sp) s) in
  sp ∉ bucket →
  sps after !! key = Some (bucket ++ [sp])
  ∧ cache_add_time after !! key = Some (time 275)
  ∧ (∀ other, other ≠ key →
       sps after !! other = sps s !! other
       ∧ cache_add_time after !! other = cache_add_time s !! other)
  ∧ proofs_of_space after = proofs_of_space s
  ∧ quality_str_to_identifiers after = quality_str_to_identifiers s
  ∧ number_of_responses after = number_of_responses s
  ∧ In (StateChanged_new_signage_point key) (trace_of (run (new_signage_point sp) s)).
Proof.
  cbv zeta. intros Hnew.
  pose proof (new_signage_point_cases sp s) as Hcases. cbv zeta in Hcases.
  rewrite Hcases, (bool_decide_eq_false_2 _ Hnew). unfold state_of, trace_of.
  destruct s; cbn. rewrite !lookup_insert_eq. repeat split; try done.
  - by rewrite lookup_insert_ne.
  - by rewrite lookup_insert_ne.
  - auto.
Qed.

(** X6: when the difficulty and the sub-slot iterations that go into the
    message for the harvesters fit in 64 bits, so that the constructor of
    line 258 takes them, [new_signage_point] raises nothing and returns
    nothing.  Before it looks at the registry it sends one
    [NewSignagePointHarvester] to the harvesters, also for a signage point
    it has already: the signage point's hashes and index, with the pool's
    difficulty and sub-slot iterations while pooling is enabled and the
    signage point's own otherwise.  Nothing else is sent. *)
Theorem new_signage_point_forwards (sp : NewSignagePoint) (s : Farmer) :
  fits_uint64 (if is_pooling_enabled s then pool_difficulty s else difficulty sp) →
  fits_uint64 (if is_pooling_enabled s then pool_sub_slot_iters s else sub_slot_iters sp) →
  outcome_of (run (new_signage_point sp) s) = Returned None
  ∧ ∃ message report,
      trace_of (run (new_signage_point sp) s) =
        [SendToAll [new_signage_point_harvester message] HARVESTER; report]
      ∧ (report = Log DEBUG (Duplicate_signage_point (sp_signage_point_index sp))
         ∨ report = StateChanged_new_signage_point (challenge_chain_sp sp))
      ∧ nsh_challenge_hash message = sp_challenge_hash sp
      ∧ nsh_sp_hash message = challenge_chain_sp sp
      ∧ nsh_signage_point_index message = sp_signage_point_index sp
      ∧ (nsh_difficulty message, nsh_sub_slot_iters message) =
          if is_pooling_enabled s
          then (pool_difficulty s, pool_sub_slot_iters s)
          else (difficulty sp, sub_slot_iters sp).
Proof.
  intros _ _.
  pose proof (new_signage_point_cases sp s) as Hcases. cbv zeta in Hcases.
  rewrite Hcases.
  destruct (bool_decide (sp ∈ default [] (sps s !! challenge_chain_sp sp)));
    (split; [done|]); do 2 eexists; (split; [reflexivity|]);
    (split; [auto|]); unfold harvester_signage_point; cbn;
    by destruct (is_pooling_enabled s).
Qed.

(** ** More on proof intake *)

(** X7: a proof that does not verify, for a registered key that is not
    capped, is answered by an error log record and no reply; it is not
    counted against the key's cap, and nothing is recorded for it. *)
Theorem invalid_proof_is_not_counted (msg : NewProofOfSpace) (peer : WSChiaConnection)
    (s : Farmer) (sp : NewSignagePoint) (rest : list NewSignagePoint) :
  sps s !! pos_sp_hash msg = Some (sp :: rest) →
  responses_so_far msg s <= 5 →
  quality_of msg s = None →
  let after := state_of (run (new_proof_of_space msg peer) s) in
  run (new_proof_of_space msg peer) s =
    (Returned None, admitted msg s, [Log ERROR (Invalid_proof_of_space (proof msg))])
  ∧ responses_so_far msg after = responses_so_far msg s
  ∧ proofs_of_space after = proofs_of_space s
  ∧ quality_str_to_identifiers after = quality_str_to_identifiers s.
Proof.
  intros Hsp Hcap Hquality. cbv zeta.
  rewrite new_proof_of_space_cases. unfold intake_on_first_sp.
  rewrite Hsp, Hquality. destruct (5 <? responses_so_far msg s) eqn:Hlt; [lia|].
  unfold state_of. cbn.
  destruct (admitted_indexes msg s) as (_ & -> & -> & _).
  by rewrite responses_so_far_admitted.
Qed.




(** X11: [request_signed_values] never raises, returns nothing, writes
    nothing to the farmer state, and its one effect is a log record or one
    message to one peer: it never broadcasts. *)
Theorem request_signed_values_is_read_only (request : RequestSignedValues) (s : Farmer) :
  outcome_of (run (request_signed_values request) s) = Returned None
  ∧ state_of (run (request_signed_values request) s) = s
  ∧ ∃ e, trace_of (run (request_signed_values request) s) = [e]
         ∧ match e with
           | Log ERROR _ => quality_str_to_identifiers s !! rv_quality_string request = None
           | SendToSpecific [request_signatures rq] node_id =>
               ∃ plot challenge_hash,
                 quality_str_to_identifiers s !! rv_quality_string request =
                   Some (plot, challenge_hash, rq_sp_hash rq, node_id)
           | _ => False
           end.
Proof.
  rewrite request_signed_values_cases.
  destruct (quality_str_to_identifiers s !! rv_quality_string request)
    as [[[[plot challenge_hash] sp_hash] node_id]|]; (split; [done|]); (split; [done|]);
    eexists; (split; [reflexivity|]); cbn; eauto.
Qed.

(** X12: [new_proof_of_space] raises nothing of its own as long as it does
    not ask the harvester for the signature of a partial.  When the key's
    counter is over the cap, or the key is not registered, or the proof
    does not verify; or when the call of line 79 returns (the sub-slot
    iterations of the first signage point are a multiple of
    [NUM_SPS_SUB_SLOT]) and its comparison finds the proof good enough for
    a block, or finds it not good enough while the proof has no pool public
    key, or pooling is off, or the comparison of line 329 finds the proof
    not good enough for the pool: the handler returns, and it has at most
    logged. *)
Theorem intake_returns_outside_pool_path (msg : NewProofOfSpace)
    (peer : WSChiaConnection) (s : Farmer) :
  5 < responses_so_far msg s
  ∨ sps s !! pos_sp_hash msg = None
  ∨ sps s !! pos_sp_hash msg = Some []
  ∨ (∃ sp rest,
       sps s !! pos_sp_hash msg = Some (sp :: rest)
       ∧ (quality_of msg s = None
          ∨ ∃ q,
              quality_of msg s = Some q
              ∧ sp_interval_iters_returns (constants s) (sub_slot_iters sp)
              ∧ (block_eligible msg q sp s = true
                 ∨ (block_eligible msg q sp s = false
                    ∧ (pool_public_key (proof msg) = None
                       ∨ is_pooling_enabled (counted msg s) = false
                       ∨ iters_limit (counted msg s)
                         <= pool_required_iters msg q (counted msg s)))))) →
  (∃ reply, outcome_of (run (new_proof_of_space msg peer) s) = Returned reply)
  ∧ Forall is_log (trace_of (run (new_proof_of_space msg peer) s)).
Proof.
  intros Hout. rewrite new_proof_of_space_cases. unfold intake_on_first_sp.
  destruct (5 <? responses_so_far msg s) eqn:Hcap.
  { split; [by eexists|]. by repeat constructor. }
  destruct Hout as [Hover | [-> | [-> | (sp & rest & -> & Hpath)]]].
  - lia.
  - split; [by eexists|]. by repeat constructor.
  - split; [by eexists|]. constructor.
  - destruct Hpath as [-> | (q & -> & _ & Hpath)].
    { split; [by eexists|]. by repeat constructor. }
    destruct Hpath as [-> | (-> & Hpool)].
    { split; [by eexists|]. constructor. }
    destruct (pool_public_key (proof msg)) as [pool_pk|];
      [|split; [by eexists|constructor]].
    destruct (is_pooling_enabled (counted msg s));
      [|split; [by eexists|constructor]].
    destruct Hpool as [? | [? | Hbad]]; [done..|].
    rewrite (pool_path_not_good_enough _ _ _ _ _ Hbad).
    split; [by eexists|]. by repeat constructor.
Qed.

(** ** More on the pool path *)

(** The last matching private key decides the plot signature of a partial:
    when the loop of lines 361-368 ends with a signature, that signature
    was made with a local key that has the answer's farmer public key, for
    the plot public key of the proof, and it verified. *)
Lemma pool_plot_signature_loop (msg : NewProofOfSpace) (response : RespondSignatures)
    (m : bytes32) (keys : list PrivateKey) (s : Farmer) :
  ∀ found sig,
    for_each keys found (pool_plot_signature_for_key msg response m) s =
      (Normal (Some sig), s, []) →
    found = Some sig
    ∨ ∃ sk share,
        sk ∈ keys
        ∧ get_g1 sk = farmer_pk response
        ∧ message_signatures response !! 0%nat = Some share
        ∧ let agg_pk := generate_plot_public_key (local_pk response) (get_g1 sk) in
          agg_pk = plot_public_key (proof msg)
          ∧ sig = AugSchemeMPL_aggregate [AugSchemeMPL_sign_prepend sk m agg_pk; share.2]
          ∧ AugSchemeMPL_verify agg_pk m sig = true.
Proof.
  induction keys as [|sk keys IH]; intros found sig.
  { rewrite for_each_nil. intros [= ->]. by left. }
  rewrite for_each_cons. unfold pool_plot_signature_for_key at 1. unfold_M.
  destruct (bool_decide (get_g1 sk = farmer_pk response)) eqn:Hpk.
  - apply bool_decide_eq_true in Hpk.
    destruct (bool_decide (_ = plot_public_key (proof msg))) eqn:Hplot; [|done].
    apply bool_decide_eq_true in Hplot. cbn.
    destruct (message_signatures response !! 0%nat) as [share|] eqn:Hshare; [|done].
    cbn. destruct (AugSchemeMPL_verify _ _ _) eqn:Hverify; [|done]. cbn.
    destruct (for_each keys _ _ s) as [[r s2] t2] eqn:Hrest.
    intros [= -> -> ->].
    destruct (IH _ _ Hrest) as [[= <-] | (sk' & share' & Hin & Hrest')].
    + right. exists sk, share. repeat split; try done. constructor.
    + right. exists sk', share'. split; [by constructor|done].
  - cbn. destruct (for_each keys found _ s) as [[r s2] t2] eqn:Hrest.
    intros [= -> -> ->].
    destruct (IH _ _ Hrest) as [-> | (sk' & share' & Hin & Hrest')]; [by left|].
    right. exists sk', share'. split; [by constructor|done].
Qed.

(** X13: in the pool path, for a proof that is good enough for the pool:
    an answer of the harvester that is no [RespondSignatures] is logged as
    an error and ends the path, and an answer that does not carry exactly
    one signature fails the assertion of line 358; either way nothing is
    submitted to the pool and the farmer state is not written. *)
Theorem pool_path_rejects_bad_answer (msg : NewProofOfSpace) (peer : WSChiaConnection)
    (pool_pk : G1Element) (q : bytes32) (s : Farmer) :
  pool_required_iters msg q s < iters_limit s →
  let asked := PeerRequestSignatures (peer_node_id peer) (pool_signature_request msg s) in
  (request_signatures_reply peer (pool_signature_request msg s) = None →
     process_new_proof_of_space_for_pool msg peer pool_pk q s =
       (Returning None, s, [asked; Log ERROR Invalid_response_from_harvester]))
  ∧ (∀ response,
       request_signatures_reply peer (pool_signature_request msg s) = Some response →
       length (message_signatures response) ≠ 1%nat →
       process_new_proof_of_space_for_pool msg peer pool_pk q s =
         (Raising AssertionError, s, [asked])).
Proof.
  intros Hgood. cbv zeta.
  unfold process_new_proof_of_space_for_pool, pool_required_iters,
    pool_signature_request, pool_partial_payload in *.
  unfold_M. cbn.
  destruct (iters_limit s <=? _) eqn:Hlimit; [lia|]. cbn. split.
  - by intros ->.
  - intros response -> Hcount. cbn.
    by rewrite (proj2 (Nat.eqb_neq _ _) Hcount).
Qed.

(** X14: no partial reaches the pool unsigned or unverified.  Every
    partial the pool path submits carries the aggregate of the pool
    authentication signature (made with the private key of the proof's pool
    public key) and a plot signature; the plot signature is the aggregate
    of the farmer's share and the harvester's one signature, it was made
    with a local private key that has the answer's farmer public key, the
    plot public key put together from the answer is the one of the proof,
    and the plot signature verified against it. *)
Theorem submitted_partial_is_verified (msg : NewProofOfSpace) (peer : WSChiaConnection)
    (pool_pk : G1Element) (q : bytes32) (s : Farmer) (submit_partial : SubmitPartial) :
  In (PoolSubmitPartial submit_partial)
     (process_new_proof_of_space_for_pool msg peer pool_pk q s).2 →
  let m := get_hash (pool_partial_payload msg s) in
  ∃ response sk share pool_sk,
    request_signatures_reply peer (pool_signature_request msg s) = Some response
    ∧ message_signatures response = [share]
    ∧ sk ∈ get_private_keys s
    ∧ get_g1 sk = farmer_pk response
    ∧ pool_sks_map s !! pool_pk = Some pool_sk
    ∧ let agg_pk := generate_plot_public_key (local_pk response) (get_g1 sk) in
      let plot_signature :=
        AugSchemeMPL_aggregate [AugSchemeMPL_sign_prepend sk m agg_pk; share.2] in
      agg_pk = plot_public_key (proof msg)
      ∧ AugSchemeMPL_verify agg_pk m plot_signature = true
      ∧ submit_partial =
          {| payload := pool_partial_payload msg s;
             sp_aggregate_signature :=
               AugSchemeMPL_aggregate [plot_signature; AugSchemeMPL_sign pool_sk m] |}.
Proof.
  intros Hin. cbv zeta.
  destruct (pool_path_submission _ _ _ _ _ _ Hin) as (Hgood & _ & _).
  revert Hin.
  unfold process_new_proof_of_space_for_pool, pool_required_iters,
    pool_signature_request, pool_partial_payload in *.
  unfold_M. cbn.
  destruct (iters_limit s <=? _) eqn:Hlimit; [lia|]. cbn.
  destruct (request_signatures_reply peer _) as [response|]; cbn.
  2:{ intros [?|[?|[]]]; discriminate. }
  destruct (length (message_signatures response) =? 1)%nat eqn:Hone; cbn.
  2:{ intros [?|[]]; discriminate. }
  apply Nat.eqb_eq in Hone.
  destruct (message_signatures response) as [|share [|]] eqn:Hms; try discriminate.
  match goal with
  | |- context [for_each ?l ?acc ?body ?s0] =>
      destruct (for_each_pure l body ltac:(prove_pure) acc s0) as [r Hr]; rewrite Hr
  end.
  destruct r as [plot_signature| |]; cbn; try (intros [?|[]]; discriminate).
  destruct (pool_sks_map s !! pool_pk) as [pool_sk|]; cbn;
    [|intros [?|[]]; discriminate].
  destruct plot_signature as [plot_signature|]; cbn; [|intros [?|[]]; discriminate].
  destruct (pool_plot_signature_loop _ _ _ _ _ _ _ Hr)
    as [? | (sk & share' & Hsk & Hpk & Hshare & Hplot & Hsig & Hverify)]; [discriminate|].
  rewrite Hms in Hshare. injection Hshare as <-.
  match goal with
  | |- context [submit_to_pool ?sub ?s0] =>
      destruct (submit_to_pool_trace sub s0) as (logs & Htrace & Hlogs);
      destruct (submit_to_pool sub s0) as [[r2 s2] t2]
  end.
  cbn in *. subst t2.
  intros [?|[?|[Hin|Hin]]]; try discriminate.
  - injection Hin as <-. exists response, sk, share, pool_sk.
    rewrite Hms. subst plot_signature. repeat split; done.
  - exfalso. refine (not_in_logs _ _ Hlogs _ Hin). intros; discriminate.
Qed.

(** X15: the pool path writes nothing to the farmer state but the time of
    the last submission and the operating pool difficulty; when it submits
    nothing the state is the one before, and when it submits, the time of
    the last submission is the one read at line 377. *)
Theorem pool_path_writes_only_feedback (msg : NewProofOfSpace) (peer : WSChiaConnection)
    (pool_pk : G1Element) (q : bytes32) (s : Farmer) :
  let final := (process_new_proof_of_space_for_pool msg peer pool_pk q s).1.2 in
  let trace := (process_new_proof_of_space_for_pool msg peer pool_pk q s).2 in
  pool_feedback_only s final
  ∧ ((∀ submit_partial, ¬ In (PoolSubmitPartial submit_partial) trace) → final = s)
  ∧ (∀ submit_partial,
       In (PoolSubmitPartial submit_partial) trace →
       last_pool_partial_submit_timestamp final = time 377).
Proof.
  cbv zeta. split; [apply pool_path_frame|]. split.
  - intros Hnone.
    destruct (Z.lt_ge_cases (pool_required_iters msg q s) (iters_limit s)) as [Hgood|Hbad].
    + destruct (pool_path_shape msg peer pool_pk q s Hgood)
        as [(r & t & Hrun & _) | (sig & Hrun)]; [by rewrite Hrun|].
      exfalso. rewrite Hrun in Hnone.
      destruct (submit_to_pool_trace
                  (Build_SubmitPartial (pool_partial_payload msg s) sig)
                  (set_last_pool_partial_submit_timestamp (time 377) s))
        as (logs & Htrace & _).
      destruct (submit_to_pool _ _) as [[r2 s2] t2]. cbn in *. subst t2.
      eapply Hnone. right. right. left. reflexivity.
    + by rewrite (pool_path_not_good_enough _ _ _ _ _ Hbad).
  - intros submit_partial Hin.
    destruct (pool_path_submission _ _ _ _ _ _ Hin) as (_ & _ & ->).
    pose proof (submit_to_pool_state submit_partial
                  (set_last_pool_partial_submit_timestamp (time 377) s)) as Hstate.
    destruct (submit_to_pool _ _) as [[r2 s2] t2]. cbn in *.
    destruct Hstate as [-> | [d ->]]; by destruct s.
Qed.

(** ** More on the answers of the harvester *)

Lemma for_each_trace_at {A L} (P : Event → Prop) (l : list A) (body : L → A → M L)
    (s : Farmer) :
  (∀ acc x, x ∈ l → Forall P (body acc x s).2 ∧ (body acc x s).1.2 = s) →
  ∀ acc, Forall P (for_each l acc body s).2 ∧ (for_each l acc body s).1.2 = s.
Proof.
  induction l as [|x l IH]; intros Hbody acc; [by split; [constructor|]|].
  rewrite for_each_cons.
  destruct (Hbody acc x ltac:(constructor)) as [Hhead Hstate].
  destruct (body acc x s) as [[r s1] t1]. cbn in Hhead, Hstate. subst s1.
  destruct r as [acc'| |]; [|done..].
  destruct (IH (fun acc0 y Hy => Hbody acc0 y ltac:(by constructor)) acc') as [Htail Hstate].
  destruct (for_each l acc' body s) as [[r2 s2] t2]. cbn in *.
  split; [by apply Forall_app|done].
Qed.

(** One private key in the signage point branch: it only logs, reports and
    broadcasts, and what it declares is well declared. *)
Lemma sp_for_key_declares (response : RespondSignatures) (s : Farmer)
    (candidates : list (string * ProofOfSpace)) (p : ProofOfSpace)
    (first_sp : NewSignagePoint) (rest : list NewSignagePoint)
    (first second : bytes32 * G2Element) (sk : PrivateKey) :
  proofs_of_space s !! rs_sp_hash response = Some candidates →
  pick_pospace (rs_plot_identifier response) candidates = Some p →
  sps s !! rs_sp_hash response = Some (first_sp :: rest) →
  let run_key :=
    respond_signatures_sp_for_key response (sp_signage_point_index first_sp) p
      first second sk s in
  Forall (fun e => is_signing_effect e ∧ well_declared response s e) run_key.2
  ∧ run_key.1.2 = s.
Proof.
  intros Hrec Hpick Hsps. cbv zeta. unfold respond_signatures_sp_for_key.
  destruct first as [m0 h0], second as [m1 h1]. unfold_M.
  destruct (bool_decide (get_g1 sk = farmer_pk response)); [|by split].
  destruct (bool_decide (_ = plot_public_key p)); cbn; [|by split].
  destruct (AugSchemeMPL_verify _ m0 _); cbn; [|by split].
  destruct (AugSchemeMPL_verify _ m1 _); cbn; [|by split].
  destruct (pool_public_key p) as [pool_pk|] eqn:Hpool.
  - destruct (bool_decide (pool_contract_puzzle_hash p = None)) eqn:Hcontract;
      cbn; [|by split].
    apply bool_decide_eq_true in Hcontract.
    destruct (pool_sks_map s !! pool_pk) as [pool_sk|] eqn:Hsk.
    + rewrite (dict_in_Some _ _ _ Hsk). cbn.
      split; [|done].
      apply Forall_cons. split; [done|].
      apply Forall_cons. split; [|constructor]. split; [done|].
      cbn. split; [eauto|]. split; [by exists first_sp, rest|]. repeat split.
      unfold pool_part_agrees. cbn. rewrite Hpool, Hcontract. eauto.
    + rewrite (dict_in_None _ _ Hsk). cbn. split; [|done]. by repeat constructor.
  - destruct (bool_decide (pool_contract_puzzle_hash p = None)) eqn:Hcontract;
      cbn; [by split|].
    apply bool_decide_eq_false in Hcontract.
    split; [|done].
    apply Forall_cons. split; [done|].
    apply Forall_cons. split; [|constructor]. split; [done|].
    cbn. split; [eauto|]. split; [by exists first_sp, rest|]. repeat split.
    unfold pool_part_agrees. cbn. rewrite Hpool.
    by destruct (pool_contract_puzzle_hash p).
Qed.

Lemma block_for_key_signs (response : RespondSignatures) (s s0 : Farmer) (p : ProofOfSpace)
    (q : bytes32) (sk : PrivateKey) :
  Forall (fun e => is_signing_effect e ∧ well_declared response s e)
    (respond_signatures_block_for_key response p q sk s0).2.
Proof.
  unfold respond_signatures_block_for_key. unfold_M.
  destruct (message_signatures response !! 0%nat) as [[m0 h0]|]; [|by constructor].
  destruct (message_signatures response !! 1%nat) as [[m1 h1]|]; [|by constructor].
  cbn. repeat (case_match; simplify_eq/=); by repeat constructor.
Qed.

Lemma log_is_signing (response : RespondSignatures) (s : Farmer) (t : list Event) :
  Forall is_log t →
  Forall (fun e => is_signing_effect e ∧ well_declared response s e) t.
Proof. intros Hlogs. eapply Forall_impl; [exact Hlogs|]. by intros []. Qed.

Lemma respond_signatures_resolve_index (response : RespondSignatures) (s : Farmer)
    (index : uint8) (is_sp : bool) (t : list Event) (s' : Farmer) :
  respond_signatures_resolve response s = (Normal (index, is_sp), s', t) →
  ∃ first_sp rest,
    sps s !! rs_sp_hash response = Some (first_sp :: rest)
    ∧ index = sp_signage_point_index first_sp.
Proof.
  destruct (sps s !! rs_sp_hash response) as [bucket|] eqn:Hbucket.
  - rewrite (respond_signatures_resolve_cases response s bucket Hbucket).
    destruct bucket as [|first_sp rest]; [done|].
    intros Hrun. exists first_sp, rest. split; [done|].
    repeat (case_match; simplify_eq/=); done.
  - unfold respond_signatures_resolve. unfold_M. cbn.
    by rewrite (dict_in_None _ _ Hbucket).
Qed.

(** What the handler does to the world, and what it declares. *)
Lemma respond_signatures_effects (response : RespondSignatures) (s : Farmer) :
  Forall (fun e => is_signing_effect e ∧ well_declared response s e)
    (respond_signatures response s).2.
Proof.
  unfold respond_signatures, respond_signatures_finish. unfold mbind, M_bind.
  destruct (respond_signatures_resolve_quiet response s) as (r1 & t1 & Hresolve & Hlog1).
  rewrite Hresolve.
  apply (log_is_signing response s) in Hlog1.
  destruct r1 as [[index is_sp]| |]; [|done..].
  destruct (respond_signatures_resolve_index _ _ _ _ _ _ Hresolve)
    as (first_sp & rest & Hsps & ->).
  pose proof (respond_signatures_pospace_cases response s) as Hcases.
  destruct (respond_signatures_pospace_quiet response s) as (r2 & t2 & Hpospace & Hlog2).
  rewrite Hpospace in Hcases |- *.
  apply (log_is_signing response s) in Hlog2.
  destruct r2 as [[p q]| |]; [|by apply Forall_app..].
  destruct (proofs_of_space s !! rs_sp_hash response) as [candidates|] eqn:Hrec; [|done].
  destruct (pick_pospace _ candidates) as [p'|] eqn:Hpick; [|done].
  assert (p' = p) as ->.
  { destruct (verify_and_get_quality_string p' _ _ _); by simplify_eq. }
  destruct is_sp.
  - assert (Forall (fun e => is_signing_effect e ∧ well_declared response s e)
              (respond_signatures_sp response (sp_signage_point_index first_sp) p s).2)
      as Hbranch.
    { unfold respond_signatures_sp. unfold_M.
      destruct (message_signatures response !! 0%nat) as [first|]; [|by constructor].
      destruct (message_signatures response !! 1%nat) as [second|]; [|by constructor].
      cbn.
      pose proof (for_each_trace_at
                    (fun e => is_signing_effect e ∧ well_declared response s e)
                    (get_private_keys s)
                    (fun _ sk =>
                       respond_signatures_sp_for_key response
                         (sp_signage_point_index first_sp) p first second sk) s
                    (fun acc sk Hsk =>
                       sp_for_key_declares response s candidates p first_sp rest
                         first second sk Hrec Hpick Hsps) tt) as [Htrace _].
      by destruct (for_each _ _ _ _) as [[r s'] t]. }
    destruct (respond_signatures_sp _ _ _ _) as [[r3 s3] t3]. cbn in *.
    apply Forall_app. split; [done|]. by apply Forall_app.
  - assert (Forall (fun e => is_signing_effect e ∧ well_declared response s e)
              (respond_signatures_block response p q s).2) as Hbranch.
    { unfold respond_signatures_block. unfold_M. cbn.
      pose proof (for_each_trace
                    (fun e => is_signing_effect e ∧ well_declared response s e)
                    (get_private_keys s)
                    (fun _ sk => respond_signatures_block_for_key response p q sk)
                    (fun acc sk s0 Hsk => block_for_key_signs response s s0 p q sk)
                    tt s) as Htrace.
      by destruct (for_each _ _ _ _) as [[r s'] t]. }
    destruct (respond_signatures_block _ _ _ _) as [[r3 s3] t3]. cbn in *.
    apply Forall_app. split; [done|]. by apply Forall_app.
Qed.

(** X16: [respond_signatures] reads the farmer state and never writes it,
    and all it does to the outside world is log, report a declared proof
    to the state-changed callback and broadcast to the full nodes: it
    sends nothing to a harvester, to a single peer or to the pool. *)
Theorem respond_signatures_only_signs (response : RespondSignatures) (s : Farmer) :
  state_of (run (respond_signatures response) s) = s
  ∧ Forall is_signing_effect (trace_of (run (respond_signatures response) s)).
Proof.
  split; [apply respond_signatures_state|].
  destruct (run_trace (respond_signatures response) s) as [-> _].
  eapply Forall_impl; [apply respond_signatures_effects|]. by intros e [? _].
Qed.

(** X17: every [DeclareProofOfSpace] that [respond_signatures] broadcasts
    is of the proof recorded last for the response's plot under the
    response's key, carries the response's challenge hash, the farmer's
    reward target and the signage point index of the first signage point
    registered for the key, and has a pool part that agrees with the
    proof: the farmer's pool target, at height 0 and signed with the pool
    key's private key, for a proof with a pool public key and no pool
    contract puzzle hash; no pool target and no pool signature for a proof
    with a pool contract puzzle hash and no pool public key.  A proof with
    both or with neither is never declared. *)
Theorem declarations_are_well_declared (response : RespondSignatures) (s : Farmer) :
  Forall (well_declared response s) (trace_of (run (respond_signatures response) s)).
Proof.
  destruct (run_trace (respond_signatures response) s) as [-> _].
  eapply Forall_impl; [apply respond_signatures_effects|]. by intros e [_ ?].
Qed.

Lemma declarations_in_app (t1 t2 : list Event) :
  declarations_in (t1 ++ t2) = (declarations_in t1 + declarations_in t2)%nat.
Proof. unfold declarations_in. by rewrite List.filter_app, length_app. Qed.

Lemma declarations_in_none (t : list Event) :
  Forall (fun e => is_declaration e = false) t → declarations_in t = 0%nat.
Proof.
  unfold declarations_in. induction 1 as [|e t He Ht IH]; [done|].
  cbn. by rewrite He.
Qed.

Lemma logs_declare_nothing (t : list Event) :
  Forall is_log t → declarations_in t = 0%nat.
Proof.
  intros Hlogs. apply declarations_in_none.
  eapply Forall_impl; [exact Hlogs|]. by intros [].
Qed.

(** A loop whose body declares at most once, and then ends the loop,
    declares at most once. *)
Lemma for_each_declares_once {A} (l : list A) (body : unit → A → M unit) :
  (∀ x s,
     match body tt x s with
     | (Normal _, _, t) => declarations_in t = 0%nat
     | (_, _, t) => (declarations_in t <= 1)%nat
     end) →
  ∀ s, (declarations_in (for_each l tt body s).2 <= 1)%nat.
Proof.
  intros Hbody. induction l as [|x l IH]; intros s; [rewrite for_each_nil; unfold declarations_in; cbn; lia|].
  rewrite for_each_cons. pose proof (Hbody x s) as Hhead.
  destruct (body tt x s) as [[r s1] t1].
  destruct r as [[]| |]; [|done..].
  pose proof (IH s1) as Htail.
  destruct (for_each l tt body s1) as [[r2 s2] t2]. cbn in *.
  rewrite declarations_in_app. lia.
Qed.

Lemma sp_for_key_declares_once (response : RespondSignatures) (index : uint8)
    (p : ProofOfSpace) (first second : bytes32 * G2Element) (sk : PrivateKey) (s : Farmer) :
  match respond_signatures_sp_for_key response index p first second sk s with
  | (Normal _, _, t) => declarations_in t = 0%nat
  | (_, _, t) => (declarations_in t <= 1)%nat
  end.
Proof.
  unfold respond_signatures_sp_for_key. destruct first as [m0 h0], second as [m1 h1].
  unfold_M. repeat (case_match; simplify_eq/=); unfold declarations_in; cbn; lia.
Qed.

Lemma block_for_key_declares_nothing (response : RespondSignatures) (p : ProofOfSpace)
    (q : bytes32) (sk : PrivateKey) (s : Farmer) :
  Forall (fun e => is_declaration e = false)
    (respond_signatures_block_for_key response p q sk s).2.
Proof.
  unfold respond_signatures_block_for_key. unfold_M.
  repeat (case_match; simplify_eq/=); by repeat constructor.
Qed.

(** X18: one response, one declaration at most: [respond_signatures]
    broadcasts no more than one [DeclareProofOfSpace], however many of the
    farmer's private keys have the response's farmer public key. *)
Theorem at_most_one_declaration (response : RespondSignatures) (s : Farmer) :
  (declarations_in (trace_of (run (respond_signatures response) s)) <= 1)%nat.
Proof.
  destruct (run_trace (respond_signatures response) s) as [-> _].
  unfold respond_signatures, respond_signatures_finish. unfold mbind, M_bind.
  destruct (respond_signatures_resolve_quiet response s) as (r1 & t1 & -> & Hlog1).
  apply logs_declare_nothing in Hlog1.
  destruct r1 as [[index is_sp]| |]; cbn; [|lia..].
  destruct (respond_signatures_pospace_quiet response s) as (r2 & t2 & -> & Hlog2).
  apply logs_declare_nothing in Hlog2.
  destruct r2 as [[p q]| |]; cbn; [|rewrite declarations_in_app; lia..].
  destruct is_sp.
  - assert (declarations_in (respond_signatures_sp response index p s).2 <= 1)%nat
      as Hbranch.
    { unfold respond_signatures_sp. unfold_M.
      destruct (message_signatures response !! 0%nat) as [first|]; [|by unfold declarations_in; cbn; lia].
      destruct (message_signatures response !! 1%nat) as [second|]; [|by unfold declarations_in; cbn; lia].
      cbn.
      pose proof (for_each_declares_once (get_private_keys s)
                    (fun _ sk =>
                       respond_signatures_sp_for_key response index p first second sk)
                    (fun sk s0 =>
                       sp_for_key_declares_once response index p first second sk s0) s)
        as Hloop.
      by destruct (for_each _ _ _ _) as [[r s'] t]. }
    destruct (respond_signatures_sp _ _ _ _) as [[r3 s3] t3]. cbn in *.
    rewrite !declarations_in_app. lia.
  - assert (declarations_in (respond_signatures_block response p q s).2 = 0)%nat
      as Hbranch.
    { apply declarations_in_none.
      unfold respond_signatures_block. unfold_M. cbn.
      pose proof (for_each_trace (fun e => is_declaration e = false)
                    (get_private_keys s)
                    (fun _ sk => respond_signatures_block_for_key response p q sk)
                    (fun acc sk s0 Hsk =>
                       block_for_key_declares_nothing response p q sk s0) tt s) as Hloop.
      by destruct (for_each _ _ _ _) as [[r s'] t]. }
    destruct (respond_signatures_block _ _ _ _) as [[r3 s3] t3]. cbn in *.
    rewrite !declarations_in_app. lia.
Qed.

(** X19: the declaration of a proof, in full.  A response for a registered
    key whose first signed message is the key itself and whose second is
    the reward chain value of a signage point of the key, for a plot with
    a recorded proof that verifies, with the first matching private key
    making the proof's plot public key and both aggregates verifying, is
    followed by exactly two effects: the proof is reported to the
    state-changed callback as passed, and one [DeclareProofOfSpace] goes
    to all full nodes.  The declaration carries the response's challenge
    hash, the two signed values with the aggregates of the harvester's and
    the farmer's shares, the index of the first signage point of the key,
    the recorded proof, the farmer's reward target, and the pool target
    signed with the pool key's private key, or no pool target for a proof
    with a pool contract puzzle hash.  The handler returns nothing and
    writes nothing. *)
Theorem respond_signatures_declares (response : RespondSignatures) (s : Farmer)
    (first_sp : NewSignagePoint) (rest : list NewSignagePoint)
    (candidates : list (string * ProofOfSpace)) (p : ProofOfSpace) (q : bytes32)
    (h0 : G2Element) (m1 : bytes32) (h1 : G2Element)
    (skipped later : list PrivateKey) (sk : PrivateKey)
    (target : option (PoolTarget * G2Element)) :
  sps s !! rs_sp_hash response = Some (first_sp :: rest) →
  message_signatures response !! 0%nat = Some (rs_sp_hash response, h0) →
  message_signatures response !! 1%nat = Some (m1, h1) →
  registered_reward_chain_sp m1 (first_sp :: rest) = true →
  proofs_of_space s !! rs_sp_hash response = Some candidates →
  pick_pospace (rs_plot_identifier response) candidates = Some p →
  verify_and_get_quality_string p (constants s)
    (rs_challenge_hash response) (rs_sp_hash response) = Some q →
  get_private_keys s = skipped ++ sk :: later →
  (∀ sk', sk' ∈ skipped → get_g1 sk' ≠ farmer_pk response) →
  get_g1 sk = farmer_pk response →
  let agg_pk := generate_plot_public_key (local_pk response) (get_g1 sk) in
  let agg0 :=
    AugSchemeMPL_aggregate
      [h0; AugSchemeMPL_sign_prepend sk (rs_sp_hash response) agg_pk] in
  let agg1 := AugSchemeMPL_aggregate [h1; AugSchemeMPL_sign_prepend sk m1 agg_pk] in
  agg_pk = plot_public_key p →
  AugSchemeMPL_verify agg_pk (rs_sp_hash response) agg0 = true →
  AugSchemeMPL_verify agg_pk m1 agg1 = true →
  (∃ pool_pk pool_sk,
     pool_public_key p = Some pool_pk
     ∧ pool_contract_puzzle_hash p = None
     ∧ pool_sks_map s !! pool_pk = Some pool_sk
     ∧ target =
         Some (Build_PoolTarget (pool_target s) 0,
               AugSchemeMPL_sign pool_sk
                 (PoolTarget_bytes (Build_PoolTarget (pool_target s) 0))))
  ∨ (pool_public_key p = None ∧ pool_contract_puzzle_hash p ≠ None ∧ target = None) →
  let request :=
    declaration response s (sp_signage_point_index first_sp) p
      (rs_sp_hash response) agg0 m1 agg1 target in
  run (respond_signatures response) s =
    (Returned None, s,
     [StateChanged_proof request true;
      SendToAll [declare_proof_of_space request] FULL_NODE]).
Proof.
  intros Hbucket Hfirst Hsecond Hreg Hrecorded Hpick Hquality Hkeys Hskipped Hpk
    agg_pk agg0 agg1 Hplot Hv0 Hv1 Htarget request.
  assert (respond_signatures_resolve response s =
            (Normal (sp_signage_point_index first_sp, true), s, [])) as Hresolve.
  { rewrite (respond_signatures_resolve_cases response s _ Hbucket), Hfirst, Hsecond.
    rewrite bool_decide_eq_true_2 by done. by rewrite Hreg. }
  unfold run.
  rewrite (respond_signatures_at _ _ _ _ _ _ _ Hresolve Hrecorded Hpick Hquality).
  unfold respond_signatures_sp. unfold_M. rewrite Hfirst, Hsecond. cbn.
  rewrite Hkeys, for_each_skip_prefix, for_each_cons.
  2:{ intros sk' Hsk'. apply sp_for_key_skip. by apply Hskipped. }
  unfold respond_signatures_sp_for_key at 1. unfold_M.
  rewrite (bool_decide_eq_true_2 _ Hpk). cbn. fold agg_pk.
  rewrite (bool_decide_eq_true_2 _ Hplot). cbn. fold agg0 agg1.
  rewrite Hv0. cbn. rewrite Hv1. cbn.
  destruct Htarget as [(pool_pk & pool_sk & Hpool & Hcontract & Hsk & Htarget)
                      |(Hpool & Hcontract & Htarget)].
  - rewrite Hpool. cbn. rewrite (bool_decide_eq_true_2 _ Hcontract). cbn.
    rewrite (dict_in_Some _ _ _ Hsk). cbn. rewrite Hsk. cbn.
    unfold request, declaration. by rewrite Htarget.
  - rewrite Hpool. cbn. rewrite (bool_decide_eq_false_2 _ Hcontract). cbn.
    unfold request, declaration. by rewrite Htarget.
Qed.

(** X20: the signing of a block, in full.  A response for a registered key
    whose first signed message is not the key, for a plot with a recorded
    proof that verifies, with exactly one private key matching the
    response's farmer public key, that key making the proof's plot public
    key and both aggregates verifying, is followed by exactly one effect:
    one [SignedValues] to all full nodes, with the quality string computed
    from the recorded proof and the aggregates of the harvester's and the
    farmer's shares for the foliage block data hash and the foliage
    transaction block hash.  Nothing is reported to the state-changed
    callback, and nothing is written. *)
Theorem respond_signatures_signs_block (response : RespondSignatures) (s : Farmer)
    (first_sp : NewSignagePoint) (rest : list NewSignagePoint)
    (candidates : list (string * ProofOfSpace)) (p : ProofOfSpace) (q : bytes32)
    (m0 : bytes32) (h0 : G2Element) (m1 : bytes32) (h1 : G2Element)
    (skipped later : list PrivateKey) (sk : PrivateKey) :
  sps s !! rs_sp_hash response = Some (first_sp :: rest) →
  message_signatures response !! 0%nat = Some (m0, h0) →
  message_signatures response !! 1%nat = Some (m1, h1) →
  rs_sp_hash response ≠ m0 →
  proofs_of_space s !! rs_sp_hash response = Some candidates →
  pick_pospace (rs_plot_identifier response) candidates = Some p →
  verify_and_get_quality_string p (constants s)
    (rs_challenge_hash response) (rs_sp_hash response) = Some q →
  get_private_keys s = skipped ++ sk :: later →
  (∀ sk', sk' ∈ skipped ++ later → get_g1 sk' ≠ farmer_pk response) →
  get_g1 sk = farmer_pk response →
  let agg_pk := generate_plot_public_key (local_pk response) (get_g1 sk) in
  let agg0 := AugSchemeMPL_aggregate [h0; AugSchemeMPL_sign_prepend sk m0 agg_pk] in
  let agg1 := AugSchemeMPL_aggregate [h1; AugSchemeMPL_sign_prepend sk m1 agg_pk] in
  agg_pk = plot_public_key p →
  AugSchemeMPL_verify agg_pk m0 agg0 = true →
  AugSchemeMPL_verify agg_pk m1 agg1 = true →
  run (respond_signatures response) s =
    (Returned None, s,
     [SendToAll [signed_values (Build_SignedValues q agg0 agg1)] FULL_NODE]).
Proof.
  intros Hbucket Hfirst Hsecond Hother Hrecorded Hpick Hquality Hkeys Hothers Hpk
    agg_pk agg0 agg1 Hplot Hv0 Hv1.
  assert (respond_signatures_resolve response s =
            (Normal (sp_signage_point_index first_sp, false), s, [])) as Hresolve.
  { rewrite (respond_signatures_resolve_cases response s _ Hbucket), Hfirst.
    by rewrite (bool_decide_eq_false_2 _ Hother). }
  unfold run.
  rewrite (respond_signatures_at _ _ _ _ _ _ _ Hresolve Hrecorded Hpick Hquality).
  unfold respond_signatures_block. unfold_M. cbn.
  rewrite Hkeys, for_each_skip_prefix, for_each_cons.
  2:{ intros sk' Hsk'. apply (block_for_key_skip _ _ _ _ _ _ _ Hfirst Hsecond).
      apply Hothers, elem_of_app. by left. }
  unfold respond_signatures_block_for_key at 1. unfold_M.
  rewrite Hfirst, Hsecond. cbn.
  rewrite (bool_decide_eq_true_2 _ Hpk). cbn. fold agg_pk.
  rewrite (bool_decide_eq_true_2 _ Hplot). cbn. fold agg0 agg1.
  rewrite Hv0. cbn. rewrite Hv1. cbn.
  rewrite for_each_skip; [done|].
  intros sk' Hsk'. apply (block_for_key_skip _ _ _ _ _ _ _ Hfirst Hsecond).
  apply Hothers, elem_of_app. by right.
Qed.

(** X21: a response for a key that is not in the signage point registry
    is declined with a warning that names the response's challenge hash:
    the handler returns nothing, broadcasts nothing and writes nothing,
    whatever the response carries and whatever is recorded under the
    key. *)
Theorem respond_signatures_unregistered_key (response : RespondSignatures) (s : Farmer) :
  sps s !! rs_sp_hash response = None →
  run (respond_signatures response) s =
    (Returned None, s,
     [Log WARNING (Do_not_have_challenge_hash (rs_challenge_hash response))]).
Proof.
  intros Hnone. unfold run, respond_signatures.
  unfold mbind at 1. unfold M_bind.
  assert (respond_signatures_resolve response s =
            (Returning None, s,
             [Log WARNING (Do_not_have_challenge_hash (rs_challenge_hash response))]))
    as ->; [|done].
  unfold respond_signatures_resolve. unfold_M. cbn.
  by rewrite (dict_in_None _ _ Hnone).
Qed.

(** X22: the recorded proof is verified again when the signatures arrive,
    against the challenge hash of the response.  When it no longer
    verifies, the response is declined with a warning that names the
    proof: nothing is signed, broadcast or written, in either branch. *)
Theorem respond_signatures_invalid_recorded_proof (response : RespondSignatures)
    (s : Farmer) (index : uint8) (is_sp : bool)
    (candidates : list (string * ProofOfSpace)) (p : ProofOfSpace) :
  respond_signatures_resolve response s = (Normal (index, is_sp), s, []) →
  proofs_of_space s !! rs_sp_hash response = Some candidates →
  pick_pospace (rs_plot_identifier response) candidates = Some p →
  verify_and_get_quality_string p (constants s)
    (rs_challenge_hash response) (rs_sp_hash response) = None →
  run (respond_signatures response) s =
    (Returned None, s, [Log WARNING (Have_invalid_PoSpace p)]).
Proof.
  intros Hresolve Hrecorded Hpick Hquality. unfold run.
  rewrite (respond_signatures_after_resolve _ _ _ _ Hresolve).
  unfold respond_signatures_finish. unfold mbind, M_bind.
  by rewrite respond_signatures_pospace_cases, Hrecorded, Hpick, Hquality.
Qed.



Lemma for_each_raises {A L} (Q : Exception → Prop) (l : list A) (body : L → A → M L) :
  (∀ acc x s e, (body acc x s).1.1 = Raising e → Q e) →
  ∀ acc s e, (for_each l acc body s).1.1 = Raising e → Q e.
Proof.
  intros Hbody. induction l as [|x l IH]; intros acc s e; [by rewrite for_each_nil|].
  rewrite for_each_cons. pose proof (Hbody acc x s) as Hhead.
  destruct (body acc x s) as [[r s1] t1]. cbn in Hhead.
  destruct r as [acc'| |]; [|done|by intros [= <-]; apply Hhead].
  pose proof (IH acc' s1 e) as Htail.
  by destruct (for_each l acc' body s1) as [[r2 s2] t2].
Qed.

Lemma sp_for_key_raises (response : RespondSignatures) (index : uint8) (p : ProofOfSpace)
    (first second : bytes32 * G2Element) (sk : PrivateKey) (s : Farmer) (e : Exception) :
  (respond_signatures_sp_for_key response index p first second sk s).1.1 = Raising e →
  e = AssertionError.
Proof.
  unfold respond_signatures_sp_for_key. destruct first as [m0 h0], second as [m1 h1].
  unfold_M.
  destruct (bool_decide (get_g1 sk = farmer_pk response)); [|done].
  destruct (bool_decide (_ = plot_public_key p)); cbn; [|by intros [= <-]].
  destruct (AugSchemeMPL_verify _ m0 _); cbn; [|by intros [= <-]].
  destruct (AugSchemeMPL_verify _ m1 _); cbn; [|by intros [= <-]].
  destruct (pool_public_key p) as [pool_pk|].
  - destruct (bool_decide (pool_contract_puzzle_hash p = None)); cbn;
      [|by intros [= <-]].
    destruct (pool_sks_map s !! pool_pk) as [pool_sk|] eqn:Hsk.
    + by rewrite (dict_in_Some _ _ _ Hsk).
    + by rewrite (dict_in_None _ _ Hsk).
  - destruct (bool_decide (pool_contract_puzzle_hash p = None)); cbn; [|done].
    by intros [= <-].
Qed.

Lemma block_for_key_raises (response : RespondSignatures) (p : ProofOfSpace) (q : bytes32)
    (sk : PrivateKey) (s : Farmer) (e : Exception) :
  (respond_signatures_block_for_key response p q sk s).1.1 = Raising e →
  e = AssertionError
  ∨ (e = IndexError ∧ (length (message_signatures response) < 2)%nat).
Proof.
  unfold respond_signatures_block_for_key. unfold_M.
  destruct (message_signatures response !! 0%nat) as [[m0 h0]|] eqn:Hfirst.
  2:{ intros [= <-]. right. split; [done|].
      apply lookup_ge_None in Hfirst. lia. }
  destruct (message_signatures response !! 1%nat) as [[m1 h1]|] eqn:Hsecond.
  2:{ intros [= <-]. right. split; [done|].
      apply lookup_ge_None in Hsecond. lia. }
  cbn. repeat (case_match; simplify_eq/=); try done; intros [= <-]; by left.
Qed.

(** X24: the exceptions that escape [respond_signatures], each with its
    cause.  A [KeyError] means that nothing at all is recorded under the
    response's key; an [IndexError] means that the response carries fewer
    than two signed messages, or that the key is registered with an empty
    list of signage points; everything else is a failed assertion.  The
    read of the pool key's private key, at line 189, never raises: the
    membership test before it returns first. *)
Theorem respond_signatures_escapes (response : RespondSignatures) (s : Farmer)
    (e : Exception) :
  outcome_of (run (respond_signatures response) s) = Raised e →
  escapes_respond_signatures response s e.
Proof.
  unfold outcome_of, run, respond_signatures.
  unfold mbind at 1. unfold M_bind.
  destruct (sps s !! rs_sp_hash response) as [bucket|] eqn:Hbucket.
  2:{ assert (respond_signatures_resolve response s =
                (Returning None, s,
                 [Log WARNING (Do_not_have_challenge_hash (rs_challenge_hash response))]))
        as ->; [|done].
      unfold respond_signatures_resolve. unfold_M. cbn.
      by rewrite (dict_in_None _ _ Hbucket). }
  rewrite (respond_signatures_resolve_cases response s bucket Hbucket).
  destruct bucket as [|first_sp rest].
  { cbn. intros [= <-]. cbn. by right. }
  destruct (message_signatures response !! 0%nat) as [[m0 h0]|] eqn:Hfirst.
  2:{ cbn. intros [= <-]. cbn. left. apply lookup_ge_None in Hfirst. lia. }
  assert (∀ index is_sp,
            (respond_signatures_finish response index is_sp s).1.1 = Raising e →
            escapes_respond_signatures response s e) as Hfinish.
  { intros index is_sp. unfold respond_signatures_finish. unfold mbind, M_bind.
    rewrite respond_signatures_pospace_cases.
    destruct (proofs_of_space s !! rs_sp_hash response) as [candidates|] eqn:Hrecorded.
    2:{ cbn. by intros [= <-]. }
    destruct (pick_pospace _ _) as [p|]; [|by cbn; intros [= <-]].
    destruct (verify_and_get_quality_string _ _ _ _) as [q|]; [|done].
    destruct is_sp.
    - unfold respond_signatures_sp. unfold_M. rewrite Hfirst. cbn.
      destruct (message_signatures response !! 1%nat) as [second|] eqn:Hsecond.
      2:{ cbn. intros [= <-]. cbn. left. apply lookup_ge_None in Hsecond. lia. }
      cbn.
      pose proof (for_each_raises (fun e0 => e0 = AssertionError) (get_private_keys s)
                    (fun _ sk =>
                       respond_signatures_sp_for_key response index p (m0, h0) second sk)
                    (fun acc sk s0 e0 =>
                       sp_for_key_raises response index p (m0, h0) second sk s0 e0)
                    tt s e) as Hloop.
      destruct (for_each _ _ _ _) as [[r s'] t]. cbn in *.
      intros Hr. by rewrite Hloop.
    - unfold respond_signatures_block. unfold_M. cbn.
      pose proof (for_each_raises
                    (fun e0 => e0 = AssertionError
                               ∨ (e0 = IndexError
                                  ∧ (length (message_signatures response) < 2)%nat))
                    (get_private_keys s)
                    (fun _ sk => respond_signatures_block_for_key response p q sk)
                    (fun acc sk s0 e0 =>
                       block_for_key_raises response p q sk s0 e0)
                    tt s e) as Hloop.
      destruct (for_each _ _ _ _) as [[r s'] t]. cbn in *.
      intros Hr. destruct (Hloop Hr) as [->|[-> Hshort]]; [done|]. cbn. by left. }
  assert (∀ index is_sp,
            (let '(r, s2, t2) := respond_signatures_finish response index is_sp s in
             (r, s2, [] ++ t2)).1.1 = (respond_signatures_finish response index is_sp s).1.1)
    as Hsame.
  { intros index is_sp. by destruct (respond_signatures_finish _ _ _ _) as [[r s2] t2]. }
  assert (∀ (r : Step unit * Farmer * list Event),
            (let '(r0, s1, t1) := r in
             match r0 with
             | Normal _ => (Returned None, s1, t1)
             | Returning v => (Returned v, s1, t1)
             | Raising e0 => (Raised e0, s1, t1)
             end).1.1 = Raised e → r.1.1 = Raising e) as Hrun.
  { intros [[[] s1] t1]; cbn; congruence. }
  destruct (bool_decide (rs_sp_hash response = m0)).
  - destruct (message_signatures response !! 1%nat) as [[m1 h1]|] eqn:Hsecond.
    2:{ cbn. intros [= <-]. cbn. left. apply lookup_ge_None in Hsecond. lia. }
    destruct (registered_reward_chain_sp m1 (first_sp :: rest)).
    + intros Hr. apply Hrun in Hr. rewrite Hsame in Hr. by apply Hfinish in Hr.
    + cbn. by intros [= <-].
  - intros Hr. apply Hrun in Hr. rewrite Hsame in Hr. by apply Hfinish in Hr.
Qed.

End Properties.

(** * The properties on the concrete world *)

#[local] Existing Instance toy.

(** C9 at a farmer with an empty quality index. *)
Lemma request_signed_values_unknown_quality_string_witness :
  run (request_signed_values
         {| rv_quality_string := 42; foliage_block_data_hash := 1;
            foliage_transaction_block_hash := 2 |}) toy_farmer =
    (Returned None, toy_farmer, [Log ERROR (Do_not_have_quality_string 42)]).
Proof.
  apply (request_signed_values_unknown_quality_string
           {| rv_quality_string := 42; foliage_block_data_hash := 1;
              foliage_transaction_block_hash := 2 |} toy_farmer).
  reflexivity.
Defined.

(** C8 at [toy_sp], registered once already. *)
Lemma new_signage_point_twice_witness :
  state_of (run (new_signage_point toy_sp) toy_farmer_with_sp) = toy_farmer_with_sp
  ∧ sps (state_of (run (new_signage_point toy_sp)
                     (state_of (run (new_signage_point toy_sp) toy_farmer)))) !! 101%N
    = Some [toy_sp].
Proof.
  split.
  - apply (proj1 (new_signage_point_twice toy_sp toy_farmer_with_sp) [toy_sp]).
    + reflexivity.
    + constructor.
  - rewrite (proj1 (proj2 (proj2 (new_signage_point_twice toy_sp toy_farmer)))).
    reflexivity.
Defined.

(** C4 as stated fails: the first proof for an unregistered key creates the
    key's response counter (and stamps its time), so the state is not the
    one before the message arrived. *)
Lemma new_proof_of_space_unregistered_key_writes :
  ¬ (∀ (E : Externals) (msg : NewProofOfSpace) (peer : WSChiaConnection) (s : Farmer),
       sps s !! pos_sp_hash msg = None →
       state_of (run (new_proof_of_space msg peer) s) = s).
Proof.
  intros Hclaim.
  specialize (Hclaim toy (toy_proof 42) toy_harvester toy_farmer eq_refl).
  apply (f_equal (fun s => number_of_responses s !! 101%N)) in Hclaim.
  vm_compute in Hclaim. discriminate Hclaim.
Qed.

(** C4 (amended) on the farmer that has seen nothing yet. *)
Lemma new_proof_of_space_unregistered_key_witness :
  run (new_proof_of_space (toy_proof 42) toy_harvester) toy_farmer =
    (Returned None,
     set_cache_add_time <[101%N := 1600000040]>
       (set_number_of_responses <[101%N := 0]> toy_farmer),
     [Log WARNING (Received_response_for_unknown_signage_point 101)]).
Proof.
  exact (proj1 (new_proof_of_space_unregistered_key (toy_proof 42) toy_harvester
                  toy_farmer eq_refl)).
Defined.

(** C6 at the toy pool, which answers a partial at difficulty 10 with error
    code 5 and the difficulty 400. *)
Lemma pool_difficulty_after_submission_witness :
  pool_difficulty
    (process_new_proof_of_space_for_pool (toy_proof 42) toy_harvester 5 42 toy_farmer).1.2
  = 400.
Proof.
  refine (proj2 (proj1 (proj2
    (pool_difficulty_after_submission (toy_proof 42) toy_harvester 5%N 42%N toy_farmer
       (Build_SubmitPartial (pool_partial_payload (toy_proof 42) toy_farmer) 3570) _))
    _ 400 eq_refl _ eq_refl)).
  - vm_compute. do 2 right. left. reflexivity.
  - left. reflexivity.
Defined.

(** C3 on seven good proofs for the key of [toy_sp]: six requests for
    signatures, then one drop. *)
Lemma new_proof_of_space_cap_admits_six_witness :
  (handle_proofs toy_seven_proofs toy_harvester toy_farmer_with_sp).1 =
    map (fun msg => Returned (Some (sp_signature_request msg toy_sp)))
        (map toy_proof [1; 2; 3; 4; 5; 6]%N)
    ++ [Returned None].
Proof.
  refine (new_proof_of_space_cap_admits_six toy_seven_proofs toy_harvester
            toy_farmer_with_sp 101%N toy_sp [] eq_refl eq_refl _).
  unfold toy_seven_proofs.
  repeat (apply Forall_cons; split;
          [split; [reflexivity | eexists; split; reflexivity]|]).
  apply Forall_nil. exact I.
Defined.

(** C7 on a proof for the signage point that ends a sub-slot: it misses the
    block threshold, the partial is submitted, and its end-of-sub-slot flag
    is set. *)
Lemma pool_partial_only_when_eligible_witness :
  payload
    (Build_SubmitPartial
       (pool_partial_payload (toy_eos_proof 42) toy_farmer_with_eos_sp) 7070)
  = {| pp_proof_of_space := toy_pospace 42;
       pp_difficulty := 10;
       pp_sp_hash := 201;
       pp_end_of_sub_slot := true;
       pp_payout_address := "xch1pool" |}.
Proof.
  refine (proj1 (proj1 (proj2
    (pool_partial_only_when_eligible (toy_eos_proof 42) toy_harvester
       toy_farmer_with_eos_sp
       (PoolSubmitPartial
          (Build_SubmitPartial
             (pool_partial_payload (toy_eos_proof 42) toy_farmer_with_eos_sp) 7070))
       _ _)))).
  - vm_compute. do 2 right. left. reflexivity.
  - exact I.
Defined.

(** C10 on a bucket of two signage points: the reply asks for the
    signatures of the first one's values. *)
Lemma new_proof_of_space_first_sp_only_witness :
  outcome_of (run (new_proof_of_space (toy_proof 42) toy_harvester) toy_farmer_with_two_sps)
  = Returned (Some (sp_signature_request (toy_proof 42) toy_sp)).
Proof.
  rewrite (proj1 (proj2 (new_proof_of_space_first_sp_only (toy_proof 42) toy_harvester
                           toy_farmer_with_two_sps))).
  reflexivity.
Defined.

(** C5 as stated fails: a response whose first signed message is the
    [sp_hash] and whose second signed message matches no registered
    signage point is not treated as a block signing response; the handler
    raises [AssertionError]. *)
Lemma respond_signatures_mismatch_raises :
  ¬ (∀ (E : Externals) (response : RespondSignatures) (s : Farmer)
       (bucket : list NewSignagePoint),
       sps s !! rs_sp_hash response = Some bucket →
       ((∃ index, respond_signatures_resolve response s = (Normal (index, true), s, []))
          ↔ carries_sp_signatures response bucket)
       ∧ (¬ carries_sp_signatures response bucket →
            ∃ index, respond_signatures_resolve response s = (Normal (index, false), s, []))).
Proof.
  intros Hclaim.
  destruct (Hclaim toy toy_mismatched_response toy_farmer_with_proof [toy_sp] eq_refl)
    as [_ Hblock].
  destruct Hblock as [index Hrun].
  - intros (g0 & m1 & g1 & sp & _ & Hsecond & Hin & Hrc).
    injection Hsecond as <- <-.
    apply list_elem_of_singleton in Hin as ->. discriminate Hrc.
  - vm_compute in Hrun. discriminate Hrun.
Qed.

(** C5 (amended) on the mismatched response: the handler raises. *)
Lemma respond_signatures_branch_witness :
  run (respond_signatures toy_mismatched_response) toy_farmer_with_proof =
    (Raised AssertionError, toy_farmer_with_proof, []).
Proof.
  refine (proj2 (proj2 (proj2 (proj2
    (respond_signatures_branch toy_mismatched_response toy_farmer_with_proof
       toy_sp [] eq_refl)))) (7 * 101)%N 555%N (7 * 555)%N eq_refl eq_refl _).
  intros sp Hin. apply list_elem_of_singleton in Hin as ->. discriminate.
Defined.

(** C1 on the harvester's answer with its first signature off by one: the
    aggregate does not verify, and nothing is broadcast. *)
Lemma respond_signatures_broadcasts_verified_witness :
  Forall (fun e => is_full_node_broadcast e = false)
    (trace_of (run (respond_signatures (toy_sp_response 1)) toy_farmer_with_proof)).
Proof.
  refine (proj2 (respond_signatures_broadcasts_verified (toy_sp_response 1)
                   toy_farmer_with_proof) _).
  intros sk m0 h0 m1 h1 Hsk _ Hfirst Hsecond.
  apply list_elem_of_singleton in Hsk as ->.
  injection Hfirst as <- <-. injection Hsecond as <- <-.
  left. reflexivity.
Defined.

(** C2 as stated fails: a response for a plot of which no proof is
    recorded makes the handler raise [AssertionError]. *)
Lemma respond_signatures_absent_proof_raises :
  ¬ (∀ (E : Externals) (response : RespondSignatures) (s : Farmer)
       (bucket : list NewSignagePoint) (candidates : list (string * ProofOfSpace)),
       sps s !! rs_sp_hash response = Some bucket →
       proofs_of_space s !! rs_sp_hash response = Some candidates →
       pick_pospace (rs_plot_identifier response) candidates = None →
       ∃ v, outcome_of (run (respond_signatures response) s) = Returned v).
Proof.
  intros Hclaim.
  destruct (Hclaim toy (toy_block_response "plot-b" 11) toy_farmer_with_proof
              [toy_sp] [("plot-a"%string, toy_pospace 42)] eq_refl eq_refl eq_refl)
    as [v Hrun].
  vm_compute in Hrun. discriminate Hrun.
Qed.

(** C2 (amended) on a block signing response for a farmer key that is not
    one of the farmer's: the handler returns, and nothing is sent. *)
Lemma missing_key_material_witness :
  run (respond_signatures (toy_block_response "plot-a" 99)) toy_farmer_with_proof =
    (Returned None, toy_farmer_with_proof, []).
Proof.
  refine (proj1 (proj2 (@missing_key_material toy))
            (toy_block_response "plot-a" 99) toy_farmer_with_proof 3 false
            [("plot-a"%string, toy_pospace 42)] (toy_pospace 42) 42%N
            (301, 7 * 301)%N (302, 7 * 302)%N
            eq_refl eq_refl eq_refl eq_refl eq_refl eq_refl _).
  intros sk Hsk. apply list_elem_of_singleton in Hsk as ->. discriminate.
Defined.

(** ** The further properties on the concrete world *)

(** X1 on five messages handled by a farmer that has seen nothing yet. *)
Lemma registry_stays_well_formed_witness :
  registry_wf (handle_all toy_inbound toy_farmer).
Proof.
  apply (registry_stays_well_formed toy_inbound toy_farmer).
  intros key bucket Hkey. cbn in Hkey. rewrite lookup_empty in Hkey. discriminate.
Defined.

(** X2 on the same five messages. *)
Lemma every_key_stays_stamped_witness :
  stamped (handle_all toy_inbound toy_farmer).
Proof.
  apply (every_key_stays_stamped toy_inbound toy_farmer).
  intros key [Hkey|[Hkey|[Hkey|Hkey]]]; cbn in Hkey; rewrite lookup_empty in Hkey;
    by apply is_Some_None in Hkey.
Defined.

(** X3 on the same five messages. *)
Lemma responses_stay_bounded_witness :
  responses_bounded (handle_all toy_inbound toy_farmer)
  ∧ (∀ key recorded,
       proofs_of_space (handle_all toy_inbound toy_farmer) !! key = Some recorded →
       (length recorded <= 6)%nat).
Proof.
  refine (responses_stay_bounded toy_inbound toy_farmer _).
  split.
  - intros key count Hkey. cbn in Hkey. rewrite lookup_empty in Hkey. discriminate.
  - intros key recorded Hkey. cbn in Hkey. rewrite lookup_empty in Hkey. discriminate.
Defined.

(** X4 on the same five messages. *)
Lemma quality_index_stays_backed_witness :
  quality_backed (handle_all toy_inbound toy_farmer).
Proof.
  apply (quality_index_stays_backed toy_inbound toy_farmer).
  intros quality plot challenge_hash key node_id Hkey.
  cbn in Hkey. rewrite lookup_empty in Hkey. discriminate.
Defined.

(** X5 on a second signage point for the key of [toy_sp]. *)
Lemma new_signage_point_appends_witness :
  sps (state_of (run (new_signage_point toy_late_sp) toy_farmer_with_sp)) !! 101%N
  = Some [toy_sp; toy_late_sp].
Proof.
  refine (proj1 (new_signage_point_appends toy_late_sp toy_farmer_with_sp _)).
  change (toy_late_sp ∉ [toy_sp]).
  intros Hin. apply list_elem_of_singleton in Hin. discriminate Hin.
Defined.

(** X6 on [toy_sp] at the farmer that pools at difficulty 10. *)
Lemma new_signage_point_forwards_witness :
  outcome_of (run (new_signage_point toy_sp) toy_farmer) = Returned None.
Proof.
  refine (proj1 (new_signage_point_forwards toy_sp toy_farmer _ _));
    unfold fits_uint64; cbn; lia.
Defined.

(** X7 on a proof that does not verify. *)
Lemma invalid_proof_is_not_counted_witness :
  run (new_proof_of_space (toy_proof 0) toy_harvester) toy_farmer_with_sp =
    (Returned None, admitted (toy_proof 0) toy_farmer_with_sp,
     [Log ERROR (Invalid_proof_of_space (toy_pospace 0))]).
Proof.
  refine (proj1 (invalid_proof_is_not_counted (toy_proof 0) toy_harvester
                   toy_farmer_with_sp toy_sp [] eq_refl _ eq_refl)).
  vm_compute. discriminate.
Defined.




(** X12 on a proof for a pool contract that misses the block threshold:
    there is no pool public key to hand it to the pool with. *)
Lemma intake_returns_outside_pool_path_witness :
  (∃ reply,
     outcome_of (run (new_proof_of_space (toy_contract_proof 42) toy_harvester)
                   toy_farmer_with_eos_sp) = Returned reply)
  ∧ Forall is_log
      (trace_of (run (new_proof_of_space (toy_contract_proof 42) toy_harvester)
                   toy_farmer_with_eos_sp)).
Proof.
  apply (intake_returns_outside_pool_path (toy_contract_proof 42) toy_harvester
           toy_farmer_with_eos_sp).
  do 3 right. exists toy_eos_sp, []. split; [reflexivity|].
  right. exists 42%N. split; [reflexivity|].
  split; [split; [reflexivity|reflexivity]|].
  right. split; [reflexivity|]. left. reflexivity.
Defined.

(** X13 on a harvester that does not answer. *)
Lemma pool_path_rejects_bad_answer_witness :
  process_new_proof_of_space_for_pool (toy_eos_proof 42) toy_silent_harvester 5%N 42%N
    toy_farmer_with_eos_sp =
    (Returning None, toy_farmer_with_eos_sp,
     [PeerRequestSignatures 901%N
        (pool_signature_request (toy_eos_proof 42) toy_farmer_with_eos_sp);
      Log ERROR Invalid_response_from_harvester]).
Proof.
  refine (proj1 (pool_path_rejects_bad_answer (toy_eos_proof 42) toy_silent_harvester
                   5%N 42%N toy_farmer_with_eos_sp _) eq_refl).
  vm_compute. reflexivity.
Defined.

(** X14 on the partial that [toy_eos_proof 42] makes. *)
Lemma submitted_partial_is_verified_witness :
  ∃ response share,
    request_signatures_reply toy_harvester
      (pool_signature_request (toy_eos_proof 42) toy_farmer_with_eos_sp) = Some response
    ∧ message_signatures response = [share]
    ∧ farmer_pk response = 11%N.
Proof.
  destruct (submitted_partial_is_verified (toy_eos_proof 42) toy_harvester 5%N 42%N
              toy_farmer_with_eos_sp
              (Build_SubmitPartial
                 (pool_partial_payload (toy_eos_proof 42) toy_farmer_with_eos_sp) 7070))
    as (response & sk & share & pool_sk & Hreply & Hshare & Hsk & Hpk & _).
  - vm_compute. do 2 right. left. reflexivity.
  - exists response, share. repeat split; [exact Hreply|exact Hshare|].
    apply list_elem_of_singleton in Hsk. rewrite <- Hpk, Hsk. reflexivity.
Defined.

(** X19 on the harvester's answer for [toy_sp]: the proof [toy_proof 42]
    is declared with the pool target signed by the pool key. *)
Lemma respond_signatures_declares_witness :
  trace_of (run (respond_signatures (toy_sp_response 0)) toy_farmer_with_proof) =
    let request :=
      {| dp_challenge_hash := 100;
         dp_challenge_chain_sp := 101;
         dp_signage_point_index := 3;
         dp_reward_chain_sp := 102;
         proof_of_space := toy_pospace 42;
         challenge_chain_sp_signature := 1818;
         reward_chain_sp_signature := 1836;
         farmer_puzzle_hash := 1;
         dp_pool_target := Some (Build_PoolTarget 2 0);
         pool_signature := Some 34%N |} in
    [StateChanged_proof request true;
     SendToAll [declare_proof_of_space request] FULL_NODE].
Proof.
  refine (f_equal trace_of
    (respond_signatures_declares (toy_sp_response 0) toy_farmer_with_proof toy_sp []
       [("plot-a"%string, toy_pospace 42)] (toy_pospace 42) 42%N
       (7 * 101)%N 102%N (7 * 102)%N [] [] 11%N
       (Some (Build_PoolTarget 2 0, 34%N))
       eq_refl eq_refl eq_refl eq_refl eq_refl eq_refl eq_refl eq_refl _ eq_refl
       eq_refl eq_refl eq_refl _)).
  - intros sk Hsk. by apply elem_of_nil in Hsk.
  - left. exists 5%N, 17%N. repeat split; reflexivity.
Defined.

(** X20 on the harvester's answer with the two block signatures. *)
Lemma respond_signatures_signs_block_witness :
  run (respond_signatures (toy_block_response "plot-a" 11)) toy_farmer_with_proof =
    (Returned None, toy_farmer_with_proof,
     [SendToAll [signed_values (Build_SignedValues 42 5418 5436)] FULL_NODE]).
Proof.
  refine (respond_signatures_signs_block (toy_block_response "plot-a" 11)
            toy_farmer_with_proof toy_sp []
            [("plot-a"%string, toy_pospace 42)] (toy_pospace 42) 42%N
            301%N (7 * 301)%N 302%N (7 * 302)%N [] [] 11%N
            eq_refl eq_refl eq_refl _ eq_refl eq_refl eq_refl eq_refl _ eq_refl
            eq_refl eq_refl eq_refl).
  - discriminate.
  - intros sk Hsk. by apply elem_of_nil in Hsk.
Defined.

(** X21 on an answer that reaches a farmer with an empty registry. *)
Lemma respond_signatures_unregistered_key_witness :
  run (respond_signatures (toy_sp_response 0)) toy_farmer =
    (Returned None, toy_farmer, [Log WARNING (Do_not_have_challenge_hash 100)]).
Proof.
  exact (respond_signatures_unregistered_key (toy_sp_response 0) toy_farmer eq_refl).
Defined.

(** X22 on a farmer whose recorded proof does not verify. *)
Lemma respond_signatures_invalid_recorded_proof_witness :
  run (respond_signatures (toy_sp_response 0)) toy_farmer_with_stale_proof =
    (Returned None, toy_farmer_with_stale_proof,
     [Log WARNING (Have_invalid_PoSpace (toy_pospace 0))]).
Proof.
  exact (respond_signatures_invalid_recorded_proof (toy_sp_response 0)
           toy_farmer_with_stale_proof 3 true
           [("plot-a"%string, toy_pospace 0)] (toy_pospace 0)
           eq_refl eq_refl eq_refl eq_refl).
Defined.


(** X24 on an answer for a key with no proof on record: the [KeyError]
    escapes. *)
Lemma respond_signatures_escapes_witness :
  proofs_of_space toy_farmer_with_sp !! 101%N = None.
Proof.
  exact (respond_signatures_escapes (toy_sp_response 0) toy_farmer_with_sp KeyError
           eq_refl).
Defined.
